(** * chatscribe2: a shallow embedding of the document-chat pipeline

    The development follows the Python sources under [app/]:
    - [app/core/config.py]                  (module [Config])
    - [app/core/file_processor.py]          (module [FileProcessor])
    - [app/core/ai_service.py]              (module [AIService])
    - [app/core/alternative_ai_service.py]  (module [AlternativeAIService])
    - [app/crud/crud.py], [app/models/models.py]  (module [Crud])
    - [app/api/documents.py], [app/api/chat.py]   (modules [DocumentsApi], [ChatApi])
    - [app/api/web.py]                      (module [WebApi])

    A Python [str] is modelled by the [string] that holds its UTF-8
    encoding (a lone surrogate by its three bytes), so that a string
    literal of this development denotes the [str] with the same text; the
    built-ins that count or classify characters ([len], slicing, [split],
    [strip]) work on the characters of that encoding.  Fallible Python
    code returns a [result]; a [try ... except Exception] block is the
    handler [try_except]. *)

From stdpp Require Import gmap strings.
From Stdlib Require Import ZArith List String Ascii Bool Lia.
From Stdlib Require Import Permutation Sorted Orders Mergesort DecimalString DecimalZ.
Import ListNotations.

Local Open Scope string_scope.

(* ===================================================================== *)
(** ** Python built-ins on [str] *)
(* ===================================================================== *)

Module Py.

(** *** Characters

    A character of a [str] is one byte of its encoding together with the
    continuation bytes (0x80 to 0xbf) behind it. *)

Definition is_continuation (c : ascii) : bool :=
  let n := N_of_ascii c in ((0x80 <=? n) && (n <=? 0xbf))%N.

(** [s] goes on with a continuation byte. *)
Definition continues (s : string) : bool :=
  match s with
  | String d _ => is_continuation d
  | EmptyString => false
  end.

(** [list(s)]: the characters of [s], each with its encoding. *)
Fixpoint chars (s : string) : list string :=
  match s with
  | EmptyString => []
  | String c r =>
      match chars r with
      | h :: t =>
          if continues r then String c h :: t
          else String c EmptyString :: h :: t
      | [] => [String c EmptyString]
      end
  end.

(** [''.join(l)] *)
Fixpoint text (l : list string) : string :=
  match l with
  | [] => EmptyString
  | h :: t => h ++ text t
  end.

(** [ord(c)] of a character, from its encoding in one to four bytes;
    [None] for bytes that encode no character. *)
Definition ord (c : string) : option N :=
  match List.map N_of_ascii (list_ascii_of_string c) with
  | [a] => if (a <=? 0x7f)%N then Some a else None
  | [a; b] =>
      if ((0xc2 <=? a) && (a <=? 0xdf))%N
      then Some ((a - 0xc0) * 0x40 + (b - 0x80))%N
      else None
  | [a; b; c] =>
      let n := ((a - 0xe0) * 0x1000 + (b - 0x80) * 0x40 + (c - 0x80))%N in
      if ((0xe0 <=? a) && (a <=? 0xef) && (0x800 <=? n))%N then Some n
      else None
  | [a; b; c; d] =>
      let n := ((a - 0xf0) * 0x40000 + (b - 0x80) * 0x1000
                + (c - 0x80) * 0x40 + (d - 0x80))%N in
      if ((0xf0 <=? a) && (a <=? 0xf4) && (0x10000 <=? n) && (n <=? 0x10ffff))%N
      then Some n
      else None
  | _ => None
  end.

(** The code points for which [str.isspace] holds, which are those that
    [str.split()] cuts at and [str.strip()] removes: U+0009 to U+000D,
    U+001C to U+0020, U+0085, U+00A0, U+1680, U+2000 to U+200A, U+2028,
    U+2029, U+202F, U+205F and U+3000. *)
Definition is_whitespace (n : N) : bool :=
  (((0x09 <=? n) && (n <=? 0x0d)) || ((0x1c <=? n) && (n <=? 0x20))
   || (n =? 0x85) || (n =? 0xa0) || (n =? 0x1680)
   || ((0x2000 <=? n) && (n <=? 0x200a))
   || (n =? 0x2028) || (n =? 0x2029) || (n =? 0x202f) || (n =? 0x205f)
   || (n =? 0x3000))%N.

(** [c.isspace()] for a character [c]. *)
Definition is_space (c : string) : bool :=
  match ord c with
  | Some n => is_whitespace n
  | None => false
  end.

(** *** Letter case

    [lower] changes the letters [A] to [Z] and nothing else.  [str.lower]
    also changes letters outside ASCII, but it maps no character outside
    ASCII to an ASCII one except U+212A (to [k]) and U+0130 (to [i]
    followed by U+0307); the sources search lowered text only for
    ["context:"], ["question:"] and the three file extensions, and
    neither of the two can take part in an occurrence of these. *)

(** [c.isupper()] on the ASCII range. *)
Definition is_upper (c : ascii) : bool :=
  let n := N_of_ascii c in ((65 <=? n) && (n <=? 90))%N.

Definition lower_char (c : ascii) : ascii :=
  if is_upper c then ascii_of_N (N_of_ascii c + 32) else c.

(** [s.lower()] *)
Fixpoint lower (s : string) : string :=
  match s with
  | EmptyString => EmptyString
  | String c r => String (lower_char c) (lower r)
  end.

(** [len(s)]: the number of characters. *)
Definition len (s : string) : nat := List.length (chars s).

(** [needle in hay] *)
Fixpoint contains (needle hay : string) : bool :=
  String.prefix needle hay ||
  match hay with
  | EmptyString => false
  | String _ r => contains needle r
  end.

(** Cutting a string at every byte that satisfies [p]; the pieces
    between two cuts are kept even when empty, so the result is never the
    empty list. *)
Fixpoint split_on (p : ascii -> bool) (s : string) : list string :=
  match s with
  | EmptyString => [EmptyString]
  | String c r =>
      if p c then EmptyString :: split_on p r
      else match split_on p r with
           | h :: t => String c h :: t
           | [] => [String c EmptyString]
           end
  end.

(** [s.split(sep)] for a separator of one ASCII character. *)
Definition split_char (sep : ascii) (s : string) : list string :=
  split_on (Ascii.eqb sep) s.

Definition nonempty (s : string) : bool :=
  match s with EmptyString => false | String _ _ => true end.

(** Cutting a list at every element that satisfies [p], the pieces
    between two cuts kept even when empty. *)
Fixpoint cut_on {A} (p : A -> bool) (l : list A) : list (list A) :=
  match l with
  | [] => [[]]
  | x :: r =>
      if p x then [] :: cut_on p r
      else match cut_on p r with
           | h :: t => (x :: h) :: t
           | [] => [[x]]
           end
  end.

(** [s.split()] : maximal runs of characters that are not whitespace. *)
Definition split (s : string) : list string :=
  List.filter nonempty (List.map text (cut_on is_space (chars s))).

(** [sep.join(l)] *)
Fixpoint join (sep : string) (l : list string) : string :=
  match l with
  | [] => EmptyString
  | [x] => x
  | x :: rest => x ++ sep ++ join sep rest
  end.

(** [s[:n]] for [n >= 0]: the first [n] characters. *)
Definition slice_to (n : nat) (s : string) : string :=
  text (List.firstn n (chars s)).

(** Dropping the whitespace in front of a list of characters. *)
Fixpoint lstrip_chars (l : list string) : list string :=
  match l with
  | [] => []
  | c :: r => if is_space c then lstrip_chars r else l
  end.

(** Dropping the whitespace at the end of a list of characters. *)
Fixpoint rstrip_chars (l : list string) : list string :=
  match l with
  | [] => []
  | c :: r =>
      match rstrip_chars r with
      | [] => if is_space c then [] else [c]
      | r' => c :: r'
      end
  end.

(** [s.strip()] *)
Definition strip (s : string) : string :=
  text (rstrip_chars (lstrip_chars (chars s))).

(** [str(n)] for an [int]: decimal digits, with a leading minus sign for a
    negative number. *)
Definition str_of_Z (z : Z) : string := NilZero.string_of_int (Z.to_int z).

Definition str_of_nat (n : nat) : string := str_of_Z (Z.of_nat n).

(** Truthiness of a [str]: [bool(s)]. *)
Definition truthy (s : string) : bool := nonempty s.

End Py.

(* ===================================================================== *)
(** ** Exceptions *)
(* ===================================================================== *)

(** The exceptions the sources distinguish in their [except] clauses.  All
    of them derive from [Exception]. *)
Inductive exn : Type :=
| ConnectionError (msg : string)
| UnicodeDecodeError (msg : string)
| IndexError (msg : string)
| KeyError (msg : string)
| AttributeError (msg : string)
| HTTPException (status_code : Z) (detail : string)
| Exception (msg : string).

Inductive result (A : Type) : Type :=
| Ok (a : A)
| Raise (e : exn).
Arguments Ok {A} a.
Arguments Raise {A} e.

Definition bind {A B} (m : result A) (k : A -> result B) : result B :=
  match m with
  | Ok a => k a
  | Raise e => Raise e
  end.

Notation "x <- m ;; k" := (bind m (fun x => k))
  (at level 100, m at next level, right associativity).

(** [try: body  except Exception as e: handler e] *)
Definition try_except {A} (body : result A) (handler : exn -> result A) : result A :=
  match body with
  | Ok a => Ok a
  | Raise e => handler e
  end.

Definition raises {A} (m : result A) : bool :=
  match m with Ok _ => false | Raise _ => true end.

Definition exn_msg (e : exn) : string :=
  match e with
  | ConnectionError m | UnicodeDecodeError m | IndexError m
  | KeyError m | AttributeError m | Exception m => m
  | HTTPException _ d => d
  end.

(* ===================================================================== *)
(** ** [pathlib]: the part of [PurePosixPath] the sources use *)
(* ===================================================================== *)

Module Pathlib.

(** Index of the last occurrence of [c], [s.rfind(c)]; [None] is -1.
    Within this module positions and lengths are counted in bytes; the
    characters looked for are ASCII, so the pieces cut are the same as
    when counting characters. *)
Fixpoint rfind (c : ascii) (s : string) : option nat :=
  match s with
  | EmptyString => None
  | String a r =>
      match rfind c r with
      | Some i => Some (S i)
      | None => if Ascii.eqb a c then Some 0 else None
      end
  end.

(** [s[n:]] *)
Fixpoint slice_from (n : nat) (s : string) : string :=
  match n, s with
  | O, _ => s
  | S n', String _ r => slice_from n' r
  | S _, EmptyString => EmptyString
  end.

(** [Path(p).parts] without the root: the components of the path; empty
    components and ["."] components are dropped when the path is parsed. *)
Definition parts (p : string) : list string :=
  List.filter (fun x => Py.nonempty x && negb (String.eqb x "."))
              (Py.split_char "/"%char p).

(** [Path(p).root]: ["/"] for an absolute path, ["//"] when the path
    starts with exactly two slashes, and [""] for a relative path. *)
Definition root (p : string) : string :=
  if String.prefix "///" p then "/"
  else if String.prefix "//" p then "//"
  else if String.prefix "/" p then "/"
  else "".

(** [str] of the path with this root and these components. *)
Definition render (root : string) (parts : list string) : string :=
  match root, parts with
  | EmptyString, [] => "."
  | _, _ => root ++ Py.join "/" parts
  end.

(** [str(Path(a) / b)]: an absolute [b] replaces [a]. *)
Definition joinpath (a b : string) : string :=
  if Py.nonempty (root b) then render (root b) (parts b)
  else render (root a) (parts a ++ parts b).

(** [Path(p).name]: the last component of the path; empty components and
    ["."] components are dropped when the path is parsed. *)
Definition name (p : string) : string :=
  List.last
    (List.filter (fun x => Py.nonempty x && negb (String.eqb x "."))
                 (Py.split_char "/"%char p))
    EmptyString.

(** [Path(p).suffix]: the part of the name from its last dot, when that
    dot is neither the first nor the last character of the name. *)
Definition suffix (p : string) : string :=
  let n := name p in
  match rfind "."%char n with
  | Some i =>
      if Nat.ltb 0 i && Nat.ltb (S i) (String.length n) then slice_from i n
      else EmptyString
  | None => EmptyString
  end.

End Pathlib.

(* ===================================================================== *)
(** ** [uuid]: how a UUID is written *)
(* ===================================================================== *)

Module UUID.

Definition hex_digit (n : N) : ascii :=
  match n with
  | 0 => "0" | 1 => "1" | 2 => "2" | 3 => "3" | 4 => "4" | 5 => "5"
  | 6 => "6" | 7 => "7" | 8 => "8" | 9 => "9" | 10 => "a" | 11 => "b"
  | 12 => "c" | 13 => "d" | 14 => "e" | _ => "f"
  end%N%char.

(** The last [width] hexadecimal digits of [n]. *)
Fixpoint hex (width : nat) (n : N) : string :=
  match width with
  | O => EmptyString
  | S k => hex k (n / 16) ++ String (hex_digit (n mod 16)) EmptyString
  end.

(** [str(u)] for the UUID whose 128-bit value [u.int] is [int]: its 32
    hexadecimal digits in groups of 8, 4, 4, 4 and 12. *)
Definition str (int : N) : string :=
  hex 8 (N.shiftr int 96) ++ "-" ++ hex 4 (N.shiftr int 80) ++ "-"
  ++ hex 4 (N.shiftr int 64) ++ "-" ++ hex 4 (N.shiftr int 48) ++ "-"
  ++ hex 12 int.

End UUID.

(* ===================================================================== *)
(** ** [app/core/config.py] *)
(* ===================================================================== *)

Module Config.

Definition PINECONE_INDEX_NAME : string := "chatscribe2".
Definition UPLOAD_DIR : string := "uploads".
Definition MAX_FILE_SIZE : Z := (10 * 1024 * 1024)%Z.
(** A Python [set]; only membership and (for one message) the elements
    are used. *)
Definition ALLOWED_EXTENSIONS : list string := [".pdf"; ".docx"; ".txt"].

End Config.

(** [x in s] for a set of strings. *)
Definition set_mem (x : string) (s : list string) : bool :=
  List.existsb (String.eqb x) s.

(* ===================================================================== *)
(** ** [app/models/models.py]: the rows the claims read *)
(* ===================================================================== *)

Record Document := {
  doc_id : Z;
  doc_filename : string;
  doc_original_filename : string;
  doc_file_path : string;
  doc_file_type : string;
  doc_file_size : Z;
  doc_content : option string;
  doc_uploaded_at : Z;
  doc_user_id : option Z
}.

Record ChatSession := {
  cs_id : Z;
  cs_title : string;
  cs_created_at : Z;
  cs_updated_at : Z;
  cs_user_id : option Z;
  cs_document_id : Z
}.

Record ChatMessage := {
  msg_id : Z;
  msg_content : string;
  msg_is_user : bool;
  msg_created_at : Z;
  msg_session_id : option Z
}.

(** The relational store, one list of rows per table, in insertion order. *)
Record Db := {
  documents : list Document;
  chat_sessions : list ChatSession;
  chat_messages : list ChatMessage
}.

(* ===================================================================== *)
(** ** The vector index, the file system and the outside world *)
(* ===================================================================== *)

(** The coordinates of an embedding are floats in the sources; no claim
    reads them, so they are carried as an uninterpreted payload. *)
Definition embedding : Type := list Z.

(** One record of the index: [{"id", "values", "metadata": {"text",
    "document_id"}}]. *)
Record vector := {
  v_id : string;
  v_values : embedding;
  v_text : string;
  v_document_id : option Z
}.

(** The content of the Pinecone index: a record is addressed by its
    namespace and its id.  A namespace exists exactly when it holds a
    record. *)
Abbreviation index_state := (gmap (string * string) vector).

Record World := {
  fs : gmap string (list Byte.byte);
  db : Db;
  pinecone : index_state
}.

(** The calls that leave the process.  Each may fail in the run at hand. *)
Inductive remote_op : Type :=
| OpDelete | OpUpsert | OpStats | OpStore | OpSearch | OpEmbed | OpFromTexts.

(** What [requests.post] to Ollama's [/api/generate] does. *)
Inductive HttpOutcome : Type :=
| Reply (status_code : Z) (json_response : result (option string))
| PostRaises (e : exn).

(** One message of a [ConversationBufferMemory]. *)
Inductive Message : Type :=
| HumanMessage (content : string)
| AIMessage (content : string).

(** Everything a run takes from outside the repository: third-party
    libraries and remote services.  Nothing is assumed about them. *)
Record Env := {
  fault : remote_op -> option exn;
  OPENAI_API_KEY : string;
  SENTENCE_TRANSFORMERS_AVAILABLE : bool;
  load_sentence_transformer : result unit;
  pinecone_connects : bool;
  (** [uuid.uuid4().int], the 128 bits drawn for the file name *)
  uuid4_int : N;
  now : Z;
  write_fault : option exn;
  pdf_pages : list Byte.byte -> result (list string);
  docx_paragraphs : list Byte.byte -> result (list string);
  decode_utf8 : list Byte.byte -> result string;
  decode_latin1 : list Byte.byte -> result string;
  split_text : nat -> nat -> string -> list string;
  embed_documents : list string -> list embedding;
  fresh_ids : nat -> list string;
  similarity_search : index_state -> string -> string -> nat -> list string;
  ollama_post : string -> HttpOutcome;
  langchain_fault : string -> option exn;
  qa_chain : list Message -> index_state -> string -> string ->
             result (list (string * string));
  completion_create : string -> result (list string)
}.

(** [str(uuid.uuid4())] *)
Definition uuid4 (env : Env) : string := UUID.str (uuid4_int env).
Arguments uuid4 : simpl never.

(** *** Stateful, fallible code: state passing with exceptions.  The state
    reached when an exception is raised is kept, as in Python. *)
Definition M (A : Type) : Type := World -> World * result A.

Definition ret {A} (a : A) : M A := fun w => (w, Ok a).
Definition raise {A} (e : exn) : M A := fun w => (w, Raise e).
Definition lift {A} (r : result A) : M A := fun w => (w, r).

Definition mbind {A B} (m : M A) (k : A -> M B) : M B :=
  fun w =>
    match m w with
    | (w', Ok a) => k a w'
    | (w', Raise e) => (w', Raise e)
    end.

Notation "x <~ m ;; k" := (mbind m (fun x => k))
  (at level 100, m at next level, right associativity).

(** [try: body  except Exception as e: handler e], with state. *)
Definition try_catch {A} (body : M A) (handler : exn -> M A) : M A :=
  fun w =>
    match body w with
    | (w', Ok a) => (w', Ok a)
    | (w', Raise e) => handler e w'
    end.

Definition get_world : M World := fun w => (w, Ok w).

Definition set_fs (f : gmap string (list Byte.byte)) : M unit :=
  fun w => ({| fs := f; db := db w; pinecone := pinecone w |}, Ok tt).
Definition set_db (d : Db) : M unit :=
  fun w => ({| fs := fs w; db := d; pinecone := pinecone w |}, Ok tt).
Definition set_pinecone (p : index_state) : M unit :=
  fun w => ({| fs := fs w; db := db w; pinecone := p |}, Ok tt).

(** A remote call: it fails when the environment says so. *)
Definition remote (env : Env) (op : remote_op) : M unit :=
  match fault env op with
  | Some e => raise e
  | None => ret tt
  end.

Definition nl : string := String (ascii_of_nat 10) EmptyString.

(** Truthiness of an [Optional[str]]: [None] and [""] are falsy. *)
Definition truthy_opt (o : option string) : bool :=
  match o with
  | Some s => Py.truthy s
  | None => false
  end.

(* ===================================================================== *)
(** ** [app/core/file_processor.py] *)
(* ===================================================================== *)

Module FileProcessor.

Definition is_allowed_file (filename : string) : bool :=
  set_mem (Py.lower (Pathlib.suffix filename)) Config.ALLOWED_EXTENSIONS.

Definition generate_unique_filename (env : Env) (original_filename : string) : string :=
  let ext := Pathlib.suffix original_filename in
  uuid4 env ++ ext.

(** [self.upload_dir / filename], then [open(file_path, "wb")] and
    [f.write(file_content)].  The upload directory exists (it is made
    when the processor is created), so opening it for writing raises
    [IsADirectoryError]; [write_fault] is whatever else [open] or [write]
    raise in the run at hand (a missing parent directory, a directory at
    the path, a name the system refuses). *)
Definition save_file (env : Env) (file_content : list Byte.byte) (filename : string)
  : M string :=
  let file_path := Pathlib.joinpath Config.UPLOAD_DIR filename in
  if String.eqb file_path Config.UPLOAD_DIR then
    raise (Exception "[Errno 21] Is a directory: 'uploads'")
  else
    match write_fault env with
    | Some e => raise e
    | None =>
        w <~ get_world ;;
        _ <~ set_fs (<[file_path := file_content]> (fs w)) ;;
        ret file_path
    end.

(** [open(file_path, "rb")] and reading it whole. *)
Definition read_file (file_path : string) : M (list Byte.byte) :=
  w <~ get_world ;;
  match fs w !! file_path with
  | Some content => ret content
  | None => raise (Exception "No such file or directory")
  end.

Definition extract_text_from_pdf (env : Env) (file_path : string) : M (option string) :=
  try_catch
    (content <~ read_file file_path ;;
     pages <~ lift (pdf_pages env content) ;;
     let text := List.fold_left (fun text page => text ++ page ++ nl) pages "" in
     ret (Some (Py.strip text)))
    (fun _ => ret None).

Definition extract_text_from_docx (env : Env) (file_path : string) : M (option string) :=
  try_catch
    (content <~ read_file file_path ;;
     paragraphs <~ lift (docx_paragraphs env content) ;;
     let text := List.fold_left (fun text p => text ++ p ++ nl) paragraphs "" in
     ret (Some (Py.strip text)))
    (fun _ => ret None).

Definition extract_text_from_txt (env : Env) (file_path : string) : M (option string) :=
  try_catch
    (content <~ read_file file_path ;;
     text <~ lift (decode_utf8 env content) ;;
     ret (Some (Py.strip text)))
    (fun e =>
       match e with
       | UnicodeDecodeError _ =>
           try_catch
             (content <~ read_file file_path ;;
              text <~ lift (decode_latin1 env content) ;;
              ret (Some (Py.strip text)))
             (fun _ => ret None)
       | _ => ret None
       end).

Definition extract_text (env : Env) (file_path file_type : string) : M (option string) :=
  if String.eqb (Py.lower file_type) ".pdf" then extract_text_from_pdf env file_path
  else if String.eqb (Py.lower file_type) ".docx" then extract_text_from_docx env file_path
  else if String.eqb (Py.lower file_type) ".txt" then extract_text_from_txt env file_path
  else ret None.

Definition process_uploaded_file (env : Env) (file_content : list Byte.byte)
    (original_filename : string)
  : M (option string * option string * option string) :=
  try_catch
    (if negb (is_allowed_file original_filename) then ret (None, None, None)
     else
       let unique_filename := generate_unique_filename env original_filename in
       file_path <~ save_file env file_content unique_filename ;;
       let file_type := Py.lower (Pathlib.suffix original_filename) in
       extracted_text <~ extract_text env file_path file_type ;;
       ret (Some file_path, Some unique_filename, extracted_text))
    (fun _ => ret (None, None, None)).

(** [os.path.exists(file_path)], then [os.remove(file_path)];
    [remove_fault] is what [os.remove] raises in the run at hand, if
    anything. *)
Definition delete_file (remove_fault : option exn) (file_path : string) : M bool :=
  try_catch
    (w <~ get_world ;;
     match fs w !! file_path with
     | Some _ =>
         match remove_fault with
         | Some e => raise e
         | None =>
             _ <~ set_fs (base.delete file_path (fs w)) ;;
             ret true
         end
     | None => ret false
     end)
    (fun _ => ret false).

End FileProcessor.

(* ===================================================================== *)
(** ** [app/crud/crud.py] *)
(* ===================================================================== *)

(** [DocumentCreate] of [app/schemas/schemas.py]. *)
Record DocumentCreate := {
  dc_filename : string;
  dc_original_filename : string;
  dc_file_path : string;
  dc_file_type : string;
  dc_file_size : Z;
  dc_content : option string
}.

(** [DocumentCreate(filename=..., ...)]: the model validates that the
    required [str] fields are strings. *)
Definition new_DocumentCreate (filename : option string) (original_filename : string)
    (file_path : option string) (file_type : string) (file_size : Z)
    (content : option string) : result DocumentCreate :=
  match filename, file_path with
  | Some filename, Some file_path =>
      Ok {| dc_filename := filename;
            dc_original_filename := original_filename;
            dc_file_path := file_path;
            dc_file_type := file_type;
            dc_file_size := file_size;
            dc_content := content |}
  | _, _ => Raise (Exception "ValidationError")
  end.

(** [ChatMessageCreate] of [app/schemas/schemas.py]. *)
Record ChatMessageCreate := {
  mc_content : string;
  mc_is_user : bool;
  mc_session_id : Z
}.

(** What a caller passes where a schema object is expected: the schema
    object, or a plain [dict] with the same keys. *)
Inductive payload (S : Type) : Type :=
| Schema (s : S)
| Dict (d : S).
Arguments Schema {S} s.
Arguments Dict {S} d.

(** [message.dict()]: a method of pydantic models; a [dict] has none. *)
Definition dict_method {S} (message : payload S) : result S :=
  match message with
  | Schema s => Ok s
  | Dict _ => Raise (AttributeError "'dict' object has no attribute 'dict'")
  end.

(** [ChatSessionCreate] of [app/schemas/schemas.py]. *)
Record ChatSessionCreate := {
  sc_title : string;
  sc_document_id : Z
}.

Module MsgOrder <: Orders.TotalLeBool.

Definition t := ChatMessage.

Definition leb (x y : ChatMessage) : bool :=
  (msg_created_at x <=? msg_created_at y)%Z.

Lemma leb_total : forall x y, leb x y = true \/ leb y x = true.
Proof. intros x y. unfold leb. lia. Qed.

End MsgOrder.

Module MsgSort := Mergesort.Sort MsgOrder.

Module Crud.

(** The primary key the database assigns to a new row. *)
Definition next_id (ids : list Z) : Z := (1 + List.fold_right Z.max 0 ids)%Z.

Definition create_document (env : Env) (document : DocumentCreate) (user_id : Z)
  : M Document :=
  w <~ get_world ;;
  let d := db w in
  let db_document :=
    {| doc_id := next_id (List.map doc_id (documents d));
       doc_filename := dc_filename document;
       doc_original_filename := dc_original_filename document;
       doc_file_path := dc_file_path document;
       doc_file_type := dc_file_type document;
       doc_file_size := dc_file_size document;
       doc_content := dc_content document;
       doc_uploaded_at := now env;
       doc_user_id := Some user_id |} in
  _ <~ set_db {| documents := documents d ++ [db_document];
                 chat_sessions := chat_sessions d;
                 chat_messages := chat_messages d |} ;;
  ret db_document.

(** [.filter(...).first()] *)
Definition get_chat_session (d : Db) (session_id user_id : Z) : option ChatSession :=
  List.find
    (fun s => (cs_id s =? session_id)%Z &&
              match cs_user_id s with Some u => (u =? user_id)%Z | None => false end)
    (chat_sessions d).

(** [.filter(ChatMessage.session_id == session_id)
     .order_by(ChatMessage.created_at.asc()).all()] *)
Definition get_session_messages (d : Db) (session_id : Z) : list ChatMessage :=
  MsgSort.sort
    (List.filter
       (fun m => match msg_session_id m with
                 | Some s => (s =? session_id)%Z
                 | None => false
                 end)
       (chat_messages d)).

Definition create_chat_message (env : Env) (message : payload ChatMessageCreate)
  : M ChatMessage :=
  fields <~ lift (dict_method message) ;;
  w <~ get_world ;;
  let d := db w in
  let db_message :=
    {| msg_id := next_id (List.map msg_id (chat_messages d));
       msg_content := mc_content fields;
       msg_is_user := mc_is_user fields;
       msg_created_at := now env;
       msg_session_id := Some (mc_session_id fields) |} in
  _ <~ set_db {| documents := documents d;
                 chat_sessions := chat_sessions d;
                 chat_messages := chat_messages d ++ [db_message] |} ;;
  ret db_message.

Definition update_chat_session_timestamp (env : Env) (session_id : Z) : M unit :=
  w <~ get_world ;;
  let d := db w in
  set_db {| documents := documents d;
            chat_sessions :=
              List.map
                (fun s =>
                   if (cs_id s =? session_id)%Z then
                     {| cs_id := cs_id s; cs_title := cs_title s;
                        cs_created_at := cs_created_at s;
                        cs_updated_at := now env;
                        cs_user_id := cs_user_id s;
                        cs_document_id := cs_document_id s |}
                   else s)
                (chat_sessions d);
            chat_messages := chat_messages d |}.

(** [.filter(Document.id == document_id, Document.user_id == user_id)
     .first()] *)
Definition get_document (d : Db) (document_id user_id : Z) : option Document :=
  List.find
    (fun doc => (doc_id doc =? document_id)%Z &&
                match doc_user_id doc with Some u => (u =? user_id)%Z | None => false end)
    (documents d).

Definition create_chat_session (env : Env) (session : payload ChatSessionCreate)
    (user_id : Z) : M ChatSession :=
  fields <~ lift (dict_method session) ;;
  w <~ get_world ;;
  let d := db w in
  let db_session :=
    {| cs_id := next_id (List.map cs_id (chat_sessions d));
       cs_title := sc_title fields;
       cs_created_at := now env;
       cs_updated_at := now env;
       cs_user_id := Some user_id;
       cs_document_id := sc_document_id fields |} in
  _ <~ set_db {| documents := documents d;
                 chat_sessions := chat_sessions d ++ [db_session];
                 chat_messages := chat_messages d |} ;;
  ret db_session.

End Crud.

(* ===================================================================== *)
(** ** Operations of the index client ([pinecone], [langchain_pinecone]) *)
(* ===================================================================== *)

Module Pinecone.

(** The namespaces [describe_index_stats()] reports. *)
Definition namespaces (st : index_state) : gset string :=
  set_map (C := gset (string * string)) (D := gset string) fst (dom st).

Definition delete_all_in (ns : string) (st : index_state) : index_state :=
  base.filter (fun kv : (string * string) * vector => kv.1.1 <> ns) st.

Definition upsert_in (vectors : list vector) (ns : string) (st : index_state)
  : index_state :=
  List.fold_left (fun acc v => <[(ns, v_id v) := v]> acc) vectors st.

(** [index.delete(delete_all=True, namespace=ns)] *)
Definition delete (env : Env) (ns : string) : M unit :=
  _ <~ remote env OpDelete ;;
  w <~ get_world ;;
  set_pinecone (delete_all_in ns (pinecone w)).

(** [index.upsert(vectors=vectors, namespace=ns)] *)
Definition upsert (env : Env) (vectors : list vector) (ns : string) : M unit :=
  _ <~ remote env OpUpsert ;;
  w <~ get_world ;;
  set_pinecone (upsert_in vectors ns (pinecone w)).

(** [index.describe_index_stats().get('namespaces', {})] *)
Definition describe_index_stats (env : Env) : M (gset string) :=
  _ <~ remote env OpStats ;;
  w <~ get_world ;;
  ret (namespaces (pinecone w)).

(** A [PineconeVectorStore]: the index seen through one namespace. *)
Record VectorStore := { vs_namespace : string }.

(** [PineconeVectorStore(index=..., embedding=..., namespace=ns)] *)
Definition open_store (env : Env) (ns : string) : M VectorStore :=
  _ <~ remote env OpStore ;;
  ret {| vs_namespace := ns |}.

(** [vectorstore.similarity_search(question, k=k)]: the [page_content] of
    the documents found. *)
Definition search (env : Env) (vs : VectorStore) (question : string) (k : nat)
  : M (list string) :=
  _ <~ remote env OpSearch ;;
  w <~ get_world ;;
  ret (similarity_search env (pinecone w) (vs_namespace vs) question k).

(** The records [from_texts] makes of the texts: each under a generated id,
    with its embedding and the text as metadata. *)
Definition text_vectors (env : Env) (texts : list string) : list vector :=
  List.map
    (fun x : string * (string * embedding) =>
       {| v_id := x.1; v_values := x.2.2; v_text := x.2.1;
          v_document_id := None |})
    (List.combine (fresh_ids env (List.length texts))
                  (List.combine texts (embed_documents env texts))).

(** [PineconeVectorStore.from_texts(texts, embedding, namespace=ns)]:
    embeds the texts and upserts them under generated ids. *)
Definition from_texts (env : Env) (texts : list string) (ns : string)
  : M VectorStore :=
  _ <~ remote env OpFromTexts ;;
  w <~ get_world ;;
  _ <~ set_pinecone (upsert_in (text_vectors env texts) ns (pinecone w)) ;;
  ret {| vs_namespace := ns |}.

End Pinecone.

(** [enumerate(l)], counting from [i]. *)
Fixpoint enumerate_from {A} (i : nat) (l : list A) : list (nat * A) :=
  match l with
  | [] => []
  | x :: r => (i, x) :: enumerate_from (S i) r
  end.

(** [s.split(sep, 1)]: cut at the first [sep] only. *)
Fixpoint split_once (sep : ascii) (s : string) : list string :=
  match s with
  | EmptyString => [EmptyString]
  | String c r =>
      if Ascii.eqb sep c then [EmptyString; r]
      else match split_once sep r with
           | h :: t => String c h :: t
           | [] => [String c EmptyString]
           end
  end.

(** [l[i]] *)
Definition index_list {A} (l : list A) (i : nat) : result A :=
  match List.nth_error l i with
  | Some x => Ok x
  | None => Raise (IndexError "list index out of range")
  end.

(** [d[key]] on a [dict] with string keys. *)
Fixpoint dict_get (d : list (string * string)) (key : string) : result string :=
  match d with
  | [] => Raise (KeyError key)
  | (k, v) :: r => if String.eqb k key then Ok v else dict_get r key
  end.

(** The two language-model classes of [alternative_ai_service.py]. *)
Inductive LLM : Type := Ollama | Simple.

(* ===================================================================== *)
(** ** [app/core/alternative_ai_service.py] *)
(* ===================================================================== *)

Module OllamaLLM.

Definition _call (env : Env) (prompt : string) : string :=
  match ollama_post env prompt with
  | Reply status (Ok (Some r)) =>
      if (status =? 200)%Z then r
      else "Error: Ollama API returned status " ++ Py.str_of_Z status
  | Reply status (Ok None) =>
      if (status =? 200)%Z then ""
      else "Error: Ollama API returned status " ++ Py.str_of_Z status
  | Reply status (Raise e) =>
      if (status =? 200)%Z then "Error: " ++ exn_msg e
      else "Error: Ollama API returned status " ++ Py.str_of_Z status
  | PostRaises (ConnectionError _) =>
      "Error: Cannot connect to Ollama. Make sure Ollama is running on localhost:11434"
  | PostRaises e => "Error: " ++ exn_msg e
  end.

Definition _llm_type : string := "ollama".

End OllamaLLM.

Module SimpleLLM.

Definition canned : string :=
  "I can help you with questions about the uploaded document. The document processing system is working with basic text analysis.".

(** The [for line in lines] loop: [in_context] and [context_lines] are its
    two variables; the result is [context_lines] when the loop is left. *)
Fixpoint scan (lines : list string) (in_context : bool) (context_lines : list string)
  : result (list string) :=
  match lines with
  | [] => Ok context_lines
  | line :: rest =>
      if Py.contains "context:" (Py.lower line) then scan rest true context_lines
      else if Py.contains "question:" (Py.lower line) then
        question <- index_list (split_once ":" line) 1 ;;
        Ok context_lines
      else if in_context then scan rest in_context (context_lines ++ [Py.strip line])
      else scan rest in_context context_lines
  end.

Definition _call (prompt : string) : result string :=
  if Py.contains "context:" (Py.lower prompt) then
    context_lines <- scan (Py.split_char (ascii_of_nat 10) prompt) false [] ;;
    match context_lines with
    | _ :: _ =>
        let context := Py.join " " (List.firstn 3 context_lines) in
        Ok ("Based on the document context: " ++ context)
    | [] => Ok canned
    end
  else Ok canned.

Definition _llm_type : string := "simple".

End SimpleLLM.

(** [llm(prompt)]: LangChain's [LLM.__call__], which ends in [_call]. *)
Definition llm_call (env : Env) (l : LLM) (prompt : string) : result string :=
  match langchain_fault env prompt with
  | Some e => Raise e
  | None =>
      match l with
      | Ollama => Ok (OllamaLLM._call env prompt)
      | Simple => SimpleLLM._call prompt
      end
  end.

Module AlternativeAIService.

Record t := {
  embeddings : option string;
  llm : LLM;
  chunk_size : nat;
  chunk_overlap : nat;
  index : bool
}.

(** The [try: ... except: ...] that chooses the language model. *)
Definition init_llm (env : Env) : LLM :=
  match llm_call env Ollama "test" with
  | Ok test_response =>
      if Py.contains "Error: Cannot connect" test_response then Simple
      else Ollama
  | Raise _ => Simple
  end.

Definition __init__ (env : Env) : t :=
  {| embeddings :=
       if SENTENCE_TRANSFORMERS_AVAILABLE env then
         match load_sentence_transformer env with
         | Ok _ => Some "all-MiniLM-L6-v2"
         | Raise _ => None
         end
       else None;
     llm := init_llm env;
     chunk_size := 1000;
     chunk_overlap := 200;
     index := pinecone_connects env |}.

Definition _get_document_namespace (document_id : Z) : string :=
  "doc_" ++ Py.str_of_Z document_id.

Definition chunk_vector (document_id : Z) (x : nat * (string * embedding)) : vector :=
  {| v_id := "doc_" ++ Py.str_of_Z document_id ++ "_chunk_" ++ Py.str_of_nat x.1;
     v_values := x.2.2;
     v_text := x.2.1;
     v_document_id := Some document_id |}.

(** [self.embeddings.embed_documents(texts)] *)
Definition embed (env : Env) (texts : list string) : M (list embedding) :=
  _ <~ remote env OpEmbed ;;
  ret (embed_documents env texts).

Definition process_document_content (env : Env) (self : t) (content : string)
    (document_id : Z) : M (option bool) :=
  try_catch
    (if negb (index self) || negb (bool_decide (is_Some (embeddings self)))
     then ret None
     else
       let texts := split_text env (chunk_size self) (chunk_overlap self) content in
       let namespace := _get_document_namespace document_id in
       _ <~ try_catch (Pinecone.delete env namespace) (fun _ => ret tt) ;;
       embeddings <~ embed env texts ;;
       let vectors :=
         List.map (chunk_vector document_id)
                  (enumerate_from 0 (List.combine texts embeddings)) in
       _ <~ Pinecone.upsert env vectors namespace ;;
       ret (Some true))
    (fun _ => ret None).

Definition load_vectorstore (env : Env) (self : t) (document_id : Z)
  : M (option Pinecone.VectorStore) :=
  try_catch
    (if negb (index self) then ret None
     else
       let namespace := _get_document_namespace document_id in
       stats <~ Pinecone.describe_index_stats env ;;
       if negb (bool_decide (namespace ∈ stats)) then ret None
       else
         vectorstore <~ Pinecone.open_store env namespace ;;
         ret (Some vectorstore))
    (fun _ => ret None).

Definition chat_prompt (context question : string) : string :=
  "Based on the following context from the document, please answer the question."
  ++ nl ++ nl ++ "Context:" ++ nl ++ context ++ nl ++ nl
  ++ "Question: " ++ question ++ nl ++ nl ++ "Answer:".

(** The [try] block of [chat_with_document]. *)
Definition chat_with_document_try (env : Env) (self : t) (document_id : Z)
    (question : string) (chat_history : option (list (string * string)))
  : M string :=
  vectorstore <~ load_vectorstore env self document_id ;;
  match vectorstore with
  | None =>
      ret "Error: Document not processed or vectorstore not found. Please reprocess the document."
  | Some vs =>
      docs <~ Pinecone.search env vs question 3 ;;
      match docs with
      | [] =>
          ret "I couldn't find relevant information in the document to answer your question."
      | _ :: _ =>
          let context := Py.join nl docs in
          let prompt := chat_prompt context question in
          response <~ lift (llm_call env (llm self) prompt) ;;
          ret (if Py.truthy response then Py.strip response
               else "I'm sorry, I couldn't generate a response based on the document content.")
      end
  end.

Definition chat_with_document (env : Env) (self : t) (document_id : Z)
    (question : string) (chat_history : option (list (string * string)))
  : M string :=
  try_catch
    (chat_with_document_try env self document_id question chat_history)
    (fun _ => ret "I'm sorry, I encountered an error while processing your question.").

Definition summary_prompt (content : string) : string :=
  "Please provide a comprehensive summary of the following document:"
  ++ nl ++ "            " ++ nl ++ content ++ nl ++ nl ++ "Summary:".

(** The [try] block of [summarize_document]. *)
Definition summarize_document_try (env : Env) (self : t) (content : string)
  : M string :=
  let max_chars := 2000 in
  let content :=
    if Nat.ltb max_chars (Py.len content)
    then Py.slice_to max_chars content ++ "..."
    else content in
  let prompt := summary_prompt content in
  summary <~ lift (llm_call env (llm self) prompt) ;;
  ret (if Py.truthy summary then Py.strip summary
       else "Unable to generate summary.").

Definition summarize_document (env : Env) (self : t) (content : string) : M string :=
  try_catch (summarize_document_try env self content)
            (fun _ => ret "Error generating summary.").

Definition get_chat_title (first_message : string) : string :=
  let words := List.firstn 5 (Py.split first_message) in
  let title := Py.join " " words in
  let title :=
    if Nat.ltb 50 (Py.len title) then Py.slice_to 47 title ++ "..." else title in
  if Py.truthy title then title else "New Chat".

End AlternativeAIService.

(* ===================================================================== *)
(** ** [app/core/ai_service.py] *)
(* ===================================================================== *)

Module AIService.

Record t := {
  chunk_size : nat;
  chunk_overlap : nat;
  index : bool
}.

Definition __init__ (env : Env) : t :=
  {| chunk_size := 500; chunk_overlap := 50; index := pinecone_connects env |}.

Definition _get_document_namespace (document_id : Z) : string :=
  "doc_" ++ Py.str_of_Z document_id.

Definition process_document_content (env : Env) (self : t) (content : string)
    (document_id : Z) : M (option Pinecone.VectorStore) :=
  try_catch
    (if negb (index self) then ret None
     else
       let texts := split_text env (chunk_size self) (chunk_overlap self) content in
       let namespace := _get_document_namespace document_id in
       _ <~ try_catch (Pinecone.delete env namespace) (fun _ => ret tt) ;;
       vectorstore <~ Pinecone.from_texts env texts namespace ;;
       ret (Some vectorstore))
    (fun _ => ret None).

Definition load_vectorstore (env : Env) (self : t) (document_id : Z)
  : M (option Pinecone.VectorStore) :=
  try_catch
    (if negb (index self) then ret None
     else
       let namespace := _get_document_namespace document_id in
       stats <~ Pinecone.describe_index_stats env ;;
       if negb (bool_decide (namespace ∈ stats)) then ret None
       else
         vectorstore <~ Pinecone.open_store env namespace ;;
         ret (Some vectorstore))
    (fun _ => ret None).

(** The chain: the memory loaded from the chat history, and the store its
    retriever reads. *)
Record Chain := {
  chain_memory : list Message;
  chain_store : Pinecone.VectorStore
}.

Fixpoint load_memory (chat_history : list (string * string)) : list Message :=
  match chat_history with
  | [] => []
  | (human_msg, ai_msg) :: rest =>
      (if Py.truthy human_msg then [HumanMessage human_msg] else [])
      ++ (if Py.truthy ai_msg then [AIMessage ai_msg] else [])
      ++ load_memory rest
  end.

Definition create_conversation_chain (vectorstore : Pinecone.VectorStore)
    (chat_history : list (string * string)) : Chain :=
  {| chain_memory := load_memory chat_history; chain_store := vectorstore |}.

(** [qa_chain({"question": question})] *)
Definition run_chain (env : Env) (c : Chain) (question : string)
  : M (list (string * string)) :=
  w <~ get_world ;;
  lift (qa_chain env (chain_memory c) (pinecone w)
                 (Pinecone.vs_namespace (chain_store c)) question).

(** The [try] block of [chat_with_document]. *)
Definition chat_with_document_try (env : Env) (self : t) (document_id : Z)
    (question : string) (chat_history : option (list (string * string)))
  : M string :=
  vectorstore <~ load_vectorstore env self document_id ;;
  match vectorstore with
  | None =>
      ret "Error: Document not processed or vectorstore not found. Please reprocess the document."
  | Some vs =>
      let chat_history :=
        match chat_history with Some h => h | None => [] end in
      let qa_chain := create_conversation_chain vs chat_history in
      result <~ run_chain env qa_chain question ;;
      lift (dict_get result "answer")
  end.

Definition chat_with_document (env : Env) (self : t) (document_id : Z)
    (question : string) (chat_history : option (list (string * string)))
  : M string :=
  try_catch
    (chat_with_document_try env self document_id question chat_history)
    (fun _ => ret "I'm sorry, I encountered an error while processing your question.").

Definition summary_prompt (content : string) : string :=
  nl ++ "            Please provide a comprehensive summary of the following document:"
  ++ nl ++ "            "
  ++ nl ++ "            " ++ content
  ++ nl ++ "            "
  ++ nl ++ "            Summary:"
  ++ nl ++ "            ".

(** The [try] block of [summarize_document]. *)
Definition summarize_document_try (env : Env) (self : t) (content : string)
  : M string :=
  let max_tokens := 3000 in
  let content :=
    if Nat.ltb max_tokens (Py.len content)
    then Py.slice_to max_tokens content
    else content in
  let prompt := summary_prompt content in
  choices <~ lift (completion_create env prompt) ;;
  text <~ lift (index_list choices 0) ;;
  ret (Py.strip text).

Definition summarize_document (env : Env) (self : t) (content : string) : M string :=
  try_catch (summarize_document_try env self content)
            (fun _ => ret "Error generating summary.").

Definition get_chat_title (first_message : string) : string :=
  let words := List.firstn 5 (Py.split first_message) in
  let title := Py.join " " words in
  let title :=
    if Nat.ltb 50 (Py.len title) then Py.slice_to 47 title ++ "..." else title in
  if Py.truthy title then title else "New Chat".

End AIService.

(* ===================================================================== *)
(** ** The object the API modules call [ai_service] *)
(* ===================================================================== *)

(** Both service classes offer the same methods; a module-level name bound
    to one of their instances is called through these. *)
Inductive Backend : Type :=
| Hosted (self : AIService.t)
| Local (self : AlternativeAIService.t).

Module Backend.

Definition process_document_content (env : Env) (b : Backend) (content : string)
    (document_id : Z) : M unit :=
  match b with
  | Hosted self =>
      _ <~ AIService.process_document_content env self content document_id ;; ret tt
  | Local self =>
      _ <~ AlternativeAIService.process_document_content env self content document_id ;;
      ret tt
  end.

Definition chat_with_document (env : Env) (b : Backend) (document_id : Z)
    (question : string) (chat_history : option (list (string * string)))
  : M string :=
  match b with
  | Hosted self => AIService.chat_with_document env self document_id question chat_history
  | Local self =>
      AlternativeAIService.chat_with_document env self document_id question chat_history
  end.

Definition summarize_document (env : Env) (b : Backend) (content : string) : M string :=
  match b with
  | Hosted self => AIService.summarize_document env self content
  | Local self => AlternativeAIService.summarize_document env self content
  end.

Definition get_chat_title (b : Backend) (first_message : string) : string :=
  match b with
  | Hosted _ => AIService.get_chat_title first_message
  | Local _ => AlternativeAIService.get_chat_title first_message
  end.

Definition is_hosted (b : Backend) : bool :=
  match b with Hosted _ => true | Local _ => false end.

End Backend.

(** The global instances the two service modules create when imported. *)
Definition ai_service_instance (env : Env) : Backend :=
  Hosted (AIService.__init__ env).
Definition alternative_ai_service (env : Env) : Backend :=
  Local (AlternativeAIService.__init__ env).

(* ===================================================================== *)
(** ** [app/api/documents.py] *)
(* ===================================================================== *)

Module DocumentsApi.

(** [from app.core.alternative_ai_service import alternative_ai_service
     as ai_service] *)
Definition ai_service (env : Env) : Backend := alternative_ai_service env.

Definition HTTP_400_BAD_REQUEST : Z := 400.
Definition HTTP_500_INTERNAL_SERVER_ERROR : Z := 500.

Definition upload_document (env : Env) (filename : option string)
    (file : list Byte.byte) (current_user_id : Z) : M Document :=
  if negb (truthy_opt filename) then
    raise (HTTPException HTTP_400_BAD_REQUEST "No file provided")
  else
    let filename := match filename with Some f => f | None => "" end in
    if negb (FileProcessor.is_allowed_file filename) then
      raise (HTTPException HTTP_400_BAD_REQUEST
               ("File type not allowed. Allowed types: "
                ++ Py.join ", " Config.ALLOWED_EXTENSIONS))
    else
      let file_content := file in
      if (Config.MAX_FILE_SIZE <? Z.of_nat (List.length file_content))%Z then
        (* MAX_FILE_SIZE / (1024*1024) is 10, printed with one decimal *)
        raise (HTTPException HTTP_400_BAD_REQUEST
                 "File too large. Maximum size: 10.0 MB")
      else
        processed <~ FileProcessor.process_uploaded_file env file_content filename ;;
        let '(file_path, unique_filename, extracted_text) := processed in
        if negb (truthy_opt file_path) || negb (truthy_opt extracted_text) then
          raise (HTTPException HTTP_500_INTERNAL_SERVER_ERROR
                   "Failed to process file")
        else
          document_create <~
            lift (new_DocumentCreate
                    unique_filename
                    filename
                    file_path
                    (Py.lower (List.last (Py.split_char "." filename) ""))
                    (Z.of_nat (List.length file_content))
                    extracted_text) ;;
          document <~ Crud.create_document env document_create current_user_id ;;
          _ <~ try_catch
                 (Backend.process_document_content env (ai_service env)
                    (match extracted_text with Some t => t | None => "" end)
                    (doc_id document))
                 (fun _ => ret tt) ;;
          ret document.

Definition HTTP_404_NOT_FOUND : Z := 404.

(** [GET /{document_id}] *)
Definition get_document_detail (document_id current_user_id : Z) : M Document :=
  w <~ get_world ;;
  match Crud.get_document (db w) document_id current_user_id with
  | None => raise (HTTPException HTTP_404_NOT_FOUND "Document not found")
  | Some document => ret document
  end.

(** [POST /{document_id}/summarize]; the value is the ["summary"] entry of
    the response. *)
Definition summarize_document (env : Env) (document_id current_user_id : Z)
  : M string :=
  w <~ get_world ;;
  match Crud.get_document (db w) document_id current_user_id with
  | None => raise (HTTPException HTTP_404_NOT_FOUND "Document not found")
  | Some document =>
      if negb (truthy_opt (doc_content document)) then
        raise (HTTPException HTTP_400_BAD_REQUEST "Document content not available")
      else
        try_catch
          (Backend.summarize_document env (ai_service env)
             (match doc_content document with Some c => c | None => "" end))
          (fun _ =>
             raise (HTTPException HTTP_500_INTERNAL_SERVER_ERROR
                      "Failed to generate summary"))
  end.

End DocumentsApi.

(* ===================================================================== *)
(** ** [app/api/chat.py] *)
(* ===================================================================== *)

(** [ChatRequest] of [app/schemas/schemas.py]. *)
Record ChatRequest := {
  cr_message : string;
  cr_session_id : Z
}.

(** The signature of the method [chat_with_document] of a backend:
    document id, question and prior turns. *)
Definition Answering : Type :=
  Z -> string -> option (list (string * string)) -> M string.

Module ChatApi.

(** [from app.core.alternative_ai_service import alternative_ai_service
     as ai_service] *)
Definition ai_service (env : Env) : Backend := alternative_ai_service env.

Definition HTTP_404_NOT_FOUND : Z := 404.

(** [[(msg.content, "") if msg.is_user else ("", msg.content)
      for msg in history]] *)
Definition chat_history_of (history : list ChatMessage) : list (string * string) :=
  List.map
    (fun msg => if msg_is_user msg then (msg_content msg, "")
                else ("", msg_content msg))
    history.

(** What [send_chat_message] does once it has the backend's response. *)
Definition record_exchange (env : Env) (session_id : Z) (message response : string)
  : M (string * Z) :=
  _ <~ Crud.create_chat_message env
         (Dict {| mc_content := message; mc_is_user := true;
                  mc_session_id := session_id |}) ;;
  _ <~ Crud.create_chat_message env
         (Dict {| mc_content := response; mc_is_user := false;
                  mc_session_id := session_id |}) ;;
  _ <~ Crud.update_chat_session_timestamp env session_id ;;
  ret (response, session_id).

(** The handler, for whatever object the name [ai_service] is bound to;
    [chat_with_document] is that object's method. *)
Definition send_chat_message_via (chat_with_document : Answering) (env : Env)
    (chat_request : ChatRequest) (current_user_id : Z) : M (string * Z) :=
  let session_id := cr_session_id chat_request in
  let message := cr_message chat_request in
  w <~ get_world ;;
  match Crud.get_chat_session (db w) session_id current_user_id with
  | None => raise (HTTPException HTTP_404_NOT_FOUND "Chat session not found")
  | Some chat_session =>
      let document_id := cs_document_id chat_session in
      let history := Crud.get_session_messages (db w) session_id in
      let chat_history := chat_history_of history in
      response <~ chat_with_document document_id message (Some chat_history) ;;
      record_exchange env session_id message response
  end.

(** [POST /message], with [ai_service] as the module binds it. *)
Definition send_chat_message (env : Env) (chat_request : ChatRequest)
    (current_user_id : Z) : M (string * Z) :=
  send_chat_message_via (Backend.chat_with_document env (ai_service env)) env
    chat_request current_user_id.

Definition HTTP_400_BAD_REQUEST : Z := 400.

(** [POST /start]; the request's [session_id] field carries the document
    id. *)
Definition start_new_chat (env : Env) (chat_request : ChatRequest)
    (current_user_id : Z) : M (string * Z) :=
  let document_id := cr_session_id chat_request in
  if (document_id =? 0)%Z then
    raise (HTTPException HTTP_400_BAD_REQUEST "Document ID required")
  else
    w <~ get_world ;;
    match Crud.get_document (db w) document_id current_user_id with
    | None => raise (HTTPException HTTP_404_NOT_FOUND "Document not found")
    | Some document =>
        let chat_title :=
          Backend.get_chat_title (ai_service env) (cr_message chat_request) in
        chat_session <~
          Crud.create_chat_session env
            (Dict {| sc_title := chat_title; sc_document_id := document_id |})
            current_user_id ;;
        response <~ Backend.chat_with_document env (ai_service env) document_id
                      (cr_message chat_request) (Some []) ;;
        _ <~ Crud.create_chat_message env
               (Dict {| mc_content := cr_message chat_request; mc_is_user := true;
                        mc_session_id := cs_id chat_session |}) ;;
        _ <~ Crud.create_chat_message env
               (Dict {| mc_content := response; mc_is_user := false;
                        mc_session_id := cs_id chat_session |}) ;;
        ret (response, cs_id chat_session)
    end.

End ChatApi.

(* ===================================================================== *)
(** ** [app/api/web.py] *)
(* ===================================================================== *)

(** What a web handler answers with. *)
Inductive WebResponse : Type :=
| RedirectResponse (url : string) (status_code : Z)
| TemplateResponse (name : string) (error : string).

(** [l[-1] = x] on a nonempty list. *)
Fixpoint set_last {A} (l : list A) (x : A) : list A :=
  match l with
  | [] => []
  | [_] => [x]
  | y :: r => y :: set_last r x
  end.

Module WebApi.

(** [from app.core.alternative_ai_service import alternative_ai_service
     as ai_service] *)
Definition ai_service (env : Env) : Backend := alternative_ai_service env.

(** The loop of [send_message] that pairs each user message with the
    answer that follows it; [chat_history] is the list built so far. *)
Fixpoint pair_history (history : list ChatMessage)
    (chat_history : list (string * string)) : list (string * string) :=
  match history with
  | [] => chat_history
  | msg :: rest =>
      if msg_is_user msg then
        pair_history rest (chat_history ++ [(msg_content msg, "")])
      else
        match chat_history with
        | [] => pair_history rest chat_history
        | _ :: _ =>
            pair_history rest
              (set_last chat_history
                 (fst (List.last chat_history ("", "")), msg_content msg))
        end
  end.

(** [POST /chat/{session_id}/send]; [str_exn] is [str(e)]. *)
Definition send_message (env : Env) (str_exn : exn -> string) (session_id : Z)
    (message : string) (user_id : Z) : M WebResponse :=
  w <~ get_world ;;
  match Crud.get_chat_session (db w) session_id user_id with
  | None => raise (HTTPException 404 "Chat session not found")
  | Some session =>
      try_catch
        (w <~ get_world ;;
         let history := Crud.get_session_messages (db w) session_id in
         let chat_history := pair_history history [] in
         response <~ Backend.chat_with_document env (ai_service env)
                       (cs_document_id session) message (Some chat_history) ;;
         let user_message :=
           {| mc_content := message; mc_is_user := true;
              mc_session_id := session_id |} in
         _ <~ Crud.create_chat_message env (Schema user_message) ;;
         let ai_message :=
           {| mc_content := response; mc_is_user := false;
              mc_session_id := session_id |} in
         _ <~ Crud.create_chat_message env (Schema ai_message) ;;
         _ <~ Crud.update_chat_session_timestamp env session_id ;;
         ret (RedirectResponse ("/chat/" ++ Py.str_of_Z session_id) 302))
        (fun e =>
           ret (TemplateResponse "error.html"
                  ("Failed to send message: " ++ str_exn e)))
  end.

(** [POST /document/{document_id}/new-chat] *)
Definition start_new_chat_web (env : Env) (str_exn : exn -> string)
    (document_id : Z) (message : string) (user_id : Z) : M WebResponse :=
  w <~ get_world ;;
  match Crud.get_document (db w) document_id user_id with
  | None => raise (HTTPException 404 "Document not found")
  | Some document =>
      try_catch
        (let chat_title := Backend.get_chat_title (ai_service env) message in
         let session_create :=
           {| sc_title := chat_title; sc_document_id := document_id |} in
         session <~ Crud.create_chat_session env (Schema session_create) user_id ;;
         send_message env str_exn (cs_id session) message user_id)
        (fun e =>
           ret (TemplateResponse "error.html"
                  ("Failed to start chat: " ++ str_exn e)))
  end.

End WebApi.

(* ===================================================================== *)
(** ** Sample inputs *)
(* ===================================================================== *)

(** A run in which every remote call succeeds, Ollama is not running, text
    files decode byte by byte, and the splitter yields the whole text as
    one chunk. *)
Definition sample_env : Env :=
  {| fault := fun _ => None;
     OPENAI_API_KEY := "sk-test";
     SENTENCE_TRANSFORMERS_AVAILABLE := true;
     load_sentence_transformer := Ok tt;
     pinecone_connects := true;
     uuid4_int := 0x0f8fad5bd9cb469fa16570867728950e;
     now := 0;
     write_fault := None;
     pdf_pages := fun _ => Raise (Exception "EOF marker not found");
     docx_paragraphs := fun _ => Raise (Exception "File is not a zip file");
     decode_utf8 := fun b => Ok (string_of_list_byte b);
     decode_latin1 := fun b => Ok (string_of_list_byte b);
     split_text := fun _ _ s => [s];
     embed_documents := List.map (fun _ => [0%Z]);
     fresh_ids := fun n => List.map Py.str_of_nat (List.seq 0 n);
     similarity_search :=
       fun st ns _ k =>
         List.firstn k
           (List.map (fun kv : (string * string) * vector => v_text kv.2)
              (List.filter
                 (fun kv : (string * string) * vector => String.eqb kv.1.1 ns)
                 (map_to_list st)));
     ollama_post := fun _ => PostRaises (ConnectionError "Connection refused");
     langchain_fault := fun _ => None;
     qa_chain := fun _ _ _ _ => Ok [("answer", "42")];
     completion_create := fun _ => Ok [" A summary. "] |}.

Definition empty_db : Db :=
  {| documents := []; chat_sessions := []; chat_messages := [] |}.

Definition empty_world : World :=
  {| fs := ∅; db := empty_db; pinecone := ∅ |}.

(** World after [save_file] has written [content] at [path]. *)
Definition with_file (w : World) (path : string) (content : list Byte.byte) : World :=
  {| fs := <[path := content]> (fs w); db := db w; pinecone := pinecone w |}.

(** Does the row belong to the session? *)
Definition in_session (session_id : Z) (m : ChatMessage) : Prop :=
  msg_session_id m = Some session_id.

#[global] Instance in_session_dec (session_id : Z) (m : ChatMessage) :
  Decision (in_session session_id m).
Proof. unfold in_session. apply _. Defined.

(** Oldest first. *)
Definition older_or_same (a b : ChatMessage) : Prop :=
  (msg_created_at a <= msg_created_at b)%Z.

(** A store with one session (id 3, on document 5, of user 7) whose three
    messages were inserted out of chronological order, and one message of
    another session. *)
Definition sample_messages : list ChatMessage :=
  [ {| msg_id := 1; msg_content := "It is about tea."; msg_is_user := false;
       msg_created_at := 20; msg_session_id := Some 3%Z |};
    {| msg_id := 2; msg_content := "What is it about?"; msg_is_user := true;
       msg_created_at := 10; msg_session_id := Some 3%Z |};
    {| msg_id := 3; msg_content := "Unrelated"; msg_is_user := true;
       msg_created_at := 15; msg_session_id := Some 4%Z |};
    {| msg_id := 4; msg_content := "Which tea?"; msg_is_user := true;
       msg_created_at := 30; msg_session_id := Some 3%Z |} ].

Definition sample_session : ChatSession :=
  {| cs_id := 3; cs_title := "What is it about?"; cs_created_at := 10;
     cs_updated_at := 30; cs_user_id := Some 7%Z; cs_document_id := 5 |}.

Definition sample_chat_world : World :=
  {| fs := ∅;
     db := {| documents := []; chat_sessions := [sample_session];
              chat_messages := sample_messages |};
     pinecone := ∅ |}.


(** [avoids e m]: running [m] never ends by raising [e]. *)
Definition avoids {A} (e : exn) (m : M A) : Prop :=
  forall w w', m w <> (w', Raise e).

(** All bytes of [s] are continuation bytes. *)
Fixpoint continuation (s : string) : bool :=
  match s with
  | EmptyString => true
  | String c r => Py.is_continuation c && continuation r
  end.

(** One character: a byte and the continuation bytes behind it. *)
Definition is_char (h : string) : Prop :=
  exists c r, h = String c r /\ continuation r = true.

(** A list of characters as [Py.chars] cuts them: no character but the
    first starts with a continuation byte. *)
Definition chunked (l : list string) : Prop :=
  Forall is_char l /\ Forall (fun h => Py.continues h = false) (List.tl l).

(** The title as a function of the words of the first message. *)
Definition title_of_words (words : list string) : string :=
  match words with
  | [] => "New Chat"
  | _ :: _ =>
      let joined := Py.join " " (List.firstn 5 words) in
      if Nat.ltb 50 (Py.len joined) then Py.slice_to 47 joined ++ "..."
      else joined
  end.

(* ===================================================================== *)
(** ** What the rule-based model reads from a prompt *)
(* ===================================================================== *)

Module Reading.

Definition lines (prompt : string) : list string :=
  Py.split_char (ascii_of_nat 10) prompt.

(** A line that switches the context on. *)
Definition is_context_line (line : string) : bool :=
  Py.contains "context:" (Py.lower line).

(** A line that ends the scan: it mentions the question and is not a
    context line. *)
Definition is_question_line (line : string) : bool :=
  negb (is_context_line line) && Py.contains "question:" (Py.lower line).

(** The lines in front of the first question line (all of them when there
    is none). *)
Fixpoint before_question (ls : list string) : list string :=
  match ls with
  | [] => []
  | l :: r => if is_question_line l then [] else l :: before_question r
  end.

(** The lines behind the first context line. *)
Fixpoint after_context (ls : list string) : list string :=
  match ls with
  | [] => []
  | l :: r => if is_context_line l then r else after_context r
  end.

(** The context the model answers from: the lines behind the first context
    line and in front of the first question line, further context lines
    left out, each stripped. *)
Definition collected (ls : list string) : list string :=
  List.map Py.strip
    (List.filter (fun l => negb (is_context_line l))
       (after_context (before_question ls))).

Definition answer (context_lines : list string) : string :=
  match context_lines with
  | [] => SimpleLLM.canned
  | _ :: _ =>
      "Based on the document context: "
      ++ Py.join " " (List.firstn 3 context_lines)
  end.

(** *** The reading of the specification: the context lines stand between
    a context line and a question line, and both must be there. *)

Fixpoint until_question (ls : list string) : option (list string) :=
  match ls with
  | [] => None
  | l :: r =>
      if Py.contains "question:" (Py.lower l) then Some []
      else option_map (cons l) (until_question r)
  end.

Fixpoint claimed_context (ls : list string) : option (list string) :=
  match ls with
  | [] => None
  | l :: r => if is_context_line l then until_question r else claimed_context r
  end.

Definition claimed_call (prompt : string) : string :=
  match claimed_context (lines prompt) with
  | Some ctx => answer (List.map Py.strip ctx)
  | None => SimpleLLM.canned
  end.

End Reading.

(** [c in s] for a character. *)
Fixpoint has_char (c : ascii) (s : string) : bool :=
  match s with
  | EmptyString => false
  | String a r => Ascii.eqb c a || has_char c r
  end.

(** U+00A0, the no-break space. *)
Definition no_break_space : string :=
  String (ascii_of_nat 194) (String (ascii_of_nat 160) EmptyString).

(** A backend that answers nothing and raises the history it was handed,
    each pair written as [human>ai] and the pairs separated by [|]. *)
Definition echo_history : Answering :=
  fun _ _ chat_history =>
    raise (Exception
             (Py.join "|"
                (List.map (fun turn : string * string => turn.1 ++ ">" ++ turn.2)
                          (default [] chat_history)))).

(** A name for an entry of the directory it is joined to: not empty,
    neither ["."] nor [".."], and without a slash or a NUL character. *)
Definition plain_name (s : string) : bool :=
  Py.nonempty s && negb (String.eqb s ".") && negb (String.eqb s "..")
  && negb (has_char "/" s) && negb (has_char (ascii_of_nat 0) s).

(* ===================================================================== *)
(** ** Notions about the index *)
(* ===================================================================== *)

(** The world [w] with [st] as the content of the index. *)
Definition with_index (w : World) (st : index_state) : World :=
  {| fs := fs w; db := db w; pinecone := st |}.

(** Every record made for a document sits in that document's namespace. *)
Definition homed (st : index_state) : Prop :=
  forall ns id v d,
    st !! (ns, id) = Some v ->
    v_document_id v = Some d ->
    ns = AlternativeAIService._get_document_namespace d.

(** The chunk records [process_document_content] builds. *)
Definition new_vectors (env : Env) (self : AlternativeAIService.t)
    (content : string) (document_id : Z) : list vector :=
  let texts :=
    split_text env (AlternativeAIService.chunk_size self)
      (AlternativeAIService.chunk_overlap self) content in
  List.map (AlternativeAIService.chunk_vector document_id)
    (enumerate_from 0 (List.combine texts (embed_documents env texts))).

(** The records the hosted backend's [process_document_content] has
    [from_texts] build. *)
Definition hosted_new_vectors (env : Env) (self : AIService.t)
    (content : string) : list vector :=
  Pinecone.text_vectors env
    (split_text env (AIService.chunk_size self) (AIService.chunk_overlap self)
       content).

(** The index after the delete step: emptied of the namespace unless the
    call failed. *)
Definition after_delete (env : Env) (ns : string) (st : index_state) : index_state :=
  match fault env OpDelete with
  | Some _ => st
  | None => Pinecone.delete_all_in ns st
  end.

(** A service whose index and embeddings are both ready. *)
Definition ready (self : AlternativeAIService.t) : bool :=
  AlternativeAIService.index self
  && bool_decide (is_Some (AlternativeAIService.embeddings self)).

(** An index that already holds two stale chunks of document 1 and one
    chunk of document 2. *)
Definition stale_index : index_state :=
  <[("doc_1", "doc_1_chunk_0") :=
      {| v_id := "doc_1_chunk_0"; v_values := [1%Z]; v_text := "old first";
         v_document_id := Some 1%Z |}]>
  (<[("doc_1", "doc_1_chunk_1") :=
      {| v_id := "doc_1_chunk_1"; v_values := [2%Z]; v_text := "old second";
         v_document_id := Some 1%Z |}]>
  (<[("doc_2", "doc_2_chunk_0") :=
      {| v_id := "doc_2_chunk_0"; v_values := [3%Z]; v_text := "other";
         v_document_id := Some 2%Z |}]> ∅)).

Definition stale_world : World := with_index empty_world stale_index.

(** The hosted API can be used: an OpenAI key is configured. *)
Definition hosted_api_available (env : Env) : bool :=
  Py.truthy (OPENAI_API_KEY env).

(** The world after document 1 has been processed from [empty_world] in
    [sample_env]: its namespace holds one chunk. *)
Definition processed_world : World :=
  fst (AlternativeAIService.process_document_content sample_env
         (AlternativeAIService.__init__ sample_env) "Tea is a drink." 1
         empty_world).

(** The world [w] with one more chat session. *)
Definition with_session (w : World) (session : ChatSession) : World :=
  {| fs := fs w;
     db := {| documents := documents (db w);
              chat_sessions := (chat_sessions (db w) ++ [session])%list;
              chat_messages := chat_messages (db w) |};
     pinecone := pinecone w |}.

(** The row [create_chat_message] adds for a schema object. *)
Definition message_row (env : Env) (d : Db) (fields : ChatMessageCreate) : ChatMessage :=
  {| msg_id := Crud.next_id (List.map msg_id (chat_messages d));
     msg_content := mc_content fields;
     msg_is_user := mc_is_user fields;
     msg_created_at := now env;
     msg_session_id := Some (mc_session_id fields) |}.

(** The rows of one exchange: the question and the answer that followed. *)
Definition exchange_rows (x : ChatMessage * ChatMessage) : list ChatMessage :=
  [fst x; snd x].

(** [str(e)], where only the message matters. *)
Definition sample_str_exn (e : exn) : string := exn_msg e.

(** A stored message as a turn of the conversation. *)
Definition turn_of (m : ChatMessage) : Message :=
  if msg_is_user m then HumanMessage (msg_content m)
  else AIMessage (msg_content m).

(** The first exchange of the sample session. *)
Definition sample_exchange : ChatMessage * ChatMessage :=
  ({| msg_id := 2; msg_content := "What is it about?"; msg_is_user := true;
      msg_created_at := 10; msg_session_id := Some 3%Z |},
   {| msg_id := 1; msg_content := "It is about tea."; msg_is_user := false;
      msg_created_at := 20; msg_session_id := Some 3%Z |}).

(** The run [env], except that the remote calls fail as [faults] says. *)
Definition with_faults (env : Env) (faults : remote_op -> option exn) : Env :=
  {| fault := faults;
     OPENAI_API_KEY := OPENAI_API_KEY env;
     SENTENCE_TRANSFORMERS_AVAILABLE := SENTENCE_TRANSFORMERS_AVAILABLE env;
     load_sentence_transformer := load_sentence_transformer env;
     pinecone_connects := pinecone_connects env;
     uuid4_int := uuid4_int env;
     now := now env;
     write_fault := write_fault env;
     pdf_pages := pdf_pages env;
     docx_paragraphs := docx_paragraphs env;
     decode_utf8 := decode_utf8 env;
     decode_latin1 := decode_latin1 env;
     split_text := split_text env;
     embed_documents := embed_documents env;
     fresh_ids := fresh_ids env;
     similarity_search := similarity_search env;
     ollama_post := ollama_post env;
     langchain_fault := langchain_fault env;
     qa_chain := qa_chain env;
     completion_create := completion_create env |}.

(** The sample run, except that the delete call of the index times out. *)
Definition delete_fails_env : Env :=
  with_faults sample_env
    (fun op => match op with
               | OpDelete => Some (Exception "deadline exceeded")
               | _ => None
               end).

(** The sample run, except that the splitter finds nothing to keep. *)
Definition no_chunks_env : Env :=
  {| fault := fault sample_env;
     OPENAI_API_KEY := OPENAI_API_KEY sample_env;
     SENTENCE_TRANSFORMERS_AVAILABLE := SENTENCE_TRANSFORMERS_AVAILABLE sample_env;
     load_sentence_transformer := load_sentence_transformer sample_env;
     pinecone_connects := pinecone_connects sample_env;
     uuid4_int := uuid4_int sample_env;
     now := now sample_env;
     write_fault := write_fault sample_env;
     pdf_pages := pdf_pages sample_env;
     docx_paragraphs := docx_paragraphs sample_env;
     decode_utf8 := decode_utf8 sample_env;
     decode_latin1 := decode_latin1 sample_env;
     split_text := fun _ _ _ => [];
     embed_documents := embed_documents sample_env;
     fresh_ids := fresh_ids sample_env;
     similarity_search := similarity_search sample_env;
     ollama_post := ollama_post sample_env;
     langchain_fault := langchain_fault sample_env;
     qa_chain := qa_chain sample_env;
     completion_create := completion_create sample_env |}.

(** The sample run, except that the search call of the index times out. *)
Definition search_fails_env : Env :=
  with_faults sample_env
    (fun op => match op with
               | OpSearch => Some (Exception "deadline exceeded")
               | _ => None
               end).

(** The sample run, except that Ollama is reachable and answers every
    request with the given status and no usable body. *)
Definition sample_env_status (status : Z) : Env :=
  {| fault := fault sample_env;
     OPENAI_API_KEY := OPENAI_API_KEY sample_env;
     SENTENCE_TRANSFORMERS_AVAILABLE := SENTENCE_TRANSFORMERS_AVAILABLE sample_env;
     load_sentence_transformer := load_sentence_transformer sample_env;
     pinecone_connects := pinecone_connects sample_env;
     uuid4_int := uuid4_int sample_env;
     now := now sample_env;
     write_fault := write_fault sample_env;
     pdf_pages := pdf_pages sample_env;
     docx_paragraphs := docx_paragraphs sample_env;
     decode_utf8 := decode_utf8 sample_env;
     decode_latin1 := decode_latin1 sample_env;
     split_text := split_text sample_env;
     embed_documents := embed_documents sample_env;
     fresh_ids := fresh_ids sample_env;
     similarity_search := similarity_search sample_env;
     ollama_post := fun _ => Reply status (Ok None);
     langchain_fault := langchain_fault sample_env;
     qa_chain := qa_chain sample_env;
     completion_create := completion_create sample_env |}.

(** What [update_chat_session_timestamp] makes of a row. *)
Definition touch (env : Env) (session_id : Z) (s : ChatSession) : ChatSession :=
  if (cs_id s =? session_id)%Z then
    {| cs_id := cs_id s; cs_title := cs_title s;
       cs_created_at := cs_created_at s;
       cs_updated_at := now env;
       cs_user_id := cs_user_id s;
       cs_document_id := cs_document_id s |}
  else s.

(** The world after the web handler has stored an exchange. *)
Definition with_exchange (env : Env) (w : World) (session_id : Z)
    (message answer : string) : World :=
  let question_row :=
    message_row env (db w)
      {| mc_content := message; mc_is_user := true;
         mc_session_id := session_id |} in
  let answer_row :=
    {| msg_id := Crud.next_id
                   (List.map msg_id (chat_messages (db w) ++ [question_row]));
       msg_content := answer;
       msg_is_user := false;
       msg_created_at := now env;
       msg_session_id := Some session_id |} in
  {| fs := fs w;
     db := {| documents := documents (db w);
              chat_sessions := List.map (touch env session_id) (chat_sessions (db w));
              chat_messages :=
                (chat_messages (db w) ++ [question_row; answer_row])%list |};
     pinecone := pinecone w |}.

(** A store in which user 7 owns document 5. *)
Definition sample_document : Document :=
  {| doc_id := 5; doc_filename := "0f8fad5b.txt"; doc_original_filename := "tea.txt";
     doc_file_path := "uploads/0f8fad5b.txt"; doc_file_type := "txt";
     doc_file_size := 15; doc_content := Some "Tea is a drink.";
     doc_uploaded_at := 5; doc_user_id := Some 7%Z |}.

Definition sample_library_world : World :=
  {| fs := ∅;
     db := {| documents := [sample_document]; chat_sessions := [sample_session];
              chat_messages := sample_messages |};
     pinecone := ∅ |}.

(* ===================================================================== *)
(** * Properties *)
(* ===================================================================== *)

(** ** Facts about the string built-ins *)

Section StringFacts.

Lemma append_assoc (a b c : string) : (a ++ b) ++ c = a ++ (b ++ c).
Proof.
  induction a as [|x a IH]; [reflexivity|].
  change (String x ((a ++ b) ++ c) = String x (a ++ (b ++ c))). now rewrite IH.
Qed.

Lemma text_app (l1 l2 : list string) :
  Py.text (l1 ++ l2) = Py.text l1 ++ Py.text l2.
Proof.
  induction l1 as [|h t IH]; [reflexivity|].
  cbn [Py.text app]. now rewrite IH, append_assoc.
Qed.

Lemma text_chars (s : string) : Py.text (Py.chars s) = s.
Proof.
  induction s as [|c r IH]; [reflexivity|].
  cbn [Py.chars]. destruct (Py.chars r) as [|h t].
  - cbn in IH. subst r. reflexivity.
  - destruct (Py.continues r); cbn [Py.text] in *; now rewrite <- IH.
Qed.

Lemma chars_char (c : ascii) (r rest : string) :
  continuation r = true -> Py.continues rest = false ->
  Py.chars (String c (r ++ rest)) = String c r :: Py.chars rest.
Proof.
  revert c. induction r as [|d r IH]; intros c Hr Hrest.
  - change ("" ++ rest) with rest. cbn [Py.chars].
    destruct (Py.chars rest) as [|h t] eqn:E.
    + reflexivity.
    + now rewrite Hrest.
  - cbn [continuation] in Hr. apply andb_true_iff in Hr as [Hd Hr].
    change (String d r ++ rest) with (String d (r ++ rest)).
    change (Py.chars (String c (String d (r ++ rest))))
      with (match Py.chars (String d (r ++ rest)) with
            | h :: t =>
                if Py.continues (String d (r ++ rest)) then String c h :: t
                else String c EmptyString :: h :: t
            | [] => [String c EmptyString]
            end).
    rewrite (IH d Hr Hrest). cbn [Py.continues]. now rewrite Hd.
Qed.

Lemma continues_text (l : list string) :
  Forall is_char l -> Forall (fun h => Py.continues h = false) l ->
  Py.continues (Py.text l) = false.
Proof.
  intros Hc Hl. destruct l as [|h t]; [reflexivity|].
  inversion Hc as [|? ? (c & r & -> & _) _]; subst.
  inversion Hl as [|? ? Hh _]; subst. exact Hh.
Qed.

Lemma chars_text (l : list string) : chunked l -> Py.chars (Py.text l) = l.
Proof.
  intros [Hc Hl]. induction l as [|h t IH]; [reflexivity|].
  inversion Hc as [|? ? (c & r & -> & Hr) Hct]; subst.
  cbn [List.tl] in Hl. cbn [Py.text].
  change (String c r ++ Py.text t)
    with (String c (r ++ Py.text t)).
  rewrite chars_char; [|exact Hr|now apply continues_text].
  f_equal. apply IH; [exact Hct|].
  destruct t; [constructor|]. inversion Hl; subst. assumption.
Qed.

Lemma chunked_chars (s : string) : chunked (Py.chars s).
Proof.
  induction s as [|c r [Hc Hl]]; [split; constructor|].
  cbn [Py.chars]. destruct (Py.chars r) as [|h t] eqn:E.
  - split; [|constructor]. constructor; [|constructor].
    now exists c, "".
  - destruct r as [|d r']; [discriminate|].
    assert (Hh : exists r0, h = String d r0 /\ continuation r0 = true).
    { inversion Hc as [|? ? (c' & r0 & -> & Hr0) _]; subst.
      pose proof (text_chars (String d r')) as Ht. rewrite E in Ht.
      cbn [Py.text] in Ht.
      change (String c' r0 ++ Py.text t)
        with (String c' (r0 ++ Py.text t)) in Ht.
      injection Ht as -> _. now exists r0. }
    destruct Hh as (r0 & -> & Hr0).
    inversion Hc as [|? ? _ Hct]; subst.
    cbn [Py.continues]. destruct (Py.is_continuation d) eqn:Hd.
    + split.
      * constructor; [|exact Hct]. exists c, (String d r0). split; [reflexivity|].
        cbn [continuation]. now rewrite Hd, Hr0.
      * exact Hl.
    + split.
      * constructor; [now exists c, ""|]. exact Hc.
      * cbn [List.tl]. constructor; [|exact Hl]. cbn [Py.continues]. exact Hd.
Qed.

Lemma chunked_app (l1 l2 : list string) :
  chunked (l1 ++ l2) -> chunked l1 /\ chunked l2.
Proof.
  intros [Hc Hl]. apply List.Forall_app in Hc as [Hc1 Hc2].
  split; (split; [assumption|]).
  - destruct l1 as [|h t]; [constructor|]. cbn [List.tl app] in *.
    now apply List.Forall_app in Hl as [Hl _].
  - destruct l1 as [|h t].
    + exact Hl.
    + cbn [List.tl app] in Hl. apply List.Forall_app in Hl as [_ Hl].
      destruct l2; [constructor|]. inversion Hl; subst. assumption.
Qed.

Lemma chunked_firstn (n : nat) (l : list string) :
  chunked l -> chunked (List.firstn n l).
Proof.
  intros H. rewrite <- (List.firstn_skipn n l) in H.
  now apply chunked_app in H.
Qed.




(** *** Counting characters *)

Lemma chars_first (s h : string) (t : list string) :
  Py.chars s = h :: t -> Py.continues h = Py.continues s.
Proof.
  intros E. pose proof (text_chars s) as Ht.
  destruct (chunked_chars s) as [Hc _]. rewrite E in Ht, Hc.
  inversion Hc as [|? ? (c & r & Hh & _) _]. subst h.
  cbn [Py.text] in Ht.
  change (String c r ++ Py.text t) with (String c (r ++ Py.text t)) in Ht.
  now rewrite <- Ht.
Qed.

Lemma chars_app (a b : string) :
  Py.continues b = false -> Py.chars (a ++ b) = (Py.chars a ++ Py.chars b)%list.
Proof.
  intros Hb.
  rewrite <- (text_chars a) at 1. rewrite <- (text_chars b) at 1.
  rewrite <- text_app. apply chars_text.
  destruct (chunked_chars a) as [Ha1 Ha2], (chunked_chars b) as [Hb1 Hb2].
  split; [now apply List.Forall_app|].
  assert (Hlead : Forall (fun h => Py.continues h = false) (Py.chars b)).
  { destruct (Py.chars b) as [|h' t'] eqn:Eb; [constructor|].
    constructor; [|exact Hb2]. now rewrite (chars_first b h' t' Eb). }
  destruct (Py.chars a) as [|h t]; [exact Hb2|].
  cbn [app List.tl] in *. now apply List.Forall_app.
Qed.

Lemma len_append (a b : string) :
  Py.continues b = false -> Py.len (a ++ b) = Py.len a + Py.len b.
Proof.
  intros Hb. unfold Py.len. now rewrite chars_app, List.length_app.
Qed.

Lemma len_slice_to (n : nat) (s : string) :
  Py.len (Py.slice_to n s) = Nat.min n (Py.len s).
Proof.
  unfold Py.len, Py.slice_to.
  rewrite chars_text by apply chunked_firstn, chunked_chars.
  apply List.length_firstn.
Qed.

Lemma nonempty_neq (s : string) : Py.nonempty s = true <-> s <> "".
Proof. destruct s; simpl; split; intros; congruence. Qed.

Lemma split_words_nonempty (s w : string) :
  In w (Py.split s) -> Py.nonempty w = true.
Proof. unfold Py.split. intros H. now apply List.filter_In in H. Qed.

Lemma join_cons_neq (sep x : string) (l : list string) :
  x <> "" -> Py.join sep (x :: l) <> "".
Proof.
  intros Hx. destruct x as [|c x]; [congruence|].
  destruct l; discriminate.
Qed.

End StringFacts.

(** ** Words *)

Section Words.

Lemma cut_on_concat {A} (p : A -> bool) (l : list A) :
  List.concat (Py.cut_on p l) = List.filter (fun x => negb (p x)) l.
Proof.
  induction l as [|x r IH]; [reflexivity|].
  cbn [Py.cut_on List.filter]. destruct (p x); cbn [negb].
  - exact IH.
  - destruct (Py.cut_on p r) as [|h t]; cbn [List.concat app] in *.
    + now rewrite <- IH.
    + now rewrite <- IH.
Qed.

Lemma cut_on_clean {A} (p : A -> bool) (l : list A) :
  Forall (Forall (fun x => p x = false)) (Py.cut_on p l).
Proof.
  induction l as [|x r IH]; [repeat constructor|].
  cbn [Py.cut_on]. destruct (p x) eqn:Hx.
  - constructor; [constructor | exact IH].
  - destruct (Py.cut_on p r) as [|h t].
    + repeat constructor. exact Hx.
    + inversion IH; subst. constructor; [|assumption].
      constructor; assumption.
Qed.

Lemma cut_on_prefix {A} (p : A -> bool) (l h : list A) (t : list (list A)) :
  Py.cut_on p l = h :: t -> exists rest, l = (h ++ rest)%list.
Proof.
  revert h t. induction l as [|x r IH]; intros h t.
  - intros [= <- <-]. now exists [].
  - cbn [Py.cut_on]. destruct (p x).
    + intros [= <- <-]. now exists (x :: r).
    + destruct (Py.cut_on p r) as [|h' t'] eqn:E.
      * intros [= <- <-]. exists r. reflexivity.
      * intros [= <- <-]. destruct (IH h' t' eq_refl) as [rest ->].
        now exists rest.
Qed.

Lemma cut_on_chunked (p : string -> bool) (l : list string) :
  chunked l -> Forall chunked (Py.cut_on p l).
Proof.
  induction l as [|x r IH]; intros H.
  - repeat constructor.
  - assert (Hr : chunked r).
    { change (x :: r) with ([x] ++ r)%list in H. now apply chunked_app in H. }
    specialize (IH Hr). cbn [Py.cut_on]. destruct (p x).
    + constructor; [split; constructor | exact IH].
    + destruct (Py.cut_on p r) as [|h t] eqn:E.
      * constructor; [|constructor].
        change (x :: r) with ([x] ++ r)%list in H. now apply chunked_app in H.
      * inversion IH; subst. constructor; [|assumption].
        destruct (cut_on_prefix p r h t E) as [rest ->].
        change (x :: h ++ rest)%list with ((x :: h) ++ rest)%list in H.
        now apply chunked_app in H.
Qed.

Lemma text_nil (l : list string) : chunked l -> Py.text l = "" -> l = [].
Proof.
  intros [Hc _] Ht. destruct l as [|h t]; [reflexivity|].
  inversion Hc as [|? ? (c & r & -> & _) _]. discriminate Ht.
Qed.

(** The words of a message are its maximal runs of characters that are
    not whitespace: none is empty, none holds a whitespace character, and
    together they hold the other characters of the message, in order. *)
Lemma split_words (s : string) :
  Forall (fun w => w <> "" /\ Forall (fun c => Py.is_space c = false) (Py.chars w))
         (Py.split s)
  /\ List.concat (List.map Py.chars (Py.split s))
     = List.filter (fun c => negb (Py.is_space c)) (Py.chars s).
Proof.
  unfold Py.split. rewrite <- (cut_on_concat Py.is_space (Py.chars s)).
  pose proof (cut_on_clean Py.is_space (Py.chars s)) as Hclean.
  pose proof (cut_on_chunked Py.is_space (Py.chars s) (chunked_chars s)) as Hch.
  induction (Py.cut_on Py.is_space (Py.chars s)) as [|piece pieces IH].
  - split; [constructor | reflexivity].
  - inversion Hclean as [|? ? Hp Hps]; subst.
    inversion Hch as [|? ? Hc Hcs]; subst.
    destruct (IH Hps Hcs) as [IH1 IH2].
    cbn [List.map List.filter List.concat].
    destruct (Py.nonempty (Py.text piece)) eqn:Hne.
    + cbn [List.map List.concat]. rewrite (chars_text piece Hc), IH2.
      split; [|reflexivity].
      constructor; [|exact IH1].
      split; [now apply nonempty_neq|]. now rewrite (chars_text piece Hc).
    + assert (piece = []) as ->.
      { apply text_nil; [exact Hc|]. now destruct (Py.text piece). }
      split; [exact IH1 | exact IH2].
Qed.

End Words.

(** ** The chat title *)

Section ChatTitle.

Lemma get_chat_title_words (m : string) :
  AlternativeAIService.get_chat_title m = title_of_words (Py.split m).
Proof.
  unfold AlternativeAIService.get_chat_title, title_of_words.
  destruct (Py.split m) as [|w ws] eqn:E; [reflexivity|].
  assert (Hw : w <> "").
  { apply nonempty_neq, (split_words_nonempty m). rewrite E. now left. }
  change (List.firstn 5 (w :: ws)) with (w :: List.firstn 4 ws).
  pose proof (join_cons_neq " " w (List.firstn 4 ws) Hw) as Hj.
  set (j := Py.join " " (w :: List.firstn 4 ws)) in *.
  destruct (Nat.ltb 50 (Py.len j)) eqn:L.
  - destruct (Py.slice_to 47 j ++ "...") eqn:Ecut; [|reflexivity].
    destruct (Py.slice_to 47 j); discriminate.
  - destruct j as [|c j']; [congruence|]. reflexivity.
Qed.

Lemma title_of_words_bounds (m : string) :
  let t := title_of_words (Py.split m) in t <> "" /\ Py.len t <= 50.
Proof.
  unfold title_of_words.
  destruct (Py.split m) as [|w ws] eqn:E;
    [split; [discriminate | vm_compute; lia]|].
  assert (Hw : w <> "").
  { apply nonempty_neq, (split_words_nonempty m). rewrite E. now left. }
  change (List.firstn 5 (w :: ws)) with (w :: List.firstn 4 ws).
  pose proof (join_cons_neq " " w (List.firstn 4 ws) Hw) as Hj.
  set (j := Py.join " " (w :: List.firstn 4 ws)) in *.
  cbv zeta.
  destruct (Nat.ltb 50 (Py.len j)) eqn:L.
  - apply Nat.ltb_lt in L. split.
    + destruct (Py.slice_to 47 j); discriminate.
    + rewrite len_append by reflexivity. rewrite len_slice_to.
      change (Py.len "...") with 3. lia.
  - apply Nat.ltb_ge in L. split; [exact Hj | exact L].
Qed.

End ChatTitle.

(** C10. For every [first_message], [get_chat_title] is the same function
    in both backends and returns a nonempty string of at most 50
    characters: ["New Chat"] when the message has no words, and otherwise
    the first five whitespace-separated words joined by single spaces,
    cut to their first 47 characters followed by ["..."] when the join is
    longer than 50 characters.  The words are those of [str.split()]:
    none is empty, none holds a whitespace character, and together they
    hold the characters of the message that are not whitespace, in
    order. *)
Theorem C10_get_chat_title (first_message : string) :
  AIService.get_chat_title first_message
    = AlternativeAIService.get_chat_title first_message
  /\ AlternativeAIService.get_chat_title first_message <> ""
  /\ Py.len (AlternativeAIService.get_chat_title first_message) <= 50
  /\ AlternativeAIService.get_chat_title first_message
     = match Py.split first_message with
       | [] => "New Chat"
       | _ :: _ =>
           let joined := Py.join " " (List.firstn 5 (Py.split first_message)) in
           if Nat.ltb 50 (Py.len joined) then Py.slice_to 47 joined ++ "..."
           else joined
       end
  /\ Forall (fun word =>
               word <> ""
               /\ Forall (fun c => Py.is_space c = false) (Py.chars word))
            (Py.split first_message)
  /\ List.concat (List.map Py.chars (Py.split first_message))
     = List.filter (fun c => negb (Py.is_space c)) (Py.chars first_message).
Proof.
  pose proof (title_of_words_bounds first_message) as [Hne Hlen].
  pose proof (get_chat_title_words first_message) as Ht.
  pose proof (split_words first_message) as [Hwords Hchars].
  split; [reflexivity|].
  rewrite Ht.
  split; [exact Hne|split; [exact Hlen|]].
  split; [|split; [exact Hwords | exact Hchars]].
  unfold title_of_words. destruct (Py.split first_message); reflexivity.
Qed.

(** C10, at messages with characters outside ASCII: a no-break space
    separates words, thirty accented letters are thirty characters and
    are not cut, a join of 53 characters is cut after the 47th, and a
    message of blanks has no words. *)
Example get_chat_title_examples :
  AlternativeAIService.get_chat_title ("a" ++ no_break_space ++ "b c d e f")
  = "a b c d e"
  /\ AlternativeAIService.get_chat_title "éééééééééééééééééééééééééééééé"
     = "éééééééééééééééééééééééééééééé"
  /\ AlternativeAIService.get_chat_title
       "ééééééééééééééééééééééééé ééééééééééééééééééééééééé x"
     = "ééééééééééééééééééééééééé ééééééééééééééééééééé..."
  /\ AlternativeAIService.get_chat_title ("  " ++ no_break_space ++ nl) = "New Chat".
Proof. repeat split; vm_compute; reflexivity. Qed.

(** ** File names and paths *)

Section Suffixes.

Lemma has_char_app (c : ascii) (a b : string) :
  has_char c (a ++ b) = has_char c a || has_char c b.
Proof.
  induction a as [|x a IH]; [reflexivity|].
  change (has_char c (String x a ++ b))
    with (Ascii.eqb c x || has_char c (a ++ b)).
  change (has_char c (String x a)) with (Ascii.eqb c x || has_char c a).
  now rewrite IH, orb_assoc.
Qed.

(** A string without the separator is not cut. *)
Lemma split_char_whole (sep : ascii) (s : string) :
  has_char sep s = false -> Py.split_char sep s = [s].
Proof.
  unfold Py.split_char. induction s as [|c s IH]; [reflexivity|].
  cbn [has_char Py.split_on]. intros H. apply orb_false_iff in H as [Hc Hs].
  rewrite Hc, (IH Hs). reflexivity.
Qed.

(** No piece of a split holds the separator. *)
Lemma split_char_pieces (sep : ascii) (s x : string) :
  In x (Py.split_char sep s) -> has_char sep x = false.
Proof.
  unfold Py.split_char. revert x. induction s as [|c s IH]; intros x.
  - intros [<-|[]]. reflexivity.
  - cbn [Py.split_on]. destruct (Ascii.eqb sep c) eqn:Hc.
    + intros [<-|H]; [reflexivity | now apply IH].
    + destruct (Py.split_on (Ascii.eqb sep) s) as [|h t] eqn:E.
      * intros [<-|[]]. cbn [has_char]. now rewrite Hc.
      * intros [<-|H].
        -- cbn [has_char]. rewrite Hc. apply IH. now left.
        -- apply IH. now right.
Qed.

Lemma name_no_slash (p : string) : has_char "/" (Pathlib.name p) = false.
Proof.
  unfold Pathlib.name.
  set (l := List.filter _ _).
  assert (Hl : forall x, In x l -> has_char "/" x = false).
  { intros x Hx. apply List.filter_In in Hx as [Hx _].
    now apply split_char_pieces in Hx. }
  clearbody l. induction l as [|a l IH]; [reflexivity|].
  destruct l as [|b l]; [apply Hl; now left|].
  change (List.last (a :: b :: l) "") with (List.last (b :: l) "").
  apply IH. intros x Hx. apply Hl. now right.
Qed.

Lemma rfind_None_inv (c : ascii) (s : string) :
  Pathlib.rfind c s = None -> has_char c s = false.
Proof.
  induction s as [|b s IH]; [reflexivity|].
  cbn [Pathlib.rfind has_char].
  destruct (Pathlib.rfind c s); [discriminate|].
  destruct (Ascii.eqb_spec b c) as [->|Hb]; [discriminate|].
  intros _. rewrite (IH eq_refl), orb_false_r.
  apply Ascii.eqb_neq. congruence.
Qed.

(** Where [rfind] finds the character, the rest of the string starts with
    it and does not hold it again. *)
Lemma rfind_Some (c : ascii) (s : string) (i : nat) :
  Pathlib.rfind c s = Some i ->
  exists rest, Pathlib.slice_from i s = String c rest
               /\ has_char c rest = false
               /\ String.length s = i + S (String.length rest).
Proof.
  revert i. induction s as [|a s IH]; intros i; [discriminate|].
  cbn [Pathlib.rfind]. destruct (Pathlib.rfind c s) as [j|] eqn:E.
  - intros [= <-]. destruct (IH j eq_refl) as (rest & H1 & H2 & H3).
    exists rest. cbn [Pathlib.slice_from]. repeat split; try assumption.
    cbn [String.length]. lia.
  - destruct (Ascii.eqb_spec a c) as [->|Hne]; [|discriminate].
    intros [= <-]. exists s. cbn [Pathlib.slice_from].
    split; [reflexivity|]. split; [now apply rfind_None_inv | reflexivity].
Qed.

Lemma rfind_None (c : ascii) (s : string) :
  has_char c s = false -> Pathlib.rfind c s = None.
Proof.
  induction s as [|a s IH]; [reflexivity|].
  cbn [has_char Pathlib.rfind]. intros H. apply orb_false_iff in H as [Ha Hs].
  rewrite (IH Hs). destruct (Ascii.eqb_spec a c) as [->|]; [|reflexivity].
  now rewrite Ascii.eqb_refl in Ha.
Qed.

Lemma rfind_app (c : ascii) (u rest : string) :
  has_char c rest = false ->
  Pathlib.rfind c (u ++ String c rest) = Some (String.length u).
Proof.
  intros Hrest. induction u as [|a u IH].
  - change ("" ++ String c rest) with (String c rest).
    cbn [Pathlib.rfind]. rewrite (rfind_None c rest Hrest).
    now rewrite Ascii.eqb_refl.
  - change (String a u ++ String c rest) with (String a (u ++ String c rest)).
    cbn [Pathlib.rfind]. now rewrite IH.
Qed.

Lemma slice_from_app (u x : string) : Pathlib.slice_from (String.length u) (u ++ x) = x.
Proof. induction u as [|a u IH]; [now destruct x | exact IH]. Qed.

Lemma has_char_slice_from (c : ascii) (i : nat) (s : string) :
  has_char c s = false -> has_char c (Pathlib.slice_from i s) = false.
Proof.
  revert s. induction i as [|i IH]; intros s H; [now destruct s|].
  destruct s as [|a s]; [reflexivity|].
  cbn [Pathlib.slice_from]. apply IH.
  cbn [has_char] in H. now apply orb_false_iff in H.
Qed.

(** A suffix is empty, or a dot followed by at least one character, none
    of them a dot or a slash. *)
Lemma suffix_shape (p : string) :
  Pathlib.suffix p = ""
  \/ exists rest, Pathlib.suffix p = String "." rest
                  /\ rest <> "" /\ has_char "." rest = false
                  /\ has_char "/" rest = false.
Proof.
  unfold Pathlib.suffix. cbv zeta.
  pose proof (name_no_slash p) as Hslash.
  destruct (Pathlib.rfind "." (Pathlib.name p)) as [i|] eqn:E; [|now left].
  destruct (Nat.ltb 0 i && Nat.ltb (S i) (String.length (Pathlib.name p))) eqn:B;
    [|now left].
  right. apply andb_true_iff in B as [_ B]. apply Nat.ltb_lt in B.
  destruct (rfind_Some _ _ _ E) as (rest & H1 & H2 & H3).
  exists rest. repeat split; try assumption.
  - intros ->. simpl in H3. lia.
  - apply (has_char_slice_from "/" i) in Hslash. rewrite H1 in Hslash.
    cbn [has_char] in Hslash. now apply orb_false_iff in Hslash.
Qed.

Lemma length_append (a b : string) :
  String.length (a ++ b) = String.length a + String.length b.
Proof.
  induction a as [|c a IH]; [reflexivity|].
  change (String c a ++ b) with (String c (a ++ b)).
  cbn [String.length]. now rewrite IH.
Qed.

Lemma append_empty_r (s : string) : s ++ "" = s.
Proof.
  induction s as [|c s IH]; [reflexivity|].
  change (String c s ++ "") with (String c (s ++ "")). now rewrite IH.
Qed.

Lemma name_whole (s : string) :
  has_char "/" s = false -> s <> "" -> s <> "." -> Pathlib.name s = s.
Proof.
  intros Hs Hne Hdot. unfold Pathlib.name.
  rewrite (split_char_whole "/" s Hs). cbn [List.filter].
  destruct s as [|c s]; [congruence|]. cbn [Py.nonempty andb].
  destruct (String.eqb_spec (String c s) "."); [congruence|]. reflexivity.
Qed.


(** *** Where an upload is stored *)

Lemma hex_digit_plain (c : ascii) (n : N) :
  has_char c "0123456789abcdef" = false -> Ascii.eqb c (UUID.hex_digit n) = false.
Proof.
  intros H. cbn [has_char] in H.
  repeat (apply orb_false_iff in H as [? H]).
  unfold UUID.hex_digit.
  destruct n as [|p]; [assumption|].
  do 4 (try (destruct p as [p|p|])); assumption.
Qed.

Lemma has_char_hex (c : ascii) (k : nat) (n : N) :
  has_char c "0123456789abcdef" = false -> has_char c (UUID.hex k n) = false.
Proof.
  intros H. revert n. induction k as [|k IH]; intros n; [reflexivity|].
  cbn [UUID.hex]. rewrite has_char_app, IH. cbn [has_char orb].
  now rewrite (hex_digit_plain c _ H).
Qed.

(** A UUID is written with hexadecimal digits and hyphens. *)
Lemma uuid4_plain (env : Env) :
  uuid4 env <> ""
  /\ has_char "." (uuid4 env) = false
  /\ has_char "/" (uuid4 env) = false.
Proof.
  unfold uuid4, UUID.str. split; [|split].
  - destruct (UUID.hex 8 _); discriminate.
  - rewrite !has_char_app, !has_char_hex by reflexivity. reflexivity.
  - rewrite !has_char_app, !has_char_hex by reflexivity. reflexivity.
Qed.

Lemma root_relative (s : string) :
  has_char "/" s = false -> Pathlib.root s = "".
Proof.
  intros H. unfold Pathlib.root.
  destruct s as [|c s]; [reflexivity|].
  cbn [has_char] in H. apply orb_false_iff in H as [Hc _].
  apply Ascii.eqb_neq in Hc.
  cbn [String.prefix]. now destruct (ascii_dec "/" c).
Qed.

(** A name that is not empty, is not ["."] and holds no slash is joined
    to the upload directory by a slash. *)
Lemma joinpath_plain (s : string) :
  has_char "/" s = false -> s <> "" -> s <> "." ->
  Pathlib.joinpath Config.UPLOAD_DIR s = Config.UPLOAD_DIR ++ "/" ++ s.
Proof.
  intros Hslash Hne Hdot. unfold Pathlib.joinpath.
  rewrite (root_relative s Hslash). cbn [Py.nonempty].
  unfold Pathlib.parts at 2. rewrite (split_char_whole "/" s Hslash).
  cbn [List.filter].
  destruct s as [|c s]; [congruence|]. cbn [Py.nonempty andb].
  destruct (String.eqb_spec (String c s) "."); [congruence|]. reflexivity.
Qed.

Lemma unique_name_plain (env : Env) (f : string) :
  has_char "/" (uuid4 env ++ Pathlib.suffix f) = false
  /\ uuid4 env ++ Pathlib.suffix f <> ""
  /\ uuid4 env ++ Pathlib.suffix f <> ".".
Proof.
  destruct (uuid4_plain env) as (Hne & Hdot & Hslash).
  remember (uuid4 env) as u eqn:Eu. clear Eu.
  split; [|split].
  - rewrite has_char_app, Hslash.
    destruct (suffix_shape f) as [->|(rest & -> & _ & _ & Hrest)]; [reflexivity|].
    cbn [has_char orb]. exact Hrest.
  - destruct u; [congruence | discriminate].
  - destruct u as [|c u]; [congruence|].
    cbn [has_char] in Hdot. apply orb_false_iff in Hdot as [Hc _].
    intros [= -> _]. now rewrite Ascii.eqb_refl in Hc.
Qed.

(** [save_file] at a generated name. *)
Lemma save_file_unique (env : Env) (content : list Byte.byte) (f : string)
    (w : World) :
  let path := Config.UPLOAD_DIR ++ "/" ++ uuid4 env ++ Pathlib.suffix f in
  FileProcessor.save_file env content (uuid4 env ++ Pathlib.suffix f) w
  = match write_fault env with
    | Some e => (w, Raise e)
    | None => (with_file w path content, Ok path)
    end.
Proof.
  destruct (unique_name_plain env f) as (Hslash & Hne & Hdot).
  cbv zeta. unfold FileProcessor.save_file. cbv zeta.
  rewrite (joinpath_plain _ Hslash Hne Hdot).
  change (String.eqb (Config.UPLOAD_DIR ++ "/" ++ uuid4 env ++ Pathlib.suffix f)
            Config.UPLOAD_DIR) with false.
  cbv iota. destruct (write_fault env); reflexivity.
Qed.

End Suffixes.

(** ** Uploads *)

Section Upload.

Lemma set_mem_In (x : string) (s : list string) : set_mem x s = true <-> In x s.
Proof.
  unfold set_mem. rewrite List.existsb_exists. split.
  - intros [y [Hy E]]. apply String.eqb_eq in E. now subst.
  - intros H. exists x. split; [assumption | apply String.eqb_refl].
Qed.

Lemma is_allowed_file_spec (filename : string) :
  FileProcessor.is_allowed_file filename = true <->
  In (Py.lower (Pathlib.suffix filename)) [".pdf"; ".docx"; ".txt"].
Proof. unfold FileProcessor.is_allowed_file. apply set_mem_In. Qed.

(** A block whose handler returns a value never raises. *)
Lemma try_catch_total {A} (body : M A) (h : exn -> A) (w : World) :
  exists w' a, try_catch body (fun e => ret (h e)) w = (w', Ok a).
Proof.
  unfold try_catch. destruct (body w) as [w' [a|e]]; eauto.
Qed.

Lemma read_file_world (p : string) (w : World) :
  (FileProcessor.read_file p w).1 = w.
Proof.
  unfold FileProcessor.read_file, mbind, get_world, ret, raise.
  destruct (fs w !! p); reflexivity.
Qed.

Ltac step_read p w :=
  let Hr := fresh "Hr" in
  pose proof (read_file_world p w) as Hr;
  destruct (FileProcessor.read_file p w) as [? [?|?]]; simpl in Hr; subst.

(** Reading a file back leaves the world as it is and never raises. *)
Lemma extract_text_world (env : Env) (p ty : string) (w : World) :
  exists t, FileProcessor.extract_text env p ty w = (w, Ok t).
Proof.
  unfold FileProcessor.extract_text.
  destruct (String.eqb (Py.lower ty) ".pdf").
  { unfold FileProcessor.extract_text_from_pdf, try_catch, mbind at 1.
    step_read p w; [|eauto].
    unfold mbind, lift, ret. destruct (pdf_pages env _); eauto. }
  destruct (String.eqb (Py.lower ty) ".docx").
  { unfold FileProcessor.extract_text_from_docx, try_catch, mbind at 1.
    step_read p w; [|eauto].
    unfold mbind, lift, ret. destruct (docx_paragraphs env _); eauto. }
  destruct (String.eqb (Py.lower ty) ".txt"); [|unfold ret; eauto].
  unfold FileProcessor.extract_text_from_txt, try_catch at 1, mbind at 1.
  step_read p w.
  - unfold mbind at 1, lift, ret.
    destruct (decode_utf8 env _) as [t|e]; [eauto|].
    destruct e; try (unfold ret; eauto).
    unfold try_catch, mbind at 1.
    step_read p w; [|unfold ret; eauto].
    unfold mbind, lift, ret. destruct (decode_latin1 env _); eauto.
  - destruct e; try (unfold ret; eauto).
    unfold try_catch, mbind at 1.
    step_read p w; [|unfold ret; eauto].
    unfold mbind, lift, ret. destruct (decode_latin1 env _); eauto.
Qed.

Lemma avoids_ret {A} (e : exn) (a : A) : avoids e (ret a).
Proof. intros w w'. unfold ret. congruence. Qed.

Lemma avoids_raise {A} (e e' : exn) : e' <> e -> avoids e (raise (A := A) e').
Proof. intros H w w'. unfold raise. congruence. Qed.

Lemma avoids_lift_ok {A} (e : exn) (a : A) : avoids e (lift (Ok a)).
Proof. intros w w'. unfold lift. congruence. Qed.

Lemma avoids_lift_raise {A} (e e' : exn) :
  e' <> e -> avoids e (lift (A := A) (Raise e')).
Proof. intros H w w'. unfold lift. congruence. Qed.

Lemma avoids_bind {A B} (e : exn) (m : M A) (k : A -> M B) :
  avoids e m -> (forall a, avoids e (k a)) -> avoids e (mbind m k).
Proof.
  intros Hm Hk w w'. unfold mbind.
  specialize (Hm w). destruct (m w) as [w1 [a|e1]].
  - apply Hk.
  - intros Heq. apply (Hm w1). congruence.
Qed.

Lemma avoids_try_catch {A} (e : exn) (body : M A) (h : exn -> A) :
  avoids e (try_catch body (fun x => ret (h x))).
Proof.
  intros w w'. destruct (try_catch_total body h w) as [w1 [a E]].
  rewrite E. congruence.
Qed.

Lemma avoids_create_document (e : exn) (env : Env) (dc : DocumentCreate) (u : Z) :
  avoids e (Crud.create_document env dc u).
Proof.
  intros w w'. unfold Crud.create_document, mbind, get_world, set_db, ret.
  congruence.
Qed.

Lemma not_allowed_empty : FileProcessor.is_allowed_file "" = false.
Proof. reflexivity. Qed.

End Upload.

(** C4. [is_allowed_file] holds exactly when the lower-cased suffix of the
    file name is [".pdf"], [".docx"] or [".txt"]; for any other file name
    [process_uploaded_file] returns [(None, None, None)] and leaves the
    world (the upload directory included) as it was, and the upload
    endpoint raises an HTTP 400 error, again without changing anything. *)
Theorem C4_allowed_extensions (env : Env) (filename : string)
    (content : list Byte.byte) (user_id : Z) (w : World) :
  (FileProcessor.is_allowed_file filename = true <->
   In (Py.lower (Pathlib.suffix filename)) [".pdf"; ".docx"; ".txt"])
  /\ (FileProcessor.is_allowed_file filename = false ->
      FileProcessor.process_uploaded_file env content filename w
        = (w, Ok (None, None, None))
      /\ exists detail,
           DocumentsApi.upload_document env (Some filename) content user_id w
             = (w, Raise (HTTPException 400 detail))).
Proof.
  split; [apply is_allowed_file_spec|].
  intros H. split.
  - unfold FileProcessor.process_uploaded_file, try_catch. now rewrite H.
  - unfold DocumentsApi.upload_document.
    destruct (truthy_opt (Some filename)); simpl; [|unfold raise; eauto].
    rewrite H. simpl. unfold raise. eauto.
Qed.

(** C4, at the file name ["setup.EXE"]. *)
Lemma C4_allowed_extensions_witness :
  FileProcessor.is_allowed_file "setup.EXE" = false
  /\ FileProcessor.process_uploaded_file sample_env [] "setup.EXE" empty_world
       = (empty_world, Ok (None, None, None))
  /\ exists detail,
       DocumentsApi.upload_document sample_env (Some "setup.EXE") [] 7 empty_world
         = (empty_world, Raise (HTTPException 400 detail)).
Proof.
  split; [reflexivity|].
  apply (C4_allowed_extensions sample_env "setup.EXE" [] 7 empty_world).
  reflexivity.
Defined.

(** C8. An upload whose content is longer than [MAX_FILE_SIZE] = 10 MB is
    answered with an HTTP 400 error and the world is unchanged: no file is
    written and no document row is created.  An upload of at most that
    size is never answered with the size error. *)
Theorem C8_size_limit (env : Env) (filename : option string)
    (content : list Byte.byte) (user_id : Z) (w : World) :
  Config.MAX_FILE_SIZE = (10 * 1024 * 1024)%Z
  /\ ((Config.MAX_FILE_SIZE < Z.of_nat (List.length content))%Z ->
      exists detail,
        DocumentsApi.upload_document env filename content user_id w
          = (w, Raise (HTTPException 400 detail)))
  /\ ((Z.of_nat (List.length content) <= Config.MAX_FILE_SIZE)%Z ->
      forall w',
        DocumentsApi.upload_document env filename content user_id w
          <> (w', Raise (HTTPException 400 "File too large. Maximum size: 10.0 MB"))).
Proof.
  split; [reflexivity|]. split.
  - intros Hbig. unfold DocumentsApi.upload_document.
    destruct (truthy_opt filename); simpl; [|unfold raise; eauto].
    destruct (FileProcessor.is_allowed_file _); simpl; [|unfold raise; eauto].
    apply Z.ltb_lt in Hbig. rewrite Hbig. unfold raise. eauto.
  - intros Hsmall w'. revert w w'.
    change (avoids (HTTPException 400 "File too large. Maximum size: 10.0 MB")
              (DocumentsApi.upload_document env filename content user_id)).
    unfold DocumentsApi.upload_document.
    destruct (truthy_opt filename); simpl; [|apply avoids_raise; discriminate].
    destruct (FileProcessor.is_allowed_file _); simpl;
      [|apply avoids_raise; intros Heq; vm_compute in Heq; discriminate].
    apply Z.ltb_ge in Hsmall. rewrite Hsmall.
    apply avoids_bind; [apply avoids_try_catch|]. intros [[fp un] tx].
    destruct (negb (truthy_opt fp) || negb (truthy_opt tx));
      [apply avoids_raise; discriminate|].
    apply avoids_bind.
    { unfold new_DocumentCreate. destruct un, fp;
        first [apply avoids_lift_ok | apply avoids_lift_raise; discriminate]. }
    intros dc. apply avoids_bind; [apply avoids_create_document|]. intros doc.
    apply avoids_bind; [apply avoids_try_catch | intros; apply avoids_ret].
Qed.

(** C8, at a text file of 10 MB plus one byte and at a text file of one
    byte. *)
Lemma C8_size_limit_witness :
  (exists detail,
     DocumentsApi.upload_document sample_env (Some "big.txt")
       (List.repeat Byte.x61 (Z.to_nat 10485761)) 7 empty_world
     = (empty_world, Raise (HTTPException 400 detail)))
  /\ (forall w',
        DocumentsApi.upload_document sample_env (Some "small.txt")
          [Byte.x61] 7 empty_world
        <> (w', Raise (HTTPException 400 "File too large. Maximum size: 10.0 MB"))).
Proof.
  split.
  - apply (C8_size_limit sample_env (Some "big.txt")
             (List.repeat Byte.x61 (Z.to_nat 10485761)) 7 empty_world).
    rewrite List.repeat_length, Z2Nat.id by lia.
    unfold Config.MAX_FILE_SIZE. lia.
  - apply (C8_size_limit sample_env (Some "small.txt") [Byte.x61] 7 empty_world).
    unfold Config.MAX_FILE_SIZE. simpl. lia.
Defined.

(** C9. When a file with an allowed extension and an admissible size is
    uploaded, the raw bytes are written, and text extraction from the
    written file yields [None] or the empty string, the endpoint raises
    HTTP 500 "Failed to process file".  The world it leaves differs from
    the one it found only by the written file: no document row was
    created, and the file is still in the upload directory. *)
Theorem C9_failed_extraction (env : Env) (filename : string)
    (content : list Byte.byte) (user_id : Z) (w : World) (t : option string) :
  let path :=
    Config.UPLOAD_DIR ++ "/" ++ uuid4 env ++ Pathlib.suffix filename in
  FileProcessor.is_allowed_file filename = true ->
  (Z.of_nat (List.length content) <= Config.MAX_FILE_SIZE)%Z ->
  write_fault env = None ->
  snd (FileProcessor.extract_text env path (Py.lower (Pathlib.suffix filename))
         (with_file w path content)) = Ok t ->
  truthy_opt t = false ->
  DocumentsApi.upload_document env (Some filename) content user_id w
    = (with_file w path content,
       Raise (HTTPException 500 "Failed to process file"))
  /\ db (with_file w path content) = db w
  /\ fs (with_file w path content) !! path = Some content.
Proof.
  intros path Hallowed Hsize Hwrite Hextract Hfalsy.
  split; [|split; [reflexivity | apply lookup_insert_eq]].
  unfold DocumentsApi.upload_document.
  assert (Hname : truthy_opt (Some filename) = true).
  { destruct filename; [rewrite not_allowed_empty in Hallowed; discriminate|].
    reflexivity. }
  rewrite Hname. change (negb true) with false. cbv beta iota zeta.
  rewrite Hallowed. change (negb true) with false. cbv beta iota zeta.
  apply Z.ltb_ge in Hsize. rewrite Hsize.
  destruct (extract_text_world env path (Py.lower (Pathlib.suffix filename))
              (with_file w path content)) as [t' Et].
  rewrite Et in Hextract. simpl in Hextract. injection Hextract as ->.
  unfold mbind at 1.
  assert (Hproc :
    FileProcessor.process_uploaded_file env content filename w
    = (with_file w path content,
       Ok (Some path,
           Some (FileProcessor.generate_unique_filename env filename), t))).
  { unfold FileProcessor.process_uploaded_file, try_catch.
    rewrite Hallowed. change (negb true) with false. cbv beta iota.
    unfold mbind at 1.
    unfold FileProcessor.generate_unique_filename.
    rewrite save_file_unique, Hwrite. fold path.
    unfold mbind, ret. rewrite Et. reflexivity. }
  rewrite Hproc. rewrite Hfalsy.
  rewrite orb_true_r. reflexivity.
Qed.

(** C9, at an empty text file. *)
Lemma C9_failed_extraction_witness :
  DocumentsApi.upload_document sample_env (Some "blank.txt") [] 7 empty_world
    = (with_file empty_world
         "uploads/0f8fad5b-d9cb-469f-a165-70867728950e.txt" [],
       Raise (HTTPException 500 "Failed to process file"))
  /\ db (with_file empty_world
           "uploads/0f8fad5b-d9cb-469f-a165-70867728950e.txt" []) = empty_db
  /\ fs (with_file empty_world
           "uploads/0f8fad5b-d9cb-469f-a165-70867728950e.txt" [])
       !! "uploads/0f8fad5b-d9cb-469f-a165-70867728950e.txt" = Some [].
Proof.
  apply (C9_failed_extraction sample_env "blank.txt" [] 7 empty_world (Some "")).
  - reflexivity.
  - unfold Config.MAX_FILE_SIZE. simpl. lia.
  - reflexivity.
  - vm_compute. reflexivity.
  - reflexivity.
Defined.

(** ** Chat history *)

Section History.

Lemma session_filter_In (d : Db) (sid : Z) (m : ChatMessage) :
  In m (List.filter
          (fun m => match msg_session_id m with
                    | Some s => (s =? sid)%Z
                    | None => false
                    end)
          (chat_messages d))
  <-> In m (chat_messages d) /\ in_session sid m.
Proof.
  rewrite List.filter_In. unfold in_session.
  destruct (msg_session_id m) as [s|]; split; intros [Hin H];
    split; try assumption; try discriminate.
  - apply Z.eqb_eq in H. now subst.
  - injection H as ->. apply Z.eqb_refl.
Qed.

Lemma created_at_transitive :
  RelationClasses.Transitive (fun x y => is_true (MsgOrder.leb x y)).
Proof.
  intros x y z. unfold MsgOrder.leb, is_true.
  rewrite !Z.leb_le. lia.
Qed.

Lemma sort_chronological (l : list ChatMessage) :
  StronglySorted older_or_same (MsgSort.sort l).
Proof.
  pose proof (MsgSort.StronglySorted_sort l created_at_transitive) as H.
  induction H as [|a l' Hs IH Hall]; constructor; [exact IH|].
  eapply List.Forall_impl; [|exact Hall].
  intros b Hb. unfold older_or_same. unfold MsgOrder.leb, is_true in Hb.
  now apply Z.leb_le.
Qed.

End History.

(** C7. [get_session_messages] returns exactly the stored messages of the
    session (a rearrangement of the rows whose [session_id] matches), the
    oldest first.  When the session exists, [send_chat_message] calls the
    method [chat_with_document] of the backend, whatever backend that is,
    with the session's document, the new message and the history made of
    that list, message by message in the same order: [(content, "")] for
    a user message and [("", content)] for an answer; what the call
    returns or raises is what the handler goes on with.  The backend the
    module binds is the serving one. *)
Theorem C7_session_history (env : Env) (w : World) (chat_request : ChatRequest)
    (user_id : Z) :
  let session_id := cr_session_id chat_request in
  let history := Crud.get_session_messages (db w) session_id in
  Permutation history
    (List.filter (fun m => bool_decide (in_session session_id m))
                 (chat_messages (db w)))
  /\ StronglySorted older_or_same history
  /\ (forall (chat_with_document : Answering) chat_session,
        Crud.get_chat_session (db w) session_id user_id = Some chat_session ->
        ChatApi.send_chat_message_via chat_with_document env chat_request user_id w
        = mbind
            (chat_with_document
               (cs_document_id chat_session) (cr_message chat_request)
               (Some (List.map
                        (fun msg => if msg_is_user msg
                                    then (msg_content msg, "")
                                    else ("", msg_content msg))
                        history)))
            (ChatApi.record_exchange env session_id (cr_message chat_request))
            w)
  /\ ChatApi.send_chat_message env chat_request user_id
     = ChatApi.send_chat_message_via
         (Backend.chat_with_document env (ChatApi.ai_service env)) env
         chat_request user_id.
Proof.
  intros session_id history. split; [|split; [|split]].
  - unfold history, Crud.get_session_messages.
    assert (Hext : forall m,
               bool_decide (in_session session_id m)
               = match msg_session_id m with
                 | Some s => (s =? session_id)%Z
                 | None => false
                 end).
    { intros m.
      destruct (bool_decide_reflect (in_session session_id m)) as [H|H];
        unfold in_session in H.
      - rewrite H. symmetry. apply Z.eqb_refl.
      - destruct (msg_session_id m) as [s|]; [|reflexivity].
        destruct (Z.eqb_spec s session_id); [subst; congruence | reflexivity]. }
    rewrite (List.filter_ext _ _ Hext).
    symmetry. apply MsgSort.Permuted_sort.
  - apply sort_chronological.
  - intros chat cs Hfound.
    unfold ChatApi.send_chat_message_via, mbind at 1, get_world.
    fold session_id. rewrite Hfound. reflexivity.
  - reflexivity.
Qed.

(** C7, at a session whose rows were stored out of order, with a backend
    that raises the history it is handed: the three stored messages
    arrive oldest first, each on its side of the pair. *)
Lemma C7_session_history_witness :
  Crud.get_chat_session (db sample_chat_world) 3 7 = Some sample_session
  /\ ChatApi.send_chat_message_via echo_history sample_env
       {| cr_message := "Is it green?"; cr_session_id := 3 |} 7 sample_chat_world
     = (sample_chat_world,
        Raise (Exception "What is it about?>|>It is about tea.|Which tea?>")).
Proof.
  split; [reflexivity|].
  exact (eq_trans
           (proj1 (proj2 (proj2 (C7_session_history sample_env sample_chat_world
                                   {| cr_message := "Is it green?";
                                      cr_session_id := 3 |} 7)))
              echo_history sample_session eq_refl)
           eq_refl).
Defined.

(** ** Failures inside the answering functions *)

Section Failures.


Lemma remote_world (env : Env) (op : remote_op) (w : World) :
  fst (remote env op w) = w.
Proof. unfold remote, raise, ret. destruct (fault env op); reflexivity. Qed.

(** Looking a store up reads the index only, and never raises. *)
Lemma alt_load_vectorstore_world (env : Env) (self : AlternativeAIService.t)
    (d : Z) (w : World) :
  exists o, AlternativeAIService.load_vectorstore env self d w = (w, Ok o).
Proof.
  unfold AlternativeAIService.load_vectorstore, try_catch.
  destruct (AlternativeAIService.index self); simpl; [|unfold ret; eauto].
  unfold Pinecone.describe_index_stats, Pinecone.open_store,
    mbind, remote, get_world, ret, raise.
  destruct (fault env OpStats); [eauto|].
  destruct (bool_decide _); simpl; [|eauto].
  destruct (fault env OpStore); eauto.
Qed.

Lemma hosted_load_vectorstore_world (env : Env) (self : AIService.t)
    (d : Z) (w : World) :
  exists o, AIService.load_vectorstore env self d w = (w, Ok o).
Proof.
  unfold AIService.load_vectorstore, try_catch.
  destruct (AIService.index self); simpl; [|unfold ret; eauto].
  unfold Pinecone.describe_index_stats, Pinecone.open_store,
    mbind, remote, get_world, ret, raise.
  destruct (fault env OpStats); [eauto|].
  destruct (bool_decide _); simpl; [|eauto].
  destruct (fault env OpStore); eauto.
Qed.

End Failures.



(** ** The rule-based language model *)

Section SimpleModel.

Lemma lower_app (a b : string) : Py.lower (a ++ b) = Py.lower a ++ Py.lower b.
Proof. induction a as [|c a IH]; simpl; [reflexivity | now rewrite IH]. Qed.

Lemma prefix_app_r (n x b : string) :
  String.prefix n x = true -> String.prefix n (x ++ b) = true.
Proof.
  revert x. induction n as [|c n IH]; intros x H.
  - destruct (x ++ b); reflexivity.
  - destruct x as [|d x]; simpl in *; [discriminate|].
    destruct (ascii_dec c d); [now apply IH | discriminate].
Qed.

Lemma contains_cons (n : string) (d : ascii) (x : string) :
  Py.contains n (String d x) = String.prefix n (String d x) || Py.contains n x.
Proof. reflexivity. Qed.

Lemma contains_app_r (n x b : string) :
  Py.contains n x = true -> Py.contains n (x ++ b) = true.
Proof.
  induction x as [|d x IH]; intros H.
  - destruct n; [destruct b; reflexivity | discriminate].
  - rewrite contains_cons in H.
    change (String d x ++ b) with (String d (x ++ b)). rewrite contains_cons.
    apply orb_true_iff in H as [H|H].
    + apply (prefix_app_r _ _ b) in H.
      change (String d x ++ b) with (String d (x ++ b)) in H. now rewrite H.
    + rewrite (IH H). apply orb_true_r.
Qed.

Lemma contains_app_l (n a x : string) :
  Py.contains n x = true -> Py.contains n (a ++ x) = true.
Proof.
  intros H. induction a as [|c a IH]; [exact H|].
  change (String c a ++ x) with (String c (a ++ x)). rewrite contains_cons.
  rewrite IH. apply orb_true_r.
Qed.

(** The first piece of a split is a prefix of the string, and every other
    piece occurs in it. *)
Lemma split_on_pieces (p : ascii -> bool) (s : string) :
  exists h t, Py.split_on p s = h :: t
              /\ (exists b, s = h ++ b)
              /\ (forall l, In l t -> exists a b, s = a ++ l ++ b).
Proof.
  induction s as [|c s (h & t & E & [b Hb] & Ht)]; simpl.
  - exists "", []. repeat split; [now exists ""|]. intros l [].
  - destruct (p c).
    + exists "", (Py.split_on p s). repeat split; [now exists (String c s)|].
      rewrite E. intros l [<-|Hl].
      * exists (String c ""), b. simpl. now rewrite Hb.
      * destruct (Ht l Hl) as (a' & b' & ->). now exists (String c a'), b'.
    + rewrite E. exists (String c h), t. repeat split.
      * exists b. simpl. now rewrite Hb.
      * intros l Hl. destruct (Ht l Hl) as (a' & b' & ->).
        now exists (String c a'), b'.
Qed.

Lemma split_on_infix (p : ascii -> bool) (s l : string) :
  In l (Py.split_on p s) -> exists a b, s = a ++ l ++ b.
Proof.
  destruct (split_on_pieces p s) as (h & t & E & [b Hb] & Ht).
  rewrite E. intros [<-|Hl]; [now exists "", b | now apply Ht].
Qed.

(** A context line in the prompt makes the prompt mention the context. *)
Lemma context_line_in_prompt (prompt line : string) :
  In line (Reading.lines prompt) ->
  Reading.is_context_line line = true ->
  Py.contains "context:" (Py.lower prompt) = true.
Proof.
  intros Hin Hc. apply split_on_infix in Hin as (a & b & ->).
  rewrite !lower_app. apply contains_app_l, contains_app_r. exact Hc.
Qed.

Lemma eqb_lower_colon (c : ascii) :
  Ascii.eqb ":" (Py.lower_char c) = Ascii.eqb ":" c.
Proof.
  destruct c as [[] [] [] [] [] [] [] []]; reflexivity.
Qed.

Lemma has_colon_lower (s : string) :
  has_char ":" (Py.lower s) = has_char ":" s.
Proof.
  induction s as [|c s IH]; [reflexivity|].
  cbn [has_char Py.lower]. now rewrite eqb_lower_colon, IH.
Qed.

Lemma prefix_has_char (c : ascii) (n s : string) :
  String.prefix n s = true -> has_char c n = true -> has_char c s = true.
Proof.
  revert s. induction n as [|d n IH]; intros s Hp Hc; [discriminate|].
  destruct s as [|e s]; simpl in Hp; [discriminate|].
  destruct (ascii_dec d e) as [->|]; [|discriminate].
  simpl in *. apply orb_true_iff in Hc as [Hc|Hc].
  - now rewrite Hc.
  - rewrite (IH s Hp Hc). apply orb_true_r.
Qed.

Lemma contains_has_char (c : ascii) (n s : string) :
  Py.contains n s = true -> has_char c n = true -> has_char c s = true.
Proof.
  intros H Hc. induction s as [|e s IH].
  - destruct n; discriminate.
  - rewrite contains_cons in H. apply orb_true_iff in H as [H|H].
    + now apply (prefix_has_char c n).
    + simpl. rewrite (IH H). apply orb_true_r.
Qed.

Lemma split_once_second (sep : ascii) (s : string) :
  has_char sep s = true -> exists q, index_list (split_once sep s) 1 = Ok q.
Proof.
  induction s as [|c s IH]; simpl; [discriminate|].
  destruct (Ascii.eqb sep c); simpl; [intros _; now exists s|].
  intros H. destruct (IH H) as [q Hq].
  destruct (split_once sep s) as [|h [|x t]]; try discriminate.
  now exists q.
Qed.

(** On a line that mentions the question, [line.split(':', 1)[1]] is
    there. *)
Lemma question_line_splits (line : string) :
  Py.contains "question:" (Py.lower line) = true ->
  exists q, index_list (split_once ":" line) 1 = Ok q.
Proof.
  intros H. apply split_once_second.
  rewrite <- has_colon_lower.
  apply (contains_has_char ":" "question:"); [exact H | reflexivity].
Qed.

End SimpleModel.

Section SimpleModelLoop.

(** The loop of [SimpleLLM._call] never raises, and leaves in
    [context_lines] what [Reading.collected] describes. *)
Lemma scan_collects (ls : list string) :
  forall (in_context : bool) (acc : list string),
    SimpleLLM.scan ls in_context acc
    = Ok (acc ++ List.map Py.strip
                   (List.filter (fun l => negb (Reading.is_context_line l))
                      (if in_context then Reading.before_question ls
                       else Reading.after_context (Reading.before_question ls))))%list.
Proof.
  induction ls as [|line rest IH]; intros in_context acc.
  - simpl. destruct in_context; simpl; now rewrite List.app_nil_r.
  - cbn [SimpleLLM.scan Reading.before_question].
    unfold Reading.is_question_line.
    fold (Reading.is_context_line line).
    destruct (Reading.is_context_line line) eqn:Hc; cbn [negb andb].
    + rewrite IH. destruct in_context; cbn [Reading.after_context List.filter].
      * now rewrite Hc.
      * now rewrite Hc.
    + destruct (Py.contains "question:" (Py.lower line)) eqn:Hq.
      * destruct (question_line_splits line Hq) as [q ->].
        cbn [bind]. destruct in_context; simpl; now rewrite List.app_nil_r.
      * rewrite IH. destruct in_context; cbn [Reading.after_context List.filter].
        -- rewrite Hc. cbn [negb List.map]. now rewrite <- List.app_assoc.
        -- now rewrite Hc.
Qed.

Lemma after_context_none (ls : list string) :
  (forall l, In l ls -> Reading.is_context_line l = false) ->
  Reading.after_context ls = [].
Proof.
  induction ls as [|l r IH]; intros H; [reflexivity|].
  simpl. rewrite (H l (or_introl eq_refl)). apply IH.
  intros x Hx. apply H. now right.
Qed.

Lemma before_question_incl (ls : list string) (l : string) :
  In l (Reading.before_question ls) -> In l ls.
Proof.
  induction ls as [|x r IH]; simpl; [tauto|].
  destruct (Reading.is_question_line x); simpl; [tauto|].
  intros [->|H]; [now left | right; now apply IH].
Qed.

Lemma simple_call_reads (prompt : string) :
  SimpleLLM._call prompt
  = Ok (Reading.answer (Reading.collected (Reading.lines prompt))).
Proof.
  unfold SimpleLLM._call.
  destruct (Py.contains "context:" (Py.lower prompt)) eqn:Hc.
  - fold (Reading.lines prompt). rewrite scan_collects. cbn [bind app].
    fold (Reading.collected (Reading.lines prompt)).
    destruct (Reading.collected (Reading.lines prompt)); reflexivity.
  - unfold Reading.collected. rewrite after_context_none; [reflexivity|].
    intros l Hl. apply before_question_incl in Hl.
    destruct (Reading.is_context_line l) eqn:E; [|reflexivity].
    rewrite (context_line_in_prompt prompt l Hl E) in Hc. discriminate.
Qed.

End SimpleModelLoop.

(** C5 (as amended).  [AlternativeAIService] keeps the Ollama model unless
    its test call raises or answers with a text containing
    ["Error: Cannot connect"], in which case it falls back to the
    rule-based model; a refused connection is such a case.  The rule-based
    model never raises: it collects the stripped lines that follow the
    first context line, up to the first question line or, when there is
    none, up to the end of the prompt; when it collected at least one line
    it answers ["Based on the document context: "] followed by the first
    three of them joined by single spaces, and otherwise the canned
    message. *)
Theorem C5_llm_fallback (env : Env) (prompt : string) :
  AlternativeAIService.llm (AlternativeAIService.__init__ env)
  = match llm_call env Ollama "test" with
    | Ok test_response =>
        if Py.contains "Error: Cannot connect" test_response then Simple
        else Ollama
    | Raise _ => Simple
    end
  /\ (forall msg,
        ollama_post env "test" = PostRaises (ConnectionError msg) ->
        AlternativeAIService.llm (AlternativeAIService.__init__ env) = Simple)
  /\ SimpleLLM._call prompt
     = Ok (match Reading.collected (Reading.lines prompt) with
           | [] => SimpleLLM.canned
           | context_lines =>
               "Based on the document context: "
               ++ Py.join " " (List.firstn 3 context_lines)
           end).
Proof.
  split; [reflexivity|]. split.
  - intros msg H. cbn [AlternativeAIService.__init__ AlternativeAIService.llm].
    unfold AlternativeAIService.init_llm, llm_call, OllamaLLM._call.
    rewrite H. destruct (langchain_fault env "test"); reflexivity.
  - rewrite simple_call_reads. unfold Reading.answer.
    destruct (Reading.collected (Reading.lines prompt)); reflexivity.
Qed.

(** C5, where Ollama refuses the connection. *)
Lemma C5_llm_fallback_witness :
  AlternativeAIService.llm (AlternativeAIService.__init__ sample_env) = Simple.
Proof.
  exact (proj1 (proj2 (C5_llm_fallback sample_env ""))
           "Connection refused" eq_refl).
Defined.

(** C5 as first stated fails on a prompt with a context line and no
    question line: the specification's reading gives the canned message,
    the code answers from the context. *)
Lemma C5_llm_fallback_counterexample :
  Reading.claimed_call ("context:" ++ nl ++ "abc") = SimpleLLM.canned
  /\ SimpleLLM._call ("context:" ++ nl ++ "abc")
     = Ok "Based on the document context: abc".
Proof. split; reflexivity. Qed.

(** ** The vector index *)

Section Index.

Lemma str_of_Z_inj (a b : Z) : Py.str_of_Z a = Py.str_of_Z b -> a = b.
Proof.
  unfold Py.str_of_Z. intros H.
  assert (Hn : forall z, Z.to_int z <> Decimal.Pos Decimal.Nil
                         /\ Z.to_int z <> Decimal.Neg Decimal.Nil).
  { intros [|p|p]; simpl; split; try discriminate;
      intros [= E]; now apply DecimalPos.Unsigned.to_uint_nonnil in E. }
  apply (f_equal NilZero.int_of_string) in H.
  rewrite !NilZero.isi in H by apply Hn.
  injection H as H. now apply DecimalZ.to_int_inj.
Qed.

Lemma str_of_nat_inj (a b : nat) : Py.str_of_nat a = Py.str_of_nat b -> a = b.
Proof. unfold Py.str_of_nat. intros H. apply str_of_Z_inj in H. lia. Qed.

Lemma namespace_inj (a b : Z) :
  AlternativeAIService._get_document_namespace a
  = AlternativeAIService._get_document_namespace b -> a = b.
Proof.
  unfold AlternativeAIService._get_document_namespace. intros H.
  apply str_of_Z_inj. now apply (String.app_inj "doc_").
Qed.

Lemma lookup_delete_all_in (ns ns' id : string) (st : index_state) :
  Pinecone.delete_all_in ns st !! (ns', id)
  = if decide (ns' = ns) then None else st !! (ns', id).
Proof.
  unfold Pinecone.delete_all_in. destruct (decide (ns' = ns)) as [->|Hne].
  - apply map_lookup_filter_None. right. intros v _ Hk. now apply Hk.
  - destruct (st !! (ns', id)) as [v|] eqn:E.
    + apply map_lookup_filter_Some. split; [exact E | exact Hne].
    + apply map_lookup_filter_None. now left.
Qed.

Lemma lookup_upsert_other (vs : list vector) (ns ns' id : string) (st : index_state) :
  ns' <> ns -> Pinecone.upsert_in vs ns st !! (ns', id) = st !! (ns', id).
Proof.
  intros Hne. unfold Pinecone.upsert_in. revert st.
  induction vs as [|v vs IH]; intros st; simpl; [reflexivity|].
  rewrite IH. apply lookup_insert_ne. congruence.
Qed.

Lemma lookup_upsert_absent (vs : list vector) (ns id : string) (st : index_state) :
  ~ In id (List.map v_id vs) ->
  Pinecone.upsert_in vs ns st !! (ns, id) = st !! (ns, id).
Proof.
  unfold Pinecone.upsert_in. revert st.
  induction vs as [|v vs IH]; intros st Hid; simpl; [reflexivity|].
  simpl in Hid. rewrite IH by tauto.
  apply lookup_insert_ne. intros [= E]. tauto.
Qed.

Lemma lookup_upsert_present (vs : list vector) (ns : string) (st : index_state)
    (v : vector) :
  NoDup (List.map v_id vs) -> In v vs ->
  Pinecone.upsert_in vs ns st !! (ns, v_id v) = Some v.
Proof.
  unfold Pinecone.upsert_in. revert st.
  induction vs as [|x vs IH]; intros st Hnd Hin; [destruct Hin|].
  simpl in *. apply NoDup_cons_iff in Hnd as [Hx Hnd].
  destruct Hin as [->|Hin].
  - fold (Pinecone.upsert_in vs ns (<[(ns, v_id v):=v]> st)).
    rewrite lookup_upsert_absent by exact Hx. apply lookup_insert_eq.
  - now apply IH.
Qed.

Lemma lookup_upsert_origin (vs : list vector) (ns id : string) (st : index_state)
    (v : vector) :
  Pinecone.upsert_in vs ns st !! (ns, id) = Some v ->
  (In v vs /\ v_id v = id) \/ st !! (ns, id) = Some v.
Proof.
  unfold Pinecone.upsert_in. revert st.
  induction vs as [|x vs IH]; intros st H; simpl in *; [now right|].
  apply IH in H as [[Hin Hid]|H]; [left; tauto|].
  destruct (decide (v_id x = id)) as [<-|Hne].
  - rewrite lookup_insert_eq in H. injection H as ->. left. tauto.
  - rewrite lookup_insert_ne in H by congruence. now right.
Qed.

(** Every record that is upserted leaves a record under its id, one of
    those upserted. *)
Lemma lookup_upsert_some (vs : list vector) (ns : string) (st : index_state)
    (v : vector) :
  In v vs ->
  exists v', Pinecone.upsert_in vs ns st !! (ns, v_id v) = Some v'
             /\ In v' vs /\ v_id v' = v_id v.
Proof.
  revert st v. induction vs as [|x vs IH]; intros st v Hin; [destruct Hin|].
  change (Pinecone.upsert_in (x :: vs) ns st)
    with (Pinecone.upsert_in vs ns (<[(ns, v_id x) := x]> st)).
  destruct (List.in_dec String.string_dec (v_id v) (List.map v_id vs)) as [Hlater|Hlast].
  - apply List.in_map_iff in Hlater as (y & Hy & Hyin).
    destruct (IH (<[(ns, v_id x) := x]> st) y Hyin) as (v' & Hv' & Hin' & Hid').
    exists v'. rewrite <- Hy. split; [exact Hv'|]. split; [now right | exact Hid'].
  - destruct Hin as [->|Hin].
    + exists v. rewrite lookup_upsert_absent by exact Hlast.
      rewrite lookup_insert_eq. split; [reflexivity|]. split; [now left | reflexivity].
    + exfalso. apply Hlast, List.in_map_iff. now exists v.
Qed.

Lemma enumerate_from_fst {A} (l : list A) (i : nat) :
  List.map fst (enumerate_from i l) = List.seq i (List.length l).
Proof.
  revert i. induction l as [|x l IH]; intros i; simpl; [reflexivity|].
  now rewrite IH.
Qed.

(** Chunk ids are pairwise distinct. *)
Lemma new_vectors_NoDup (env : Env) (self : AlternativeAIService.t)
    (content : string) (d : Z) :
  NoDup (List.map v_id (new_vectors env self content d)).
Proof.
  unfold new_vectors. cbv zeta. rewrite List.map_map.
  set (l := enumerate_from 0 _).
  assert (Hl : NoDup (List.map fst l)).
  { unfold l. rewrite enumerate_from_fst. apply List.seq_NoDup. }
  clearbody l. induction l as [|[i x] l IH]; simpl in *; [constructor|].
  apply NoDup_cons_iff in Hl as [Hi Hl]. apply NoDup_cons_iff. split; [|now apply IH].
  intros Hin. apply Hi. apply List.in_map_iff in Hin as [[j y] [E Hj]].
  apply List.in_map_iff. exists (j, y). split; [|exact Hj].
  simpl in *. apply (String.app_inj "doc_") in E.
  apply (String.app_inj (Py.str_of_Z d)) in E.
  apply (String.app_inj "_chunk_") in E.
  now apply str_of_nat_inj.
Qed.

Lemma new_vectors_document (env : Env) (self : AlternativeAIService.t)
    (content : string) (d : Z) (v : vector) :
  In v (new_vectors env self content d) -> v_document_id v = Some d.
Proof.
  unfold new_vectors. cbv zeta. intros H.
  apply List.in_map_iff in H as [x [<- _]]. reflexivity.
Qed.

End Index.

Section Processing.

Lemma elem_of_namespaces (ns : string) (st : index_state) :
  ns ∈ Pinecone.namespaces st <-> exists id v, st !! (ns, id) = Some v.
Proof.
  unfold Pinecone.namespaces. rewrite elem_of_map. split.
  - intros [[ns' id] [-> Hk]]. apply elem_of_dom in Hk as [v Hv].
    now exists id, v.
  - intros (id & v & Hv). exists (ns, id). split; [reflexivity|].
    apply elem_of_dom. now exists v.
Qed.

(** What [process_document_content] leaves behind, case by case. *)
Lemma alt_process_run (env : Env) (self : AlternativeAIService.t)
    (content : string) (d : Z) (w : World) :
  let ns := AlternativeAIService._get_document_namespace d in
  let run := AlternativeAIService.process_document_content env self content d w in
  let st1 := after_delete env ns (pinecone w) in
  fs (fst run) = fs w /\ db (fst run) = db w
  /\ (pinecone (fst run), snd run)
     = if ready self then
         match fault env OpEmbed, fault env OpUpsert with
         | None, None =>
             (Pinecone.upsert_in (new_vectors env self content d) ns st1,
              Ok (Some true))
         | _, _ => (st1, Ok None)
         end
       else (pinecone w, Ok None).
Proof.
  cbv zeta.
  unfold AlternativeAIService.process_document_content, ready, after_delete,
    new_vectors, AlternativeAIService.embed, Pinecone.delete, Pinecone.upsert,
    try_catch, mbind, remote, get_world, set_pinecone, ret, raise.
  destruct (AlternativeAIService.index self); simpl; [|auto].
  destruct (bool_decide (is_Some (AlternativeAIService.embeddings self)));
    simpl; [|auto].
  destruct (fault env OpDelete), (fault env OpEmbed), (fault env OpUpsert);
    simpl; auto.
Qed.

Lemma hosted_process_run (env : Env) (self : AIService.t)
    (content : string) (d : Z) (w : World) :
  let ns := AIService._get_document_namespace d in
  let run := AIService.process_document_content env self content d w in
  let st1 := after_delete env ns (pinecone w) in
  (pinecone (fst run), snd run)
  = if AIService.index self then
      match fault env OpFromTexts with
      | None =>
          (Pinecone.upsert_in (hosted_new_vectors env self content) ns st1,
           Ok (Some {| Pinecone.vs_namespace := ns |}))
      | Some _ => (st1, Ok None)
      end
    else (pinecone w, Ok None).
Proof.
  cbv zeta.
  unfold AIService.process_document_content, after_delete, hosted_new_vectors,
    Pinecone.delete, Pinecone.from_texts,
    try_catch, mbind, remote, get_world, set_pinecone, ret, raise.
  destruct (AIService.index self); simpl; [|auto].
  destruct (fault env OpDelete), (fault env OpFromTexts); simpl; auto.
Qed.

Lemma after_delete_other (env : Env) (ns ns' id : string) (st : index_state) :
  ns' <> ns -> after_delete env ns st !! (ns', id) = st !! (ns', id).
Proof.
  intros Hne. unfold after_delete. destruct (fault env OpDelete); [reflexivity|].
  rewrite lookup_delete_all_in. now destruct (decide (ns' = ns)).
Qed.

Lemma after_delete_sub (env : Env) (ns : string) (st : index_state)
    (k : string * string) (v : vector) :
  after_delete env ns st !! k = Some v -> st !! k = Some v.
Proof.
  unfold after_delete. destruct (fault env OpDelete); [trivial|].
  destruct k as [ns' id]. rewrite lookup_delete_all_in.
  now destruct (decide (ns' = ns)).
Qed.

Lemma after_delete_cleared (env : Env) (ns id : string) (st : index_state) :
  fault env OpDelete = None \/ ns ∉ Pinecone.namespaces st ->
  after_delete env ns st !! (ns, id) = None.
Proof.
  unfold after_delete. intros [->|Hns].
  - rewrite lookup_delete_all_in. now destruct (decide (ns = ns)).
  - assert (st !! (ns, id) = None) as Hnone.
    { destruct (st !! (ns, id)) as [v|] eqn:E; [|reflexivity].
      exfalso. apply Hns, elem_of_namespaces. eauto. }
    destruct (fault env OpDelete); [exact Hnone|].
    rewrite lookup_delete_all_in. now destruct (decide (ns = ns)).
Qed.

End Processing.

Section Replacement.

Variables (env : Env) (ns : string) (st : index_state) (vs : list vector).

Lemma upsert_frame (ns' id : string) :
  ns' <> ns ->
  Pinecone.upsert_in vs ns (after_delete env ns st) !! (ns', id) = st !! (ns', id).
Proof.
  intros Hne. rewrite lookup_upsert_other by exact Hne.
  now apply after_delete_other.
Qed.

Lemma upsert_replaces (id : string) (v : vector) :
  fault env OpDelete = None \/ ns ∉ Pinecone.namespaces st ->
  Pinecone.upsert_in vs ns (after_delete env ns st) !! (ns, id) = Some v ->
  In v vs /\ v_id v = id.
Proof.
  intros Hdelete Hv. apply lookup_upsert_origin in Hv as [Hv|Hv]; [exact Hv|].
  rewrite after_delete_cleared in Hv by exact Hdelete. discriminate.
Qed.

Lemma after_delete_homed : homed st -> homed (after_delete env ns st).
Proof.
  intros Hhomed n i v d Hv Hd. apply after_delete_sub in Hv.
  exact (Hhomed _ _ _ _ Hv Hd).
Qed.

Lemma upsert_homed :
  (forall v d, In v vs -> v_document_id v = Some d ->
               ns = AlternativeAIService._get_document_namespace d) ->
  homed st -> homed (Pinecone.upsert_in vs ns (after_delete env ns st)).
Proof.
  intros Hvs Hhomed n i v d Hv Hd.
  destruct (decide (n = ns)) as [->|Hne].
  - apply lookup_upsert_origin in Hv as [[Hin _]|Hv].
    + exact (Hvs _ _ Hin Hd).
    + exact (after_delete_homed Hhomed _ _ _ _ Hv Hd).
  - rewrite lookup_upsert_other in Hv by exact Hne.
    exact (after_delete_homed Hhomed _ _ _ _ Hv Hd).
Qed.

End Replacement.

(** C3. Both backends name the namespace of document [d] ["doc_"]
    followed by the decimal digits of [d], so different documents have
    different namespaces.  In either backend [process_document_content]
    touches no other namespace and keeps every record in the namespace of
    the document it was made for.  It asks the index to empty the
    namespace before it upserts, and goes on when that call fails.  So
    when it succeeds after the delete call went through (or found no such
    namespace), the namespace holds the records just built and nothing
    else: old records are replaced, not added to.  But when it succeeds
    after the delete call failed, every old record whose id is not used
    again is still in the namespace, next to the new ones. *)
Theorem C3_document_namespace (env : Env) (self : AlternativeAIService.t)
    (hosted : AIService.t) (content : string) (document_id : Z) (w : World) :
  let ns := AlternativeAIService._get_document_namespace document_id in
  let run :=
    AlternativeAIService.process_document_content env self content document_id w in
  let hosted_run :=
    AIService.process_document_content env hosted content document_id w in
  let built := new_vectors env self content document_id in
  let hosted_built := hosted_new_vectors env hosted content in
  (ns = "doc_" ++ Py.str_of_Z document_id
   /\ AIService._get_document_namespace document_id = ns
   /\ forall other,
        AlternativeAIService._get_document_namespace other = ns ->
        other = document_id)
  /\ (forall ns' id,
        ns' <> ns ->
        pinecone (fst run) !! (ns', id) = pinecone w !! (ns', id)
        /\ pinecone (fst hosted_run) !! (ns', id) = pinecone w !! (ns', id))
  /\ (homed (pinecone w) ->
      homed (pinecone (fst run)) /\ homed (pinecone (fst hosted_run)))
  /\ (fault env OpDelete = None \/ ns ∉ Pinecone.namespaces (pinecone w) ->
      (snd run = Ok (Some true) ->
       forall id v,
         pinecone (fst run) !! (ns, id) = Some v
         <-> In v built /\ v_id v = id)
      /\ (snd hosted_run = Ok (Some {| Pinecone.vs_namespace := ns |}) ->
          (forall id v,
             pinecone (fst hosted_run) !! (ns, id) = Some v ->
             In v hosted_built /\ v_id v = id)
          /\ (forall v,
                In v hosted_built ->
                exists v',
                  pinecone (fst hosted_run) !! (ns, v_id v) = Some v'
                  /\ In v' hosted_built)))
  /\ (forall e,
        fault env OpDelete = Some e ->
        (snd run = Ok (Some true) ->
         forall id,
           ~ In id (List.map v_id built) ->
           pinecone (fst run) !! (ns, id) = pinecone w !! (ns, id))
        /\ (snd hosted_run = Ok (Some {| Pinecone.vs_namespace := ns |}) ->
            forall id,
              ~ In id (List.map v_id hosted_built) ->
              pinecone (fst hosted_run) !! (ns, id) = pinecone w !! (ns, id))).
Proof.
  intros ns run hosted_run built hosted_built.
  destruct (alt_process_run env self content document_id w) as (_ & _ & Hrun).
  pose proof (hosted_process_run env hosted content document_id w) as Hhosted.
  cbv zeta in Hhosted.
  change (AIService._get_document_namespace document_id) with ns in Hhosted.
  fold ns run built in Hrun. fold hosted_run hosted_built in Hhosted.
  pose proof (f_equal snd Hrun) as Hs. cbn [snd] in Hs.
  pose proof (f_equal fst Hrun) as Hp. cbn [fst] in Hp.
  pose proof (f_equal snd Hhosted) as Hhs. cbn [snd] in Hhs.
  pose proof (f_equal fst Hhosted) as Hhp. cbn [fst] in Hhp.
  clear Hrun Hhosted.
  split; [|split; [|split; [|split]]].
  - split; [reflexivity|]. split; [reflexivity|].
    intros other H. now apply namespace_inj.
  - intros ns' id Hne. split.
    + rewrite Hp. destruct (ready self); [|reflexivity].
      destruct (fault env OpEmbed), (fault env OpUpsert); cbn [fst];
        first [now apply upsert_frame | now apply after_delete_other].
    + rewrite Hhp. destruct (AIService.index hosted); [|reflexivity].
      destruct (fault env OpFromTexts); cbn [fst];
        first [now apply upsert_frame | now apply after_delete_other].
  - intros Hhomed. split.
    + rewrite Hp. destruct (ready self); [|exact Hhomed].
      destruct (fault env OpEmbed), (fault env OpUpsert); cbn [fst];
        try (now apply after_delete_homed).
      apply upsert_homed; [|exact Hhomed].
      intros v d Hin Hd. apply new_vectors_document in Hin.
      rewrite Hin in Hd. injection Hd as ->. reflexivity.
    + rewrite Hhp. destruct (AIService.index hosted); [|exact Hhomed].
      destruct (fault env OpFromTexts); cbn [fst];
        try (now apply after_delete_homed).
      apply upsert_homed; [|exact Hhomed].
      intros v d Hin Hd. unfold hosted_built, hosted_new_vectors,
        Pinecone.text_vectors in Hin.
      apply List.in_map_iff in Hin as [x [<- _]]. discriminate Hd.
  - intros Hdelete. split.
    + intros Hok id v. rewrite Hs in Hok. rewrite Hp.
      destruct (ready self); [|discriminate].
      destruct (fault env OpEmbed), (fault env OpUpsert); try discriminate.
      cbn [fst]. split.
      * now apply upsert_replaces.
      * intros [Hin <-]. apply lookup_upsert_present; [|exact Hin].
        apply new_vectors_NoDup.
    + intros Hok. rewrite Hhs in Hok. rewrite Hhp.
      destruct (AIService.index hosted); [|discriminate].
      destruct (fault env OpFromTexts); [discriminate|].
      cbn [fst]. split.
      * intros id v. now apply upsert_replaces.
      * intros v Hin.
        destruct (lookup_upsert_some hosted_built ns
                    (after_delete env ns (pinecone w)) v Hin)
          as (v' & Hv' & Hin' & _).
        now exists v'.
  - intros e He. split.
    + intros Hok id Hid. rewrite Hs in Hok. rewrite Hp.
      destruct (ready self); [|discriminate].
      destruct (fault env OpEmbed), (fault env OpUpsert); try discriminate.
      cbn [fst]. rewrite lookup_upsert_absent by exact Hid.
      unfold after_delete. now rewrite He.
    + intros Hok id Hid. rewrite Hhs in Hok. rewrite Hhp.
      destruct (AIService.index hosted); [|discriminate].
      destruct (fault env OpFromTexts); [discriminate|].
      cbn [fst]. rewrite lookup_upsert_absent by exact Hid.
      unfold after_delete. now rewrite He.
Qed.

(** C3, at a second processing of document 1, whose namespace holds two
    chunks of an earlier version: in the local backend the new single
    chunk takes their place, in the hosted backend the one new record
    does, and the chunk of document 2 stays. *)
Lemma C3_document_namespace_witness :
  pinecone
    (fst (AlternativeAIService.process_document_content sample_env
            (AlternativeAIService.__init__ sample_env) "new text" 1 stale_world))
    !! ("doc_1", "doc_1_chunk_0")
  = Some {| v_id := "doc_1_chunk_0"; v_values := [0%Z]; v_text := "new text";
            v_document_id := Some 1%Z |}
  /\ pinecone
       (fst (AlternativeAIService.process_document_content sample_env
               (AlternativeAIService.__init__ sample_env) "new text" 1 stale_world))
       !! ("doc_1", "doc_1_chunk_1")
     = None
  /\ pinecone
       (fst (AlternativeAIService.process_document_content sample_env
               (AlternativeAIService.__init__ sample_env) "new text" 1 stale_world))
       !! ("doc_2", "doc_2_chunk_0")
     = stale_index !! ("doc_2", "doc_2_chunk_0")
  /\ pinecone
       (fst (AIService.process_document_content sample_env
               (AIService.__init__ sample_env) "new text" 1 stale_world))
       !! ("doc_1", "doc_1_chunk_1")
     = None
  /\ (exists v',
        pinecone
          (fst (AIService.process_document_content sample_env
                  (AIService.__init__ sample_env) "new text" 1 stale_world))
          !! ("doc_1", "0")
        = Some v' /\ v_text v' = "new text").
Proof.
  pose proof (C3_document_namespace sample_env
                (AlternativeAIService.__init__ sample_env)
                (AIService.__init__ sample_env) "new text" 1 stale_world)
    as (_ & Hframe & _ & Hreplaced & _).
  assert (Hok : snd (AlternativeAIService.process_document_content sample_env
                       (AlternativeAIService.__init__ sample_env) "new text" 1
                       stale_world) = Ok (Some true)) by (vm_compute; reflexivity).
  assert (Hhok : snd (AIService.process_document_content sample_env
                        (AIService.__init__ sample_env) "new text" 1 stale_world)
                 = Ok (Some {| Pinecone.vs_namespace := "doc_1" |}))
    by (vm_compute; reflexivity).
  destruct (Hreplaced (or_introl eq_refl)) as [Hlocal Hhosted].
  specialize (Hlocal Hok). destruct (Hhosted Hhok) as [Honly Hall].
  clear Hreplaced Hhosted.
  split; [|split; [|split; [|split]]].
  - apply Hlocal. split; [|reflexivity]. vm_compute. left. reflexivity.
  - match goal with |- ?l = None => destruct l as [v|] eqn:E end; [|reflexivity].
    apply Hlocal in E as [Hin Hid]. vm_compute in Hin.
    destruct Hin as [<-|[]]. discriminate Hid.
  - apply Hframe. intros H. vm_compute in H. discriminate H.
  - match goal with |- ?l = None => destruct l as [v|] eqn:E end; [|reflexivity].
    apply Honly in E as [Hin Hid]. vm_compute in Hin.
    destruct Hin as [<-|[]]. discriminate Hid.
  - destruct (Hall {| v_id := "0"; v_values := [0%Z]; v_text := "new text";
                      v_document_id := None |}) as (v' & Hv' & Hin').
    { vm_compute. left. reflexivity. }
    exists v'. split; [exact Hv'|].
    vm_compute in Hin'. destruct Hin' as [<-|[]]. reflexivity.
Defined.

(** C3 as first stated fails when the delete call fails: processing
    document 1 again still reports success, and the second chunk of the
    earlier version, which the new version does not have, is still in
    the namespace. *)
Lemma C3_document_namespace_counterexample :
  fault delete_fails_env OpDelete = Some (Exception "deadline exceeded")
  /\ snd (AlternativeAIService.process_document_content delete_fails_env
            (AlternativeAIService.__init__ delete_fails_env) "new text" 1
            stale_world)
     = Ok (Some true)
  /\ List.map v_text
       (new_vectors delete_fails_env
          (AlternativeAIService.__init__ delete_fails_env) "new text" 1)
     = ["new text"]
  /\ pinecone
       (fst (AlternativeAIService.process_document_content delete_fails_env
               (AlternativeAIService.__init__ delete_fails_env) "new text" 1
               stale_world))
       !! ("doc_1", "doc_1_chunk_1")
     = Some {| v_id := "doc_1_chunk_1"; v_values := [2%Z]; v_text := "old second";
               v_document_id := Some 1%Z |}.
Proof. repeat split; vm_compute; reflexivity. Qed.

(** ** Which backend serves, and what it does with the prior turns *)

(** C1. The backend that serves the chat endpoints does not read the prior
    turns: whatever [chat_history] it is given, [chat_with_document] does
    the same language-model call and returns the same answer, for every
    behaviour of the model, the index and the network.  The other backend
    does load them into the memory of its chain. *)
Theorem C1_history_is_ignored (env : Env) (document_id : Z) (question : string)
    (h1 h2 : option (list (string * string))) (w : World) :
  Backend.chat_with_document env (ChatApi.ai_service env) document_id question h1 w
  = Backend.chat_with_document env (ChatApi.ai_service env) document_id question h2 w
  /\ AIService.chain_memory
       (AIService.create_conversation_chain
          {| Pinecone.vs_namespace := "doc_1" |} [("Which tea?", "Green tea.")])
     = [HumanMessage "Which tea?"; AIMessage "Green tea."].
Proof. split; reflexivity. Qed.

(** C1, at a processed document: with and without a prior turn the served
    answer is the same, built from the retrieved chunk and the question
    alone. *)
Example C1_history_is_ignored_example :
  Backend.chat_with_document sample_env (ChatApi.ai_service sample_env) 1
    "Which tea?" (Some []) processed_world
  = (processed_world, Ok "Based on the document context: Tea is a drink.")
  /\ Backend.chat_with_document sample_env (ChatApi.ai_service sample_env) 1
       "Which tea?" (Some [("Do you like green tea?", "Yes, green tea.")])
       processed_world
     = (processed_world, Ok "Based on the document context: Tea is a drink.").
Proof. split; vm_compute; reflexivity. Qed.

(** C2 (as amended).  The backend is not chosen by availability: the
    upload endpoint and the chat endpoint are always served by the local
    backend, whose splitter works with chunks of 1000 characters
    overlapping by 200.  Availability decides only, inside that backend,
    whether embeddings are on and whether the language model is Ollama or
    the rule-based one. *)
Theorem C2_serving_backend (env : Env) :
  DocumentsApi.ai_service env = Local (AlternativeAIService.__init__ env)
  /\ ChatApi.ai_service env = Local (AlternativeAIService.__init__ env)
  /\ Backend.is_hosted (DocumentsApi.ai_service env) = false
  /\ Backend.is_hosted (ChatApi.ai_service env) = false
  /\ (forall content document_id w,
        Backend.process_document_content env (DocumentsApi.ai_service env)
          content document_id w
        = mbind
            (AlternativeAIService.process_document_content env
               (AlternativeAIService.__init__ env) content document_id)
            (fun _ => ret tt) w)
  /\ AlternativeAIService.chunk_size (AlternativeAIService.__init__ env) = 1000
  /\ AlternativeAIService.chunk_overlap (AlternativeAIService.__init__ env) = 200
  /\ AlternativeAIService.embeddings (AlternativeAIService.__init__ env)
     = (if SENTENCE_TRANSFORMERS_AVAILABLE env then
          match load_sentence_transformer env with
          | Ok _ => Some "all-MiniLM-L6-v2"
          | Raise _ => None
          end
        else None)
  /\ AlternativeAIService.llm (AlternativeAIService.__init__ env)
     = AlternativeAIService.init_llm env.
Proof. repeat split. Qed.

(** C2 as first stated fails where the hosted API is available: the local
    backend serves all the same. *)
Lemma C2_serving_backend_counterexample :
  hosted_api_available sample_env = true
  /\ Backend.is_hosted (DocumentsApi.ai_service sample_env) = false
  /\ Backend.is_hosted (ChatApi.ai_service sample_env) = false.
Proof. repeat split. Qed.

(* ===================================================================== *)
(** * Further properties of the code *)
(* ===================================================================== *)

(** ** Answering reads, and writes nothing *)

Section ReadOnly.

Lemma alt_chat_total (env : Env) (self : AlternativeAIService.t) (d : Z)
    (q : string) (h : option (list (string * string))) (w : World) :
  exists r, AlternativeAIService.chat_with_document env self d q h w = (w, Ok r).
Proof.
  unfold AlternativeAIService.chat_with_document,
    AlternativeAIService.chat_with_document_try, try_catch, mbind at 1.
  destruct (alt_load_vectorstore_world env self d w) as [o ->].
  destruct o as [vs|]; [|unfold ret; eauto].
  unfold Pinecone.search, mbind, remote, get_world, ret, raise, lift.
  destruct (fault env OpSearch); [eauto|].
  destruct (similarity_search env (pinecone w) (Pinecone.vs_namespace vs) q 3);
    [eauto|].
  destruct (llm_call env (AlternativeAIService.llm self) _); eauto.
Qed.

Lemma hosted_chat_total (env : Env) (self : AIService.t) (d : Z)
    (q : string) (h : option (list (string * string))) (w : World) :
  exists r, AIService.chat_with_document env self d q h w = (w, Ok r).
Proof.
  unfold AIService.chat_with_document,
    AIService.chat_with_document_try, try_catch, mbind at 1.
  destruct (hosted_load_vectorstore_world env self d w) as [o ->].
  destruct o as [vs|]; [|unfold ret; eauto].
  unfold AIService.run_chain, mbind, get_world, ret, lift.
  destruct (qa_chain env _ (pinecone w) _ q) as [dict|e]; [|eauto].
  destruct (dict_get dict "answer"); eauto.
Qed.

Lemma backend_chat_total (env : Env) (b : Backend) (d : Z)
    (q : string) (h : option (list (string * string))) (w : World) :
  exists r, Backend.chat_with_document env b d q h w = (w, Ok r).
Proof.
  destruct b; [apply hosted_chat_total | apply alt_chat_total].
Qed.

Lemma backend_summarize_total (env : Env) (b : Backend) (content : string)
    (w : World) :
  exists r, Backend.summarize_document env b content w = (w, Ok r).
Proof.
  destruct b as [self|self]; simpl.
  - unfold AIService.summarize_document, AIService.summarize_document_try,
      try_catch, mbind, lift, ret.
    destruct (completion_create env _) as [choices|e]; [|eauto].
    destruct (index_list choices 0); eauto.
  - unfold AlternativeAIService.summarize_document,
      AlternativeAIService.summarize_document_try, try_catch, mbind, lift, ret.
    destruct (llm_call env _ _); eauto.
Qed.

End ReadOnly.

(** X1. Whatever backend is bound and however the index, the model and
    the network behave, answering a question and summarising a document
    return a string and leave the upload directory, the database and the
    index exactly as they were. *)
Theorem X1_answering_changes_nothing (env : Env) (b : Backend) (document_id : Z)
    (question content : string) (chat_history : option (list (string * string)))
    (w : World) :
  (exists answer,
     Backend.chat_with_document env b document_id question chat_history w
     = (w, Ok answer))
  /\ (exists summary,
        Backend.summarize_document env b content w = (w, Ok summary)).
Proof.
  split; [apply backend_chat_total | apply backend_summarize_total].
Qed.

(** ** The JSON chat endpoints *)

(** X2. [POST /message] never answers: for an unknown session (or one of
    another user) it raises HTTP 404, and for a known one it asks the
    backend and then fails with [AttributeError] when it tries to store
    the exchange, because [create_chat_message] is handed a plain [dict].
    In both cases nothing is written. *)
Theorem X2_send_chat_message_always_raises (env : Env) (chat_request : ChatRequest)
    (user_id : Z) (w : World) :
  ChatApi.send_chat_message env chat_request user_id w
  = (w,
     Raise
       match Crud.get_chat_session (db w) (cr_session_id chat_request) user_id with
       | None => HTTPException 404 "Chat session not found"
       | Some _ => AttributeError "'dict' object has no attribute 'dict'"
       end).
Proof.
  unfold ChatApi.send_chat_message, ChatApi.send_chat_message_via,
    mbind at 1, get_world.
  destruct (Crud.get_chat_session _ _ _) as [cs|]; [|reflexivity].
  unfold mbind at 1.
  destruct (backend_chat_total env (ChatApi.ai_service env) (cs_document_id cs)
              (cr_message chat_request)
              (Some (ChatApi.chat_history_of
                       (Crud.get_session_messages (db w)
                          (cr_session_id chat_request)))) w) as [r ->].
  reflexivity.
Qed.

(** X3. [POST /start] never answers either: it raises HTTP 400 when the
    document id is 0, HTTP 404 when the user has no such document, and
    otherwise fails with [AttributeError] in [create_chat_session], which
    is handed a plain [dict], before the backend is asked.  Nothing is
    written: no session and no message is created. *)
Theorem X3_start_new_chat_always_raises (env : Env) (chat_request : ChatRequest)
    (user_id : Z) (w : World) :
  ChatApi.start_new_chat env chat_request user_id w
  = (w,
     Raise
       (if (cr_session_id chat_request =? 0)%Z then
          HTTPException 400 "Document ID required"
        else
          match Crud.get_document (db w) (cr_session_id chat_request) user_id with
          | None => HTTPException 404 "Document not found"
          | Some _ => AttributeError "'dict' object has no attribute 'dict'"
          end)).
Proof.
  unfold ChatApi.start_new_chat.
  destruct (cr_session_id chat_request =? 0)%Z; [reflexivity|].
  unfold mbind at 1, get_world.
  destruct (Crud.get_document _ _ _); reflexivity.
Qed.

(** ** The web chat handler *)

Section WebChat.

Lemma create_chat_message_schema (env : Env) (fields : ChatMessageCreate) (w : World) :
  Crud.create_chat_message env (Schema fields) w
  = ({| fs := fs w;
        db := {| documents := documents (db w);
                 chat_sessions := chat_sessions (db w);
                 chat_messages :=
                   (chat_messages (db w) ++ [message_row env (db w) fields])%list |};
        pinecone := pinecone w |},
     Ok (message_row env (db w) fields)).
Proof. reflexivity. Qed.

Lemma set_last_fst {A B} (l : list (A * B)) (d : A * B) (y : B) :
  List.map fst (set_last l (fst (List.last l d), y)) = List.map fst l.
Proof.
  induction l as [|a l IH]; [reflexivity|].
  destruct l as [|b l]; [reflexivity|].
  change (set_last (a :: b :: l) (fst (List.last (a :: b :: l) d), y))
    with (a :: set_last (b :: l) (fst (List.last (b :: l) d), y)).
  rewrite (List.map_cons fst a), IH. reflexivity.
Qed.

Lemma pair_history_fst (history : list ChatMessage) :
  forall acc,
    List.map fst (WebApi.pair_history history acc)
    = (List.map fst acc
       ++ List.map msg_content (List.filter msg_is_user history))%list.
Proof.
  induction history as [|msg rest IH]; intros acc; simpl.
  - now rewrite List.app_nil_r.
  - destruct (msg_is_user msg).
    + rewrite IH, List.map_app, <- List.app_assoc. reflexivity.
    + destruct acc as [|a acc]; [apply IH|].
      rewrite IH, set_last_fst. reflexivity.
Qed.

Lemma set_last_snoc {A} (l : list A) (x y : A) : set_last (l ++ [x]) y = (l ++ [y])%list.
Proof.
  induction l as [|a l IH]; [reflexivity|].
  simpl. rewrite IH. destruct l; reflexivity.
Qed.

Lemma pair_history_exchanges (l : list (ChatMessage * ChatMessage)) :
  Forall (fun x => msg_is_user (fst x) = true /\ msg_is_user (snd x) = false) l ->
  forall acc,
    WebApi.pair_history (List.concat (List.map exchange_rows l)) acc
    = (acc ++ List.map (fun x => (msg_content (fst x), msg_content (snd x))) l)%list.
Proof.
  induction 1 as [|[u a] l [Hu Ha] _ IH]; intros acc; simpl.
  - now rewrite List.app_nil_r.
  - simpl in Hu, Ha. rewrite Hu, Ha.
    destruct (acc ++ [(msg_content u, "")])%list as [|p r] eqn:E.
    { now destruct acc. }
    rewrite <- E, IH, List.last_last, set_last_snoc, <- List.app_assoc.
    reflexivity.
Qed.

End WebChat.

(** X4. On [POST /chat/{id}/send] for a session the user owns, the handler
    asks the backend and redirects to the chat page; it appends to the
    message table exactly two rows for this session, first the user's
    message and then the backend's answer, and leaves the files, the
    index, the documents and every earlier message as they were. *)
Theorem X4_web_send_message_stores_exchange (env : Env) (str_exn : exn -> string)
    (session_id : Z) (message : string) (user_id : Z) (w : World)
    (session : ChatSession) :
  Crud.get_chat_session (db w) session_id user_id = Some session ->
  exists answer question_row answer_row,
    Backend.chat_with_document env (WebApi.ai_service env)
      (cs_document_id session) message
      (Some (WebApi.pair_history (Crud.get_session_messages (db w) session_id) []))
      w = (w, Ok answer)
    /\ snd (WebApi.send_message env str_exn session_id message user_id w)
       = Ok (RedirectResponse ("/chat/" ++ Py.str_of_Z session_id) 302)
    /\ chat_messages (db (fst (WebApi.send_message env str_exn session_id
                                 message user_id w)))
       = (chat_messages (db w) ++ [question_row; answer_row])%list
    /\ (msg_content question_row = message
        /\ msg_is_user question_row = true
        /\ msg_session_id question_row = Some session_id)
    /\ (msg_content answer_row = answer
        /\ msg_is_user answer_row = false
        /\ msg_session_id answer_row = Some session_id)
    /\ fs (fst (WebApi.send_message env str_exn session_id message user_id w))
       = fs w
    /\ pinecone (fst (WebApi.send_message env str_exn session_id message user_id w))
       = pinecone w
    /\ documents (db (fst (WebApi.send_message env str_exn session_id message
                             user_id w)))
       = documents (db w).
Proof.
  intros Hfound.
  destruct (backend_chat_total env (WebApi.ai_service env)
              (cs_document_id session) message
              (Some (WebApi.pair_history
                       (Crud.get_session_messages (db w) session_id) [])) w)
    as [answer Hanswer].
  assert (Hrun : exists q a,
      WebApi.send_message env str_exn session_id message user_id w
      = ({| fs := fs w;
            db := {| documents := documents (db w);
                     chat_sessions :=
                       List.map
                         (fun s =>
                            if (cs_id s =? session_id)%Z then
                              {| cs_id := cs_id s; cs_title := cs_title s;
                                 cs_created_at := cs_created_at s;
                                 cs_updated_at := now env;
                                 cs_user_id := cs_user_id s;
                                 cs_document_id := cs_document_id s |}
                            else s)
                         (chat_sessions (db w));
                     chat_messages := (chat_messages (db w) ++ [q; a])%list |};
            pinecone := pinecone w |},
         Ok (RedirectResponse ("/chat/" ++ Py.str_of_Z session_id) 302))
      /\ (msg_content q = message /\ msg_is_user q = true
          /\ msg_session_id q = Some session_id)
      /\ (msg_content a = answer /\ msg_is_user a = false
          /\ msg_session_id a = Some session_id)).
  { eexists _, _. split.
    - unfold WebApi.send_message, mbind at 1, get_world. rewrite Hfound.
      unfold try_catch, mbind at 1, get_world.
      unfold mbind at 1. rewrite Hanswer.
      unfold mbind at 1. rewrite create_chat_message_schema.
      unfold mbind at 1. rewrite create_chat_message_schema.
      cbn [db chat_messages documents chat_sessions fs pinecone].
      rewrite <- List.app_assoc. reflexivity.
    - repeat split. }
  destruct Hrun as (q & a & Hrun & Hq & Ha).
  exists answer, q, a. rewrite Hrun. cbn [fst snd db chat_messages fs pinecone documents].
  repeat split; try assumption; try apply Hq; try apply Ha.
Qed.

(** X4, at the sample session. *)
Lemma X4_web_send_message_stores_exchange_witness :
  exists answer question_row answer_row,
    Backend.chat_with_document sample_env (WebApi.ai_service sample_env) 5
      "Is it green?"
      (Some (WebApi.pair_history
               (Crud.get_session_messages (db sample_chat_world) 3) []))
      sample_chat_world = (sample_chat_world, Ok answer)
    /\ snd (WebApi.send_message sample_env sample_str_exn 3 "Is it green?" 7
              sample_chat_world)
       = Ok (RedirectResponse "/chat/3" 302)
    /\ chat_messages (db (fst (WebApi.send_message sample_env sample_str_exn 3
                                 "Is it green?" 7 sample_chat_world)))
       = (sample_messages ++ [question_row; answer_row])%list
    /\ (msg_content question_row = "Is it green?"
        /\ msg_is_user question_row = true
        /\ msg_session_id question_row = Some 3%Z)
    /\ (msg_content answer_row = answer
        /\ msg_is_user answer_row = false
        /\ msg_session_id answer_row = Some 3%Z)
    /\ fs (fst (WebApi.send_message sample_env sample_str_exn 3 "Is it green?" 7
                  sample_chat_world)) = ∅
    /\ pinecone (fst (WebApi.send_message sample_env sample_str_exn 3
                        "Is it green?" 7 sample_chat_world)) = ∅
    /\ documents (db (fst (WebApi.send_message sample_env sample_str_exn 3
                             "Is it green?" 7 sample_chat_world))) = [].
Proof.
  exact (X4_web_send_message_stores_exchange sample_env sample_str_exn 3
           "Is it green?" 7 sample_chat_world sample_session eq_refl).
Defined.

(** X5. The history the web handler builds has one pair per user message,
    in the order of the messages, with that message's text as first
    component: no question is lost or reordered, and answers never add a
    pair (an answer that no question precedes is dropped). *)
Theorem X5_pair_history_questions (history : list ChatMessage) :
  List.map fst (WebApi.pair_history history [])
  = List.map msg_content (List.filter msg_is_user history)
  /\ List.length (WebApi.pair_history history [])
     = List.length (List.filter msg_is_user history).
Proof.
  pose proof (pair_history_fst history []) as H. simpl in H.
  split; [exact H|].
  apply (f_equal (@List.length string)) in H.
  now rewrite !List.length_map in H.
Qed.

(** X6. When the stored messages are complete exchanges, each a user
    message followed by its answer, the web handler's history is exactly
    the list of (question, answer) pairs. *)
Theorem X6_pair_history_exchanges (exchanges : list (ChatMessage * ChatMessage)) :
  Forall (fun x => msg_is_user (fst x) = true /\ msg_is_user (snd x) = false)
         exchanges ->
  WebApi.pair_history (List.concat (List.map exchange_rows exchanges)) []
  = List.map (fun x => (msg_content (fst x), msg_content (snd x))) exchanges.
Proof.
  intros H. now rewrite (pair_history_exchanges exchanges H []).
Qed.

(** X6, at the first exchange of the sample session. *)
Lemma X6_pair_history_exchanges_witness :
  WebApi.pair_history
    (List.concat (List.map exchange_rows [sample_exchange; sample_exchange])) []
  = [("What is it about?", "It is about tea.");
     ("What is it about?", "It is about tea.")].
Proof.
  apply (X6_pair_history_exchanges [sample_exchange; sample_exchange]).
  repeat constructor.
Defined.

(** X7. Fed with the history that [send_chat_message] builds, the hosted
    backend's chain memory replays the stored messages in order, a user
    message as a human turn and an answer as an AI turn, leaving out the
    messages whose text is empty. *)
Theorem X7_memory_replays_history (vectorstore : Pinecone.VectorStore)
    (history : list ChatMessage) :
  AIService.chain_memory
    (AIService.create_conversation_chain vectorstore
       (ChatApi.chat_history_of history))
  = List.map turn_of
      (List.filter (fun m => Py.truthy (msg_content m)) history).
Proof.
  unfold AIService.create_conversation_chain. cbn [AIService.chain_memory].
  induction history as [|m rest IH]; [reflexivity|].
  cbn [ChatApi.chat_history_of List.map List.filter].
  fold (ChatApi.chat_history_of rest).
  assert (Hturn : turn_of m
                  = if msg_is_user m then HumanMessage (msg_content m)
                    else AIMessage (msg_content m)) by reflexivity.
  destruct (msg_is_user m); cbn [AIService.load_memory];
    destruct (msg_content m) as [|c t];
    cbn [Py.truthy Py.nonempty app List.map]; rewrite IH, ?Hturn; reflexivity.
Qed.

(** ** Text extraction and stored files *)

Section Stripping.






End Stripping.

Section Extraction.


End Extraction.



Section Storing.

(** What [process_uploaded_file] does, case by case. *)
Lemma process_uploaded_file_run (env : Env) (content : list Byte.byte)
    (f : string) (w : World) :
  let unique := uuid4 env ++ Pathlib.suffix f in
  let path := Config.UPLOAD_DIR ++ "/" ++ unique in
  FileProcessor.process_uploaded_file env content f w
  = if FileProcessor.is_allowed_file f then
      match write_fault env with
      | Some _ => (w, Ok (None, None, None))
      | None =>
          (with_file w path content,
           Ok (Some path, Some unique,
               match snd (FileProcessor.extract_text env path
                            (Py.lower (Pathlib.suffix f))
                            (with_file w path content)) with
               | Ok t => t
               | Raise _ => None
               end))
      end
    else (w, Ok (None, None, None)).
Proof.
  cbv zeta. unfold FileProcessor.process_uploaded_file, try_catch.
  destruct (FileProcessor.is_allowed_file f); [|reflexivity].
  change (negb true) with false. cbv beta iota.
  unfold mbind at 1.
  unfold FileProcessor.generate_unique_filename.
  rewrite save_file_unique.
  destruct (write_fault env); [reflexivity|].
  destruct (extract_text_world env
              (Config.UPLOAD_DIR ++ "/" ++ uuid4 env ++ Pathlib.suffix f)
              (Py.lower (Pathlib.suffix f))
              (with_file w (Config.UPLOAD_DIR ++ "/" ++ uuid4 env ++ Pathlib.suffix f)
                 content)) as [t Et].
  rewrite Et. unfold mbind, ret. rewrite Et. reflexivity.
Qed.

End Storing.

(** X9. [process_uploaded_file] never raises.  When it returns a path, the
    file name was allowed, the path is the upload directory followed by
    the generated name (the UUID followed by the original suffix), the
    file at that path holds exactly the uploaded bytes and no other file
    was touched; when it returns no path, it returns [(None, None, None)]
    and nothing was written.  The database and the index are never
    touched. *)
Theorem X9_process_uploaded_file_stores_bytes (env : Env)
    (content : list Byte.byte) (original_filename : string) (w : World) :
  exists w' file_path unique_filename text,
    FileProcessor.process_uploaded_file env content original_filename w
    = (w', Ok (file_path, unique_filename, text))
    /\ db w' = db w /\ pinecone w' = pinecone w
    /\ (file_path = None -> unique_filename = None /\ text = None /\ w' = w)
    /\ (forall p,
          file_path = Some p ->
          FileProcessor.is_allowed_file original_filename = true
          /\ unique_filename = Some (uuid4 env ++ Pathlib.suffix original_filename)
          /\ p = "uploads/" ++ uuid4 env ++ Pathlib.suffix original_filename
          /\ fs w' !! p = Some content
          /\ forall q, q <> p -> fs w' !! q = fs w !! q).
Proof.
  pose proof (process_uploaded_file_run env content original_filename w) as H.
  cbv zeta in H.
  destruct (FileProcessor.is_allowed_file original_filename).
  - destruct (write_fault env).
    + exists w, None, None, None. rewrite H. repeat split; discriminate.
    + eexists _, _, _, _. split; [exact H|].
      split; [reflexivity|]. split; [reflexivity|].
      split; [discriminate|]. intros p [= <-].
      repeat split.
      * apply lookup_insert_eq.
      * intros q Hq. apply lookup_insert_ne. congruence.
  - exists w, None, None, None. rewrite H. repeat split; discriminate.
Qed.

(** X9, at a small text file. *)
Lemma X9_process_uploaded_file_stores_bytes_witness :
  exists w',
    FileProcessor.process_uploaded_file sample_env (list_byte_of_string " tea ")
      "Notes.TXT" empty_world
    = (w', Ok (Some "uploads/0f8fad5b-d9cb-469f-a165-70867728950e.TXT",
               Some "0f8fad5b-d9cb-469f-a165-70867728950e.TXT",
               Some "tea"))
    /\ fs w' !! "uploads/0f8fad5b-d9cb-469f-a165-70867728950e.TXT"
       = Some (list_byte_of_string " tea ").
Proof.
  destruct (X9_process_uploaded_file_stores_bytes sample_env
              (list_byte_of_string " tea ") "Notes.TXT" empty_world)
    as (w' & p & u & t & E & _ & _ & _ & Hsome).
  assert (Hc : exists w0,
             FileProcessor.process_uploaded_file sample_env
               (list_byte_of_string " tea ") "Notes.TXT" empty_world
             = (w0, Ok (Some "uploads/0f8fad5b-d9cb-469f-a165-70867728950e.TXT",
                        Some "0f8fad5b-d9cb-469f-a165-70867728950e.TXT",
                        Some "tea")))
    by (eexists; vm_compute; reflexivity).
  destruct Hc as [w0 Hc]. rewrite Hc in E. injection E as -> <- <- <-.
  exists w'. split; [exact Hc|]. now apply Hsome.
Defined.


(** X10. The generated file name keeps the extension of the original
    name: when the UUID is not empty and holds neither a dot nor a slash,
    the suffix of the generated name is the suffix of the original name,
    so the generated name is allowed exactly when the original is. *)
Theorem X10_unique_filename_keeps_suffix (env : Env) (original_filename : string) :
  uuid4 env <> "" ->
  has_char "." (uuid4 env) = false ->
  has_char "/" (uuid4 env) = false ->
  Pathlib.suffix (FileProcessor.generate_unique_filename env original_filename)
  = Pathlib.suffix original_filename
  /\ FileProcessor.is_allowed_file
       (FileProcessor.generate_unique_filename env original_filename)
     = FileProcessor.is_allowed_file original_filename.
Proof.
  intros Hne Hdot Hslash.
  assert (Hs : Pathlib.suffix
                 (FileProcessor.generate_unique_filename env original_filename)
               = Pathlib.suffix original_filename).
  { unfold FileProcessor.generate_unique_filename. cbv zeta.
    remember (uuid4 env) as u eqn:Eu. clear Eu.
    assert (Hfirst : forall x, u ++ x <> ".").
    { intros x. destruct u as [|c u]; [congruence|].
      cbn [has_char] in Hdot. apply orb_false_iff in Hdot as [Hc _].
      intros [= -> _]. now rewrite Ascii.eqb_refl in Hc. }
    assert (Hnonempty : forall x, u ++ x <> "").
    { intros x. destruct u; [congruence | discriminate]. }
    destruct (suffix_shape original_filename)
      as [->|(rest & -> & Hrest & Hrdot & Hrslash)].
    - unfold Pathlib.suffix. cbv zeta.
      specialize (Hfirst ""). specialize (Hnonempty "").
      rewrite append_empty_r in *. rewrite (name_whole u Hslash Hnonempty Hfirst).
      now rewrite (rfind_None "." u Hdot).
    - unfold Pathlib.suffix at 1. cbv zeta.
      rewrite name_whole; [| |apply Hnonempty|apply Hfirst].
      + rewrite (rfind_app "." u rest Hrdot).
        assert (Hlen : Nat.ltb 0 (String.length u)
                       && Nat.ltb (S (String.length u)) (String.length (u ++ String "." rest))
                       = true).
        { apply andb_true_iff. split; apply Nat.ltb_lt.
          - destruct u; [congruence | simpl; lia].
          - rewrite length_append. destruct rest; [congruence|].
            simpl. lia. }
        rewrite Hlen. apply slice_from_app.
      + rewrite has_char_app, Hslash. cbn [has_char orb].
        rewrite Hrslash. reflexivity. }
  split; [exact Hs|].
  unfold FileProcessor.is_allowed_file. now rewrite Hs.
Qed.

(** X10, at an upper-case PDF name. *)
Lemma X10_unique_filename_keeps_suffix_witness :
  Pathlib.suffix (FileProcessor.generate_unique_filename sample_env "Report.v2.PDF")
  = Pathlib.suffix "Report.v2.PDF"
  /\ FileProcessor.is_allowed_file
       (FileProcessor.generate_unique_filename sample_env "Report.v2.PDF")
     = FileProcessor.is_allowed_file "Report.v2.PDF".
Proof.
  apply (X10_unique_filename_keeps_suffix sample_env "Report.v2.PDF").
  - discriminate.
  - reflexivity.
  - reflexivity.
Defined.

(** X11. For a file name that names an entry of the upload directory
    (not empty, neither ["."] nor [".."], without slash or NUL), when
    that name is free and the write succeeds, saving a file and deleting
    it again gives back the upload directory as it was: [save_file]
    returns the directory joined to the name by a slash, the file is
    there with the saved bytes, [delete_file] removes it and returns
    [True], and a second [delete_file] finds nothing and returns
    [False]. *)
Theorem X11_save_then_delete (env : Env) (content : list Byte.byte)
    (filename : string) (w : World) :
  plain_name filename = true ->
  write_fault env = None ->
  fs w !! (Config.UPLOAD_DIR ++ "/" ++ filename) = None ->
  exists w1 w2,
    FileProcessor.save_file env content filename w
    = (w1, Ok (Config.UPLOAD_DIR ++ "/" ++ filename))
    /\ fs w1 !! (Config.UPLOAD_DIR ++ "/" ++ filename) = Some content
    /\ FileProcessor.delete_file None (Config.UPLOAD_DIR ++ "/" ++ filename) w1
       = (w2, Ok true)
    /\ fs w2 = fs w /\ db w2 = db w /\ pinecone w2 = pinecone w
    /\ FileProcessor.delete_file None (Config.UPLOAD_DIR ++ "/" ++ filename) w2
       = (w2, Ok false).
Proof.
  intros Hplain Hwrite Hfree.
  unfold plain_name in Hplain.
  repeat (apply andb_true_iff in Hplain as [Hplain ?]).
  assert (Hjoin : Pathlib.joinpath Config.UPLOAD_DIR filename
                  = Config.UPLOAD_DIR ++ "/" ++ filename).
  { apply joinpath_plain.
    - now apply negb_true_iff.
    - now apply nonempty_neq.
    - intros ->. discriminate. }
  set (path := Config.UPLOAD_DIR ++ "/" ++ filename) in *.
  exists (with_file w path content).
  exists {| fs := base.delete path (fs (with_file w path content));
            db := db w; pinecone := pinecone w |}.
  split.
  { unfold FileProcessor.save_file. cbv zeta. rewrite Hjoin.
    change (String.eqb path Config.UPLOAD_DIR) with false. cbv iota.
    rewrite Hwrite. reflexivity. }
  split; [apply lookup_insert_eq|].
  split.
  { unfold FileProcessor.delete_file, try_catch, mbind at 1, get_world.
    cbn [fs with_file]. rewrite lookup_insert_eq. reflexivity. }
  cbn [fs db pinecone with_file].
  split; [now apply delete_insert_id|].
  split; [reflexivity|]. split; [reflexivity|].
  unfold FileProcessor.delete_file, try_catch, mbind at 1, get_world.
  cbn [fs]. rewrite lookup_delete_eq. reflexivity.
Qed.

(** X11, at an empty upload directory. *)
Lemma X11_save_then_delete_witness :
  exists w1 w2,
    FileProcessor.save_file sample_env [Byte.x61] "a.txt" empty_world
    = (w1, Ok "uploads/a.txt")
    /\ fs w1 !! "uploads/a.txt" = Some [Byte.x61]
    /\ FileProcessor.delete_file None "uploads/a.txt" w1 = (w2, Ok true)
    /\ fs w2 = ∅ /\ db w2 = empty_db /\ pinecone w2 = ∅
    /\ FileProcessor.delete_file None "uploads/a.txt" w2 = (w2, Ok false).
Proof.
  apply (X11_save_then_delete sample_env [Byte.x61] "a.txt" empty_world);
    reflexivity.
Defined.

(** ** A successful upload *)

Section UploadSuccess.

(** Indexing a new document never fails the upload, and touches neither
    the files nor the database. *)
Lemma indexing_is_harmless (env : Env) (text : string) (d : Z) (w : World) :
  exists w',
    try_catch
      (Backend.process_document_content env (DocumentsApi.ai_service env) text d)
      (fun _ => ret tt) w = (w', Ok tt)
    /\ fs w' = fs w /\ db w' = db w.
Proof.
  unfold DocumentsApi.ai_service, alternative_ai_service.
  cbn [Backend.process_document_content].
  destruct (alt_process_run env (AlternativeAIService.__init__ env) text d w)
    as (Hfs & Hdb & _).
  unfold try_catch, mbind, ret.
  destruct (AlternativeAIService.process_document_content env
              (AlternativeAIService.__init__ env) text d w) as [w' [r|e]];
    cbn [fst] in Hfs, Hdb; exists w'; auto.
Qed.

End UploadSuccess.

(** X12. When a file with an allowed name and an admissible size is
    uploaded, the bytes are written and text extraction yields a nonempty
    text, [upload_document] returns the new document, whether or not the
    indexing that follows succeeds.  Exactly one row is added to the
    documents, carrying the original name, the generated name and path,
    the size in bytes, the extracted text and the owner; the file is in
    the upload directory. *)
Theorem X12_upload_creates_document (env : Env) (filename : string)
    (content : list Byte.byte) (user_id : Z) (w : World) (text : string) :
  let path :=
    Config.UPLOAD_DIR ++ "/" ++ uuid4 env ++ Pathlib.suffix filename in
  FileProcessor.is_allowed_file filename = true ->
  (Z.of_nat (List.length content) <= Config.MAX_FILE_SIZE)%Z ->
  write_fault env = None ->
  snd (FileProcessor.extract_text env path (Py.lower (Pathlib.suffix filename))
         (with_file w path content)) = Ok (Some text) ->
  text <> "" ->
  exists w' document,
    DocumentsApi.upload_document env (Some filename) content user_id w
    = (w', Ok document)
    /\ documents (db w') = (documents (db w) ++ [document])%list
    /\ chat_sessions (db w') = chat_sessions (db w)
    /\ chat_messages (db w') = chat_messages (db w)
    /\ fs w' = <[path := content]> (fs w)
    /\ doc_original_filename document = filename
    /\ doc_filename document = uuid4 env ++ Pathlib.suffix filename
    /\ doc_file_path document = path
    /\ doc_file_size document = Z.of_nat (List.length content)
    /\ doc_content document = Some text
    /\ doc_user_id document = Some user_id.
Proof.
  intros path Hallowed Hsize Hwrite Hextract Htext.
  pose proof (process_uploaded_file_run env content filename w) as Hproc.
  cbv zeta in Hproc. fold path in Hproc.
  rewrite Hallowed, Hwrite, Hextract in Hproc.
  unfold DocumentsApi.upload_document.
  assert (Hname : truthy_opt (Some filename) = true).
  { destruct filename; [rewrite not_allowed_empty in Hallowed; discriminate|].
    reflexivity. }
  rewrite Hname. change (negb true) with false. cbv beta iota zeta.
  rewrite Hallowed. change (negb true) with false. cbv beta iota zeta.
  apply Z.ltb_ge in Hsize. rewrite Hsize.
  unfold mbind at 1. rewrite Hproc.
  assert (Htruthy : negb (truthy_opt (Some path)) || negb (truthy_opt (Some text))
                    = false).
  { destruct text; [congruence|]. reflexivity. }
  rewrite Htruthy.
  unfold mbind at 1, lift, new_DocumentCreate.
  unfold mbind at 1.
  unfold Crud.create_document at 1, mbind at 1 2, get_world, set_db, ret at 1.
  cbv beta iota.
  match goal with
  | |- context [mbind (try_catch (Backend.process_document_content ?e ?b ?t ?d) ?h)
                        ?k ?x] =>
      destruct (indexing_is_harmless e t d x) as (w' & Hidx & Hfs & Hdb)
  end.
  unfold mbind. rewrite Hidx. unfold ret.
  eexists _, _. split; [reflexivity|].
  rewrite Hdb, Hfs. cbn. repeat split.
Qed.

(** X12, at a small text file uploaded while nothing is indexed yet. *)
Lemma X12_upload_creates_document_witness :
  exists w' document,
    DocumentsApi.upload_document sample_env (Some "Notes.TXT")
      (list_byte_of_string " tea ") 7 empty_world
    = (w', Ok document)
    /\ documents (db w') = [document]
    /\ chat_sessions (db w') = []
    /\ chat_messages (db w') = []
    /\ fs w'
       = <["uploads/0f8fad5b-d9cb-469f-a165-70867728950e.TXT"
            := list_byte_of_string " tea "]> ∅
    /\ doc_original_filename document = "Notes.TXT"
    /\ doc_filename document = "0f8fad5b-d9cb-469f-a165-70867728950e.TXT"
    /\ doc_file_path document
       = "uploads/0f8fad5b-d9cb-469f-a165-70867728950e.TXT"
    /\ doc_file_size document = 5%Z
    /\ doc_content document = Some "tea"
    /\ doc_user_id document = Some 7%Z.
Proof.
  apply (X12_upload_creates_document sample_env "Notes.TXT"
           (list_byte_of_string " tea ") 7 empty_world "tea").
  - reflexivity.
  - unfold Config.MAX_FILE_SIZE. simpl. lia.
  - reflexivity.
  - vm_compute. reflexivity.
  - discriminate.
Defined.

(** ** Which failures make the service fall back *)

Section Fallback.

Lemma uint_no_E (d : Decimal.uint) :
  has_char "E" (NilEmpty.string_of_uint d) = false.
Proof. induction d; simpl; assumption || reflexivity. Qed.

Lemma str_of_Z_no_E (z : Z) : has_char "E" (Py.str_of_Z z) = false.
Proof.
  unfold Py.str_of_Z, NilZero.string_of_int, NilZero.string_of_uint.
  destruct (Z.to_int z) as [d|d]; destruct d;
    try reflexivity; cbn [has_char]; apply (uint_no_E (_ _)).
Qed.

(** A text without the first character of the needle does not hold the
    needle. *)
Lemma contains_needs_first (c : ascii) (n s : string) :
  has_char c s = false -> Py.contains (String c n) s = false.
Proof.
  induction s as [|a s IH]; [reflexivity|].
  intros H. cbn [has_char] in H. apply orb_false_iff in H as [Ha Hs].
  rewrite contains_cons, (IH Hs), orb_false_r.
  cbn [String.prefix]. destruct (ascii_dec c a) as [->|]; [|reflexivity].
  now rewrite Ascii.eqb_refl in Ha.
Qed.

Lemma status_text_is_no_refusal (status : Z) :
  Py.contains "Error: Cannot connect"
    ("Error: Ollama API returned status " ++ Py.str_of_Z status) = false.
Proof.
  change ("Error: Ollama API returned status " ++ Py.str_of_Z status)
    with (String "E" ("rror: Ollama API returned status " ++ Py.str_of_Z status)).
  rewrite contains_cons. apply orb_false_iff. split; [reflexivity|].
  apply contains_needs_first.
  rewrite has_char_app, str_of_Z_no_E. reflexivity.
Qed.

End Fallback.

(** X13. An HTTP error status does not trigger the fallback to the
    rule-based model.  When the test call made while the service is
    constructed raises nothing and Ollama replies to it with a status
    other than 200, the test response is the text
    ["Error: Ollama API returned status <n>"], and the service keeps the
    Ollama model. *)
Theorem X13_http_error_keeps_ollama (env : Env) (status : Z)
    (body : result (option string)) :
  langchain_fault env "test" = None ->
  ollama_post env "test" = Reply status body ->
  status <> 200%Z ->
  AlternativeAIService.llm (AlternativeAIService.__init__ env) = Ollama
  /\ llm_call env Ollama "test"
     = Ok ("Error: Ollama API returned status " ++ Py.str_of_Z status).
Proof.
  intros Hlc Hpost Hstatus.
  assert (Hcall : llm_call env Ollama "test"
                  = Ok ("Error: Ollama API returned status " ++ Py.str_of_Z status)).
  { unfold llm_call, OllamaLLM._call. rewrite Hlc, Hpost.
    apply Z.eqb_neq in Hstatus. rewrite Hstatus.
    destruct body as [[r|]|e]; reflexivity. }
  split; [|exact Hcall].
  cbn [AlternativeAIService.__init__ AlternativeAIService.llm].
  unfold AlternativeAIService.init_llm. rewrite Hcall.
  now rewrite status_text_is_no_refusal.
Qed.

(** X13, where Ollama answers with status 500. *)
Lemma X13_http_error_keeps_ollama_witness :
  AlternativeAIService.llm (AlternativeAIService.__init__ (sample_env_status 500))
  = Ollama
  /\ llm_call (sample_env_status 500) Ollama "test"
     = Ok "Error: Ollama API returned status 500".
Proof.
  apply (X13_http_error_keeps_ollama (sample_env_status 500) 500 (Ok None));
    [reflexivity | reflexivity | discriminate].
Defined.

(** ** Processing again, and finding what was processed *)

Section Reprocessing.

Lemma upsert_after_upsert (vs : list vector) (ns : string) (st : index_state) :
  NoDup (List.map v_id vs) ->
  (forall id, st !! (ns, id) = None) ->
  Pinecone.upsert_in vs ns
    (Pinecone.delete_all_in ns (Pinecone.upsert_in vs ns st))
  = Pinecone.upsert_in vs ns st.
Proof.
  intros Hnd Hempty. apply map_eq. intros [n i].
  destruct (decide (n = ns)) as [->|Hne].
  - destruct (List.in_dec String.string_dec i (List.map v_id vs)) as [Hin|Hout].
    + apply List.in_map_iff in Hin as (v & <- & Hv).
      now rewrite !lookup_upsert_present.
    + rewrite !lookup_upsert_absent by exact Hout.
      rewrite lookup_delete_all_in, Hempty. now destruct (decide (ns = ns)).
  - rewrite lookup_upsert_other by exact Hne.
    rewrite lookup_delete_all_in. destruct (decide (n = ns)); [contradiction|].
    reflexivity.
Qed.

(** A successful run tells that the service is ready and that neither the
    embedding nor the upsert failed. *)
Lemma alt_process_success (env : Env) (self : AlternativeAIService.t)
    (content : string) (d : Z) (w : World) :
  snd (AlternativeAIService.process_document_content env self content d w)
  = Ok (Some true) ->
  ready self = true /\ fault env OpEmbed = None /\ fault env OpUpsert = None
  /\ pinecone (fst (AlternativeAIService.process_document_content env self
                      content d w))
     = Pinecone.upsert_in (new_vectors env self content d)
         (AlternativeAIService._get_document_namespace d)
         (after_delete env (AlternativeAIService._get_document_namespace d)
            (pinecone w)).
Proof.
  intros Hok.
  destruct (alt_process_run env self content d w) as (_ & _ & Hrun).
  pose proof (f_equal snd Hrun) as Hs. cbn [snd] in Hs.
  pose proof (f_equal fst Hrun) as Hp. cbn [fst] in Hp.
  rewrite Hs in Hok. rewrite Hp.
  destruct (ready self); [|discriminate].
  destruct (fault env OpEmbed), (fault env OpUpsert); try discriminate.
  repeat split.
Qed.

End Reprocessing.

(** X14. Processing the same content of a document twice in a row
    leaves the index as the first processing left it.  The two runs may
    differ in which remote calls fail; the splitter and the embedding
    model are taken to give the same chunks and embeddings both times.
    When both runs report success, the first delete call went through
    (or the namespace did not exist) and so did the second, the index
    after the second run is the index after the first. *)
Theorem X14_reprocessing_is_idempotent (env1 env2 : Env)
    (self : AlternativeAIService.t) (content : string) (document_id : Z)
    (w : World) :
  let ns := AlternativeAIService._get_document_namespace document_id in
  let run1 :=
    AlternativeAIService.process_document_content env1 self content document_id w in
  let run2 :=
    AlternativeAIService.process_document_content env2 self content document_id
      (fst run1) in
  split_text env2 = split_text env1 ->
  embed_documents env2 = embed_documents env1 ->
  snd run1 = Ok (Some true) ->
  snd run2 = Ok (Some true) ->
  fault env1 OpDelete = None \/ ns ∉ Pinecone.namespaces (pinecone w) ->
  fault env2 OpDelete = None ->
  pinecone (fst run2) = pinecone (fst run1).
Proof.
  intros ns run1 run2 Hsplit Hembed Hok1 Hok2 Hdelete1 Hdelete2.
  apply alt_process_success in Hok1 as (_ & _ & _ & Hp1).
  apply alt_process_success in Hok2 as (_ & _ & _ & Hp2).
  fold run1 ns in Hp1. fold run2 ns in Hp2.
  assert (Hsame : new_vectors env2 self content document_id
                  = new_vectors env1 self content document_id).
  { unfold new_vectors. now rewrite Hsplit, Hembed. }
  rewrite Hp2, Hsame. unfold after_delete at 1. rewrite Hdelete2, Hp1.
  apply upsert_after_upsert; [apply new_vectors_NoDup|].
  intros id. now apply after_delete_cleared.
Qed.

(** X14, at the sample document processed over stale chunks; in the
    second run the search call of the index would fail. *)
Lemma X14_reprocessing_is_idempotent_witness :
  pinecone
    (fst (AlternativeAIService.process_document_content search_fails_env
            (AlternativeAIService.__init__ sample_env) "new text" 1
            (fst (AlternativeAIService.process_document_content sample_env
                    (AlternativeAIService.__init__ sample_env) "new text" 1
                    stale_world))))
  = pinecone
      (fst (AlternativeAIService.process_document_content sample_env
              (AlternativeAIService.__init__ sample_env) "new text" 1
              stale_world)).
Proof.
  apply (X14_reprocessing_is_idempotent sample_env search_fails_env
           (AlternativeAIService.__init__ sample_env) "new text" 1 stale_world).
  - reflexivity.
  - reflexivity.
  - vm_compute. reflexivity.
  - vm_compute. reflexivity.
  - left. reflexivity.
  - reflexivity.
Defined.

(** X15. Whether a processed document is found depends on whether a
    chunk record was built.  Suppose [process_document_content] reported
    success and its delete call went through (or the namespace did not
    exist before).  When [load_vectorstore] is run next, in a run whose
    statistics and store calls work, it returns the store of the
    document's namespace if at least one chunk record was built, and
    [None] if none was: a processing that built no record leaves, though
    it reported success, a document that is not found. *)
Theorem X15_processed_document_is_found (env env' : Env)
    (self : AlternativeAIService.t) (content : string) (document_id : Z)
    (w : World) :
  let ns := AlternativeAIService._get_document_namespace document_id in
  let w1 :=
    fst (AlternativeAIService.process_document_content env self content
           document_id w) in
  snd (AlternativeAIService.process_document_content env self content
         document_id w) = Ok (Some true) ->
  fault env OpDelete = None \/ ns ∉ Pinecone.namespaces (pinecone w) ->
  fault env' OpStats = None ->
  fault env' OpStore = None ->
  AlternativeAIService.load_vectorstore env' self document_id w1
  = (w1,
     Ok match new_vectors env self content document_id with
        | [] => None
        | _ :: _ => Some {| Pinecone.vs_namespace := ns |}
        end).
Proof.
  intros ns w1 Hok Hdelete Hstats Hstore.
  apply alt_process_success in Hok as (Hready & _ & _ & Hp).
  fold ns w1 in Hp.
  unfold ready in Hready. apply andb_true_iff in Hready as [Hindex _].
  unfold AlternativeAIService.load_vectorstore, try_catch.
  rewrite Hindex. change (negb true) with false. cbv beta iota zeta.
  unfold Pinecone.describe_index_stats, Pinecone.open_store,
    mbind, remote, get_world, ret.
  rewrite Hstats. fold ns. rewrite Hp.
  destruct (new_vectors env self content document_id) as [|v vs] eqn:E.
  - rewrite bool_decide_eq_false_2; [reflexivity|].
    intros Hin. apply elem_of_namespaces in Hin as (i & x & Hx).
    cbn in Hx. rewrite after_delete_cleared in Hx by exact Hdelete.
    discriminate.
  - rewrite bool_decide_eq_true_2.
    + cbn [negb]. rewrite Hstore. reflexivity.
    + apply elem_of_namespaces. exists (v_id v), v.
      apply lookup_upsert_present; [|now left].
      rewrite <- E. apply new_vectors_NoDup.
Qed.

(** X15, at the sample document: found when its one chunk was stored,
    and not found when the splitter gave no chunk. *)
Lemma X15_processed_document_is_found_witness :
  AlternativeAIService.load_vectorstore sample_env
    (AlternativeAIService.__init__ sample_env) 1 processed_world
  = (processed_world, Ok (Some {| Pinecone.vs_namespace := "doc_1" |}))
  /\ snd (AlternativeAIService.process_document_content no_chunks_env
            (AlternativeAIService.__init__ sample_env) "" 1 stale_world)
     = Ok (Some true)
  /\ snd (AlternativeAIService.load_vectorstore sample_env
            (AlternativeAIService.__init__ sample_env) 1
            (fst (AlternativeAIService.process_document_content no_chunks_env
                    (AlternativeAIService.__init__ sample_env) "" 1 stale_world)))
     = Ok None.
Proof.
  split; [|split].
  - apply (X15_processed_document_is_found sample_env sample_env
             (AlternativeAIService.__init__ sample_env) "Tea is a drink." 1
             empty_world).
    + vm_compute. reflexivity.
    + left. reflexivity.
    + reflexivity.
    + reflexivity.
  - vm_compute. reflexivity.
  - rewrite (X15_processed_document_is_found no_chunks_env sample_env
               (AlternativeAIService.__init__ sample_env) "" 1 stale_world).
    + reflexivity.
    + vm_compute. reflexivity.
    + left. reflexivity.
    + reflexivity.
    + reflexivity.
Defined.

(** ** Starting a chat from the web page *)

Section WebStart.

Lemma web_send_message_run (env : Env) (str_exn : exn -> string) (session_id : Z)
    (message : string) (user_id : Z) (w : World) (session : ChatSession)
    (answer : string) :
  Crud.get_chat_session (db w) session_id user_id = Some session ->
  Backend.chat_with_document env (WebApi.ai_service env)
    (cs_document_id session) message
    (Some (WebApi.pair_history (Crud.get_session_messages (db w) session_id) []))
    w = (w, Ok answer) ->
  WebApi.send_message env str_exn session_id message user_id w
  = (with_exchange env w session_id message answer,
     Ok (RedirectResponse ("/chat/" ++ Py.str_of_Z session_id) 302)).
Proof.
  intros Hfound Hanswer.
  unfold WebApi.send_message, mbind at 1, get_world. rewrite Hfound.
  unfold try_catch, mbind at 1, get_world.
  unfold mbind at 1. rewrite Hanswer.
  unfold mbind at 1. rewrite create_chat_message_schema.
  unfold mbind at 1. rewrite create_chat_message_schema.
  unfold with_exchange, message_row.
  cbn [db chat_messages documents chat_sessions fs pinecone
       mc_content mc_is_user mc_session_id].
  rewrite <- List.app_assoc. reflexivity.
Qed.

Lemma next_id_above (ids : list Z) (x : Z) :
  In x ids -> (x < Crud.next_id ids)%Z.
Proof.
  unfold Crud.next_id. induction ids as [|a ids IH]; [intros []|].
  cbn [List.fold_right]. intros [->|H]; [lia|].
  specialize (IH H). lia.
Qed.

Lemma find_last_only {A} (f : A -> bool) (l : list A) (x : A) :
  (forall y, In y l -> f y = false) -> f x = true ->
  List.find f (l ++ [x]) = Some x.
Proof.
  intros Hl Hx. induction l as [|a l IH]; cbn [app List.find].
  - now rewrite Hx.
  - rewrite (Hl a (or_introl eq_refl)). apply IH.
    intros y Hy. apply Hl. now right.
Qed.

Lemma find_fresh_session (sessions : list ChatSession) (s : ChatSession)
    (user_id : Z) :
  cs_id s = Crud.next_id (List.map cs_id sessions) ->
  cs_user_id s = Some user_id ->
  List.find
    (fun x => (cs_id x =? cs_id s)%Z &&
              match cs_user_id x with Some u => (u =? user_id)%Z | None => false end)
    (sessions ++ [s]) = Some s.
Proof.
  intros Hid Huser. apply find_last_only.
  - intros x Hx. apply andb_false_iff. left. apply Z.eqb_neq. rewrite Hid.
    pose proof (next_id_above (List.map cs_id sessions) (cs_id x)
                  (List.in_map cs_id _ _ Hx)). lia.
  - rewrite Z.eqb_refl, Huser, Z.eqb_refl. reflexivity.
Qed.

Lemma touch_fresh_session (env : Env) (sessions : list ChatSession)
    (s : ChatSession) :
  cs_id s = Crud.next_id (List.map cs_id sessions) ->
  cs_updated_at s = now env ->
  List.map (touch env (cs_id s)) (sessions ++ [s]) = (sessions ++ [s])%list.
Proof.
  intros Hid Hnow. rewrite List.map_app. f_equal.
  - rewrite <- (List.map_id sessions) at 2. apply List.map_ext_in.
    intros x Hx. unfold touch.
    pose proof (next_id_above (List.map cs_id sessions) (cs_id x)
                  (List.in_map cs_id _ _ Hx)) as Hlt.
    destruct (Z.eqb_spec (cs_id x) (cs_id s)); [lia | reflexivity].
  - cbn [List.map]. unfold touch. rewrite Z.eqb_refl, <- Hnow.
    now destruct s.
Qed.

End WebStart.

(** X16. Starting a chat from a document page, for a document the user
    owns, always succeeds: one session is added, with a fresh id, titled
    by [get_chat_title] of the message and bound to the document and the
    user; the backend is asked the message about the document, with the
    history of the new session, once the session is stored; the message
    and the answer the backend gave are stored in the session, in this
    order; and the browser is sent to the page of the new session.
    Documents, files and index are left as they were. *)
Theorem X16_web_new_chat_creates_session (env : Env) (str_exn : exn -> string)
    (document_id : Z) (message : string) (user_id : Z) (w : World)
    (document : Document) :
  Crud.get_document (db w) document_id user_id = Some document ->
  exists w' session answer question_row answer_row,
    WebApi.start_new_chat_web env str_exn document_id message user_id w
    = (w', Ok (RedirectResponse ("/chat/" ++ Py.str_of_Z (cs_id session)) 302))
    /\ chat_sessions (db w') = (chat_sessions (db w) ++ [session])%list
    /\ Forall (fun s => cs_id s <> cs_id session) (chat_sessions (db w))
    /\ (cs_title session = AlternativeAIService.get_chat_title message
        /\ cs_document_id session = document_id
        /\ cs_user_id session = Some user_id)
    /\ Backend.chat_with_document env (WebApi.ai_service env) document_id message
         (Some (WebApi.pair_history
                  (Crud.get_session_messages (db w) (cs_id session)) []))
         (with_session w session)
       = (with_session w session, Ok answer)
    /\ chat_messages (db w')
       = (chat_messages (db w) ++ [question_row; answer_row])%list
    /\ (msg_content question_row = message
        /\ msg_is_user question_row = true
        /\ msg_session_id question_row = Some (cs_id session))
    /\ (msg_content answer_row = answer
        /\ msg_is_user answer_row = false
        /\ msg_session_id answer_row = Some (cs_id session))
    /\ documents (db w') = documents (db w)
    /\ fs w' = fs w /\ pinecone w' = pinecone w.
Proof.
  intros Hdoc.
  set (session :=
         {| cs_id := Crud.next_id (List.map cs_id (chat_sessions (db w)));
            cs_title := AlternativeAIService.get_chat_title message;
            cs_created_at := now env; cs_updated_at := now env;
            cs_user_id := Some user_id; cs_document_id := document_id |}).
  set (w1 := with_session w session).
  assert (Hcreate :
    Crud.create_chat_session env
      (Schema {| sc_title := Backend.get_chat_title (WebApi.ai_service env) message;
                 sc_document_id := document_id |}) user_id w
    = (w1, Ok session)) by reflexivity.
  assert (Hfound : Crud.get_chat_session (db w1) (cs_id session) user_id
                   = Some session).
  { unfold Crud.get_chat_session. cbn [db chat_sessions w1 with_session].
    now apply find_fresh_session. }
  destruct (backend_chat_total env (WebApi.ai_service env)
              (cs_document_id session) message
              (Some (WebApi.pair_history
                       (Crud.get_session_messages (db w1) (cs_id session)) []))
              w1) as [answer Hanswer].
  pose proof (web_send_message_run env str_exn (cs_id session) message user_id
                w1 session answer Hfound Hanswer) as Hsend.
  eexists _, session, answer, _, _. split.
  { unfold WebApi.start_new_chat_web, mbind at 1, get_world. rewrite Hdoc.
    unfold try_catch, mbind at 1. rewrite Hcreate, Hsend. reflexivity. }
  unfold with_exchange.
  cbn [db chat_sessions chat_messages documents fs pinecone w1 with_session].
  split; [now apply touch_fresh_session|].
  split.
  { apply List.Forall_forall. intros s Hs.
    pose proof (next_id_above (List.map cs_id (chat_sessions (db w))) (cs_id s)
                  (List.in_map cs_id _ _ Hs)) as Hlt.
    cbn [cs_id session]. lia. }
  split; [repeat split|].
  split; [exact Hanswer|].
  repeat split.
Qed.

(** X16, at the sample library: the document has not been processed, and
    the answer stored is the backend's notice of that. *)
Lemma X16_web_new_chat_creates_session_witness :
  exists w' session question_row answer_row,
    WebApi.start_new_chat_web sample_env sample_str_exn 5
      "What   is this document about, in short?" 7 sample_library_world
    = (w', Ok (RedirectResponse ("/chat/" ++ Py.str_of_Z (cs_id session)) 302))
    /\ chat_sessions (db w') = [sample_session; session]
    /\ cs_title session = "What is this document about,"
    /\ chat_messages (db w')
       = (sample_messages ++ [question_row; answer_row])%list
    /\ msg_content question_row = "What   is this document about, in short?"
    /\ msg_content answer_row
       = "Error: Document not processed or vectorstore not found. Please reprocess the document.".
Proof.
  destruct (X16_web_new_chat_creates_session sample_env sample_str_exn 5
              "What   is this document about, in short?" 7 sample_library_world
              sample_document eq_refl)
    as (w' & session & answer & question_row & answer_row & Hrun & Hsessions & _
        & (Htitle & _) & Hchat & Hmessages & (Hq & _) & (Ha & _) & _).
  exists w', session, question_row, answer_row.
  split; [exact Hrun|]. split; [exact Hsessions|].
  split; [rewrite Htitle; reflexivity|].
  split; [exact Hmessages|]. split; [exact Hq|].
  rewrite Ha.
  destruct (backend_chat_total sample_env (WebApi.ai_service sample_env) 5
              "What   is this document about, in short?"
              (Some (WebApi.pair_history
                       (Crud.get_session_messages (db sample_library_world)
                          (cs_id session)) []))
              (with_session sample_library_world session)) as [r Hr].
  rewrite Hr in Hchat. injection Hchat as <-.
  vm_compute in Hr. now injection Hr as <-.
Defined.

(** ** Documents belong to their owner *)

Section Ownership.

Lemma get_document_owner (d : Db) (document_id user_id : Z) (doc : Document) :
  Crud.get_document d document_id user_id = Some doc ->
  In doc (documents d) /\ doc_id doc = document_id
  /\ doc_user_id doc = Some user_id.
Proof.
  unfold Crud.get_document. intros H. apply List.find_some in H as [Hin H].
  apply andb_true_iff in H as [Hid Hu]. apply Z.eqb_eq in Hid.
  destruct (doc_user_id doc) as [u|]; [|discriminate].
  apply Z.eqb_eq in Hu. subst. auto.
Qed.

Lemma get_document_foreign (d : Db) (document_id user_id : Z) :
  (forall doc, In doc (documents d) -> doc_id doc = document_id ->
               doc_user_id doc <> Some user_id) ->
  Crud.get_document d document_id user_id = None.
Proof.
  intros H. destruct (Crud.get_document d document_id user_id) as [doc|] eqn:E;
    [|reflexivity].
  apply get_document_owner in E as (Hin & Hid & Hu).
  now destruct (H doc Hin Hid).
Qed.

End Ownership.

(** X17. A user reaches only documents of their own: the document that
    [GET /{document_id}] returns is a stored document with the requested
    id whose owner is the caller; and when no stored document with that id
    belongs to the caller (it does not exist, or it is someone else's),
    the detail endpoint, the summary endpoint and the chat-start page all
    raise HTTP 404 "Document not found" and change nothing. *)
Theorem X17_documents_are_private (env : Env) (str_exn : exn -> string)
    (document_id user_id : Z) (message : string) (w : World) :
  (forall document,
     snd (DocumentsApi.get_document_detail document_id user_id w) = Ok document ->
     In document (documents (db w))
     /\ doc_id document = document_id
     /\ doc_user_id document = Some user_id)
  /\ ((forall doc, In doc (documents (db w)) -> doc_id doc = document_id ->
                   doc_user_id doc <> Some user_id) ->
      DocumentsApi.get_document_detail document_id user_id w
      = (w, Raise (HTTPException 404 "Document not found"))
      /\ DocumentsApi.summarize_document env document_id user_id w
         = (w, Raise (HTTPException 404 "Document not found"))
      /\ WebApi.start_new_chat_web env str_exn document_id message user_id w
         = (w, Raise (HTTPException 404 "Document not found"))).
Proof.
  split.
  - intros document. unfold DocumentsApi.get_document_detail, mbind, get_world.
    destruct (Crud.get_document (db w) document_id user_id) as [doc|] eqn:E;
      [|discriminate].
    intros [= <-]. now apply get_document_owner in E.
  - intros H. apply get_document_foreign in H.
    unfold DocumentsApi.get_document_detail, DocumentsApi.summarize_document,
      WebApi.start_new_chat_web, mbind, get_world.
    rewrite H. repeat split.
Qed.

(** X17, where user 8 asks for the document of user 7. *)
Lemma X17_documents_are_private_witness :
  DocumentsApi.get_document_detail 5 8 sample_library_world
  = (sample_library_world, Raise (HTTPException 404 "Document not found"))
  /\ DocumentsApi.summarize_document sample_env 5 8 sample_library_world
     = (sample_library_world, Raise (HTTPException 404 "Document not found"))
  /\ WebApi.start_new_chat_web sample_env sample_str_exn 5 "hello" 8
       sample_library_world
     = (sample_library_world, Raise (HTTPException 404 "Document not found")).
Proof.
  apply (X17_documents_are_private sample_env sample_str_exn 5 8 "hello"
           sample_library_world).
  intros doc [<-|[]] _. discriminate.
Defined.

(** X18. The summary endpoint never answers HTTP 500 and never changes
    anything: for a document of the caller that has content it returns
    the backend's summary (which is the fixed text
    ["Error generating summary."] when the model fails), for one without
    content it raises HTTP 400, and otherwise HTTP 404. *)
Theorem X18_summary_endpoint (env : Env) (document_id user_id : Z) (w : World) :
  exists r,
    DocumentsApi.summarize_document env document_id user_id w = (w, r)
    /\ (forall detail, r <> Raise (HTTPException 500 detail))
    /\ match Crud.get_document (db w) document_id user_id with
       | None => r = Raise (HTTPException 404 "Document not found")
       | Some document =>
           match doc_content document with
           | Some (String c rest) =>
               exists summary,
                 r = Ok summary
                 /\ Backend.summarize_document env (DocumentsApi.ai_service env)
                      (String c rest) w = (w, Ok summary)
           | _ => r = Raise (HTTPException 400 "Document content not available")
           end
       end.
Proof.
  unfold DocumentsApi.summarize_document, mbind, get_world.
  destruct (Crud.get_document (db w) document_id user_id) as [doc|].
  - destruct (doc_content doc) as [[|c rest]|];
      cbn [truthy_opt Py.truthy Py.nonempty negb].
    + eexists. split; [reflexivity|]. split; [discriminate | reflexivity].
    + destruct (backend_summarize_total env (DocumentsApi.ai_service env)
                  (String c rest) w) as [summary Hs].
      exists (Ok summary). unfold try_catch. rewrite Hs.
      split; [reflexivity|]. split; [discriminate|]. now exists summary.
    + eexists. split; [reflexivity|]. split; [discriminate | reflexivity].
  - eexists. split; [reflexivity|]. split; [discriminate | reflexivity].
Qed.

(** ** What the rule-based model answers to a chat prompt *)

Section RuleBasedAnswer.

Lemma split_on_app (p : ascii -> bool) (sep : ascii) (a b : string) :
  p sep = true ->
  Py.split_on p (a ++ String sep b) = (Py.split_on p a ++ Py.split_on p b)%list.
Proof.
  intros Hsep. induction a as [|c a IH].
  - change ("" ++ String sep b) with (String sep b).
    cbn [Py.split_on]. now rewrite Hsep.
  - change (String c a ++ String sep b) with (String c (a ++ String sep b)).
    cbn [Py.split_on]. rewrite IH.
    destruct (split_on_pieces p a) as (h & t & -> & _).
    destruct (p c); reflexivity.
Qed.

Lemma lines_app (a b : string) :
  Reading.lines (a ++ nl ++ b) = (Reading.lines a ++ Reading.lines b)%list.
Proof.
  unfold Reading.lines, Py.split_char.
  change (nl ++ b) with (String (ascii_of_nat 10) b).
  apply split_on_app, Ascii.eqb_refl.
Qed.

(** The first line of a text is a prefix of the text. *)
Lemma first_line (s : string) :
  exists h t b, Reading.lines s = h :: t /\ s = h ++ b.
Proof.
  unfold Reading.lines, Py.split_char.
  destruct (split_on_pieces (Ascii.eqb (ascii_of_nat 10)) s)
    as (h & t & E & [b Hb] & _).
  now exists h, t, b.
Qed.

Lemma question_line_lines (x h : string) (t : list string) :
  Reading.lines x = h :: t ->
  Reading.lines ("Question: " ++ x) = ("Question: " ++ h) :: t.
Proof.
  unfold Reading.lines, Py.split_char. intros E.
  change ("Question: " ++ x)
    with (String "Q" (String "u" (String "e" (String "s" (String "t"
           (String "i" (String "o" (String "n" (String ":" (String " " x)))))))))).
  cbn [Py.split_on]. rewrite E. reflexivity.
Qed.

Lemma question_line_is_question (h : string) :
  Py.contains "context:" (Py.lower h) = false ->
  Reading.is_question_line ("Question: " ++ h) = true.
Proof.
  intros H. unfold Reading.is_question_line, Reading.is_context_line.
  change (Py.lower ("Question: " ++ h)) with ("question: " ++ Py.lower h).
  apply andb_true_iff. split.
  - apply negb_true_iff.
    change ("question: " ++ Py.lower h)
      with (String "q" (String "u" (String "e" (String "s" (String "t"
             (String "i" (String "o" (String "n" (String ":"
               (String " " (Py.lower h))))))))))).
    rewrite !contains_cons. rewrite H. reflexivity.
  - change ("question: " ++ Py.lower h)
      with (String "q" ("uestion: " ++ Py.lower h)).
    rewrite contains_cons. reflexivity.
Qed.

Lemma plain_lines_kept (ls rest : list string) :
  Forall (fun l => Py.contains "context:" (Py.lower l) = false
                   /\ Py.contains "question:" (Py.lower l) = false) ls ->
  Reading.before_question (ls ++ rest) = (ls ++ Reading.before_question rest)%list
  /\ List.filter (fun l => negb (Reading.is_context_line l)) ls = ls.
Proof.
  induction 1 as [|l ls [Hc Hq] _ [IH1 IH2]]; [split; reflexivity|].
  assert (Hcl : Reading.is_context_line l = false) by exact Hc.
  assert (Hql : Reading.is_question_line l = false).
  { unfold Reading.is_question_line. now rewrite Hq, andb_false_r. }
  split.
  - change ((l :: ls) ++ rest)%list with (l :: (ls ++ rest))%list.
    cbn [Reading.before_question]. now rewrite Hql, IH1.
  - cbn [List.filter]. rewrite Hcl. cbn [negb]. now rewrite IH2.
Qed.

End RuleBasedAnswer.

(** X19. When the retrieved context has no line that mentions ["context:"]
    or ["question:"] and the question does not mention ["context:"], the
    rule-based model answers the chat prompt with
    ["Based on the document context: "] followed by the first three lines
    of the context (stripped, joined by single spaces; the blank line
    that closes the context counts as a line).  The answer does not depend
    on the question. *)
Theorem X19_rule_based_answer (context question : string) :
  Forall (fun l => Py.contains "context:" (Py.lower l) = false
                   /\ Py.contains "question:" (Py.lower l) = false)
         (Reading.lines context) ->
  Py.contains "context:" (Py.lower question) = false ->
  SimpleLLM._call (AlternativeAIService.chat_prompt context question)
  = Ok ("Based on the document context: "
        ++ Py.join " "
             (List.firstn 3
                (List.map Py.strip (Reading.lines context ++ [""])%list))).
Proof.
  intros Hctx Hq. rewrite simple_call_reads.
  unfold AlternativeAIService.chat_prompt.
  set (header :=
         "Based on the following context from the document, please answer the question.").
  destruct (first_line question) as (h & t & b & E & Hb).
  assert (Hh : Py.contains "context:" (Py.lower h) = false).
  { rewrite Hb, lower_app in Hq.
    destruct (Py.contains "context:" (Py.lower h)) eqn:Eh; [|reflexivity].
    now rewrite (contains_app_r _ _ _ Eh) in Hq. }
  assert (Hlines :
    Reading.lines
      (header ++ nl ++ nl ++ "Context:" ++ nl ++ context ++ nl ++ nl
       ++ "Question: " ++ question ++ nl ++ nl ++ "Answer:")
    = header :: "" :: "Context:"
      :: ((Reading.lines context ++ [""])
          ++ ("Question: " ++ h)%string :: (t ++ [""; "Answer:"]))%list).
  { rewrite (lines_app header).
    change (nl ++ "Context:" ++ nl ++ context ++ nl ++ nl ++ "Question: "
            ++ question ++ nl ++ nl ++ "Answer:")
      with ("" ++ nl ++ "Context:" ++ nl ++ context ++ nl ++ nl ++ "Question: "
            ++ question ++ nl ++ nl ++ "Answer:").
    rewrite (lines_app ""), (lines_app "Context:"), (lines_app context).
    change (nl ++ "Question: " ++ question ++ nl ++ nl ++ "Answer:")
      with ("" ++ nl ++ "Question: " ++ question ++ nl ++ nl ++ "Answer:").
    rewrite (lines_app "").
    rewrite (question_line_lines (question ++ nl ++ nl ++ "Answer:") h
               (t ++ [""; "Answer:"])%list).
    - rewrite <- List.app_assoc. reflexivity.
    - rewrite (lines_app question), E. reflexivity. }
  rewrite Hlines. clear Hlines.
  assert (Hall : Forall (fun l => Py.contains "context:" (Py.lower l) = false
                                  /\ Py.contains "question:" (Py.lower l) = false)
                        (Reading.lines context ++ [""])%list).
  { apply List.Forall_app. split; [exact Hctx|]. repeat constructor. }
  destruct (plain_lines_kept (Reading.lines context ++ [""])
              (("Question: " ++ h)%string :: (t ++ [""; "Answer:"]))%list Hall)
    as [Hbefore Hfilter].
  unfold Reading.collected.
  cbn [Reading.before_question].
  change (Reading.is_question_line header) with false.
  change (Reading.is_question_line "") with false.
  change (Reading.is_question_line "Context:") with false.
  cbv iota. rewrite Hbefore.
  cbn [Reading.before_question]. rewrite (question_line_is_question h Hh).
  rewrite List.app_nil_r.
  cbn [Reading.after_context].
  change (Reading.is_context_line header) with false.
  change (Reading.is_context_line "") with false.
  change (Reading.is_context_line "Context:") with true.
  cbv iota. rewrite Hfilter.
  unfold Reading.answer.
  destruct (first_line context) as (c0 & ct & cb & Ec & _).
  rewrite Ec. reflexivity.
Qed.

Lemma X19_rule_based_answer_witness :
  SimpleLLM._call
    (AlternativeAIService.chat_prompt
       ("Tea is green." ++ nl ++ "It is hot.") "Which tea?")
  = Ok "Based on the document context: Tea is green. It is hot. ".
Proof.
  apply (X19_rule_based_answer ("Tea is green." ++ nl ++ "It is hot.")
           "Which tea?").
  - repeat constructor.
  - reflexivity.
Defined.
